(** * GoldLens factor engine: a shallow embedding of [factor_engine.py]

    The attribution pipeline of [class FactorEngine] is embedded method by
    method: event impact scoring, daily aggregation, densification, price
    alignment and the rolling influence curve.  Further sections embed the
    ranking of factors and the pure steps of [gold_analyzer.py],
    [news_fetcher.py] and [event_extractor.py].

    Conventions.
    - Python floats are idealised as exact rationals ([Q], compared with
      [==]); [NaN] in a price column is [None].
    - A Python dict read with [d.get(k, default)] is a record of optional
      fields read with [get].
    - A pandas DataFrame is the list of its rows, in row order.
    - A calendar date is its day number ([Z]). *)

From Stdlib Require Import ZArith QArith Qround Qabs List String Bool Lia Lqa.
From Stdlib Require Import Setoid Lists.Finite Ascii Sorting.Sorted Sorting.Permutation.
Import ListNotations.

Open Scope Q_scope.

(** ** Python and numpy primitives used by the engine *)

Module Py.

(** [d.get(k, default)] on an optional field. *)
Definition get {A : Type} (field : option A) (default : A) : A :=
  match field with
  | Some v => v
  | None => default
  end.

(** Truthiness of a list: [if factor_tags:]. *)
Definition truthy {A : Type} (l : list A) : bool :=
  match l with
  | [] => false
  | _ :: _ => true
  end.

(** [sum(l)]. *)
Fixpoint qsum (l : list Q) : Q :=
  match l with
  | [] => 0
  | x :: xs => x + qsum xs
  end.

(** [max(l)]: the first maximal element; Python raises on the empty list,
    which the engine never passes (the call is guarded by [if factor_tags]). *)
Definition max_step (m y : Q) : Q :=
  if Qlt_le_dec m y then y else m.

Definition max (l : list Q) : Q :=
  match l with
  | [] => 0
  | x :: xs => fold_left max_step xs x
  end.

(** [np.mean(l)] on a non-empty list. *)
Definition mean (l : list Q) : Q :=
  qsum l / inject_Z (Z.of_nat (List.length l)).

(** [round(x, 3)]: the nearest multiple of 1/1000.  Where the exact value
    lies halfway between two multiples the model takes the even one; the
    code rounds the binary64 product, which at such a point may fall on
    either side, so the statements about the score rest only on the result
    being a multiple of 1/1000 at distance at most 1/2000. *)
Definition round_half_even (x : Q) : Z :=
  let f := Qfloor x in
  match Qcompare (x - inject_Z f) (1 # 2) with
  | Lt => f
  | Gt => (f + 1)%Z
  | Eq => if Z.even f then f else (f + 1)%Z
  end.

Definition round3 (x : Q) : Q :=
  round_half_even (x * 1000) # 1000.

(** [l[:n]]: the first [n] items; for a negative [n], all but the last
    [-n] items. *)
Definition slice_to {A : Type} (l : list A) (n : Z) : list A :=
  if (0 <=? n)%Z then firstn (Z.to_nat n) l
  else firstn (List.length l - Z.to_nat (- n)) l.

End Py.

(** ** Data model *)

(** One entry of [event['factor_tags']]; every key may be missing. *)
Record Tag := mkTag {
  factor : option string;
  polarity : option string;
  strength : option Q;
  confidence : option Q
}.

(** A structured event, as produced by the extractor.  The identifier is
    only counted, and a null one is not: [event_id] is [None] when the key
    is missing, [Some None] when it holds [None], [Some (Some id)]
    otherwise. *)
Record Event := mkEvent {
  event_type : option string;
  timestamp_utc : option string;
  factor_tags : option (list Tag);
  event_id : option (option string)
}.

(** An entry of [config['event_types']]. *)
Record EventTypeInfo := mkEventTypeInfo {
  default_importance : option Q
}.

(** The part of [factor_config.json] the engine reads. *)
Record Config := mkConfig {
  event_types : string -> option EventTypeInfo
}.

(** A row of the frame returned by [aggregate_factor_scores_by_day] and by
    [create_factor_timeseries]. *)
Record FactorDayRecord := mkFactorDay {
  date : Z;
  factor_code : string;
  score : Q;
  intensity : Q;
  event_count : Z
}.

(** A float that may be infinite, as a quotient by zero is; [NaN] is the
    [None] of the option around it. *)
Inductive Float : Type :=
  | Finite (q : Q)
  | Infinity (negative : bool).

(** A row of the frame returned by [align_with_price]. *)
Record AlignedRecord := mkAligned {
  a_date : Z;
  a_factor_code : string;
  a_score : Q;
  a_intensity : Q;
  a_event_count : Z;
  gold_price : option Q;
  price_change_pct : option Float
}.

(** A row of the frame returned by [calculate_factor_influence_curve]. *)
Record InfluenceRecord := mkInfluence {
  i_date : Z;
  i_factor_code : string;
  normalized_influence : Q;
  rolling_intensity : Q;
  i_score : Q;
  i_gold_price : option Q
}.

(** ** pandas primitives used by the engine *)

Module Pandas.

(** [Series.unique()]: distinct values in order of first appearance. *)
Fixpoint unique (l : list string) : list string :=
  match l with
  | [] => []
  | x :: xs => x :: filter (fun y => negb (String.eqb y x)) (unique xs)
  end.

(** [pd.date_range(start, end, freq='D')]. *)
Definition date_range (start_date end_date : Z) : list Z :=
  map (fun i => (start_date + Z.of_nat i)%Z)
      (seq 0 (Z.to_nat (end_date - start_date + 1))).

(** Group keys [(date, factor_code)] and their sort order. *)
Definition key : Type := (Z * string)%type.

Definition key_eqb (k1 k2 : key) : bool :=
  (fst k1 =? fst k2)%Z && String.eqb (snd k1) (snd k2).

Definition key_leb (k1 k2 : key) : bool :=
  (fst k1 <? fst k2)%Z
  || ((fst k1 =? fst k2)%Z && String.leb (snd k1) (snd k2)).

Fixpoint unique_keys (l : list key) : list key :=
  match l with
  | [] => []
  | k :: ks => k :: filter (fun k' => negb (key_eqb k' k)) (unique_keys ks)
  end.

Fixpoint insert_key (k : key) (l : list key) : list key :=
  match l with
  | [] => [k]
  | k' :: ks => if key_leb k k' then k :: l else k' :: insert_key k ks
  end.

Definition sort_keys (l : list key) : list key :=
  fold_right insert_key [] l.

(** [count]: the number of values of a column that are not null. *)
Definition count {A : Type} (col : list (option A)) : nat :=
  List.length (filter (fun v => match v with Some _ => true | None => false end) col).

(** [Series.ffill()]: carry the last value seen down the column. *)
Fixpoint ffill_from (last : option Q) (col : list (option Q)) : list (option Q) :=
  match col with
  | [] => []
  | Some p :: rest => Some p :: ffill_from (Some p) rest
  | None :: rest => last :: ffill_from last rest
  end.

Definition ffill (col : list (option Q)) : list (option Q) :=
  ffill_from None col.

(** [Series.rolling(window, min_periods=1).sum()]: at row [i], the sum of
    rows [max(0, i - window + 1) .. i]. *)
Definition rolling_sum (window : nat) (col : list Q) : list Q :=
  map (fun i => Py.qsum (firstn (Nat.min window (S i)) (skipn (S i - window) col)))
      (seq 0 (List.length col)).

(** [Series.head(n)], which is [iloc[:n]]. *)
Definition head {A : Type} (l : list A) (n : Z) : list A :=
  Py.slice_to l n.

End Pandas.

(** A row of the intermediate [records] list built by
    [aggregate_factor_scores_by_day], one per (event, tag). *)
Record ScoreRecord := mkScoreRecord {
  r_date : Z;
  r_factor_code : string;
  r_signed_score : Q;
  r_abs_score : Q;
  r_event_id : option string
}.

(** ** The engine *)

Module FactorEngine.

Section Engine.

(** [self.config], loaded once by [__init__]. *)
Variable config : Config.

(** [pd.to_datetime(timestamp).date()] inside [try: ... except: continue]:
    [None] stands for every timestamp on which the conversion raises. *)
Variable to_date : string -> option Z.

Open Scope string_scope.

(** *** [calculate_event_impact_score] *)

Definition type_importance (event : Event) : Q :=
  let event_type := Py.get (event_type event) "UNKNOWN" in
  Py.get
    (default_importance
       (Py.get (event_types config event_type) (mkEventTypeInfo None)))
    (1 # 2).

Definition max_strength (event : Event) : Q :=
  let factor_tags := Py.get (factor_tags event) [] in
  if Py.truthy factor_tags
  then Py.max (map (fun tag => Py.get (strength tag) 0) factor_tags)
  else 1 # 2.

Definition avg_confidence (event : Event) : Q :=
  let factor_tags := Py.get (factor_tags event) [] in
  if Py.truthy factor_tags
  then Py.mean (map (fun tag => Py.get (confidence tag) 0) factor_tags)
  else 1 # 2.

Definition market_volatility_multiplier : Q := 1.

Definition calculate_event_impact_score (event : Event) : Q :=
  let impact_score :=
    type_importance event * max_strength event * avg_confidence event
    * market_volatility_multiplier in
  Py.round3 impact_score.

(** *** [aggregate_factor_scores_by_day] *)

Definition signed_score (impact_score : Q) (tag : Tag) : Q :=
  let p := Py.get (polarity tag) "0" in
  let s := Py.get (strength tag) 0 in
  if String.eqb p "+" then impact_score * s
  else if String.eqb p "-" then - impact_score * s
  else 0.

(** The body of the [for tag in ...] loop: the record appended for one tag. *)
Definition tag_record (event : Event) (event_date : Z) (impact_score : Q)
    (tag : Tag) : ScoreRecord :=
  let sc := signed_score impact_score tag in
  {| r_date := event_date;
     r_factor_code := Py.get (factor tag) "";
     r_signed_score := sc;
     r_abs_score := Qabs sc;
     r_event_id := Py.get (event_id event) (Some "") |}.

(** The body of the [for event in events] loop: the records one event
    appends; none when the timestamp does not parse ([continue]). *)
Definition event_records (event : Event) : list ScoreRecord :=
  match to_date (Py.get (timestamp_utc event) "") with
  | None => []
  | Some event_date =>
      let impact_score := calculate_event_impact_score event in
      map (tag_record event event_date impact_score)
          (Py.get (factor_tags event) [])
  end.

Definition collect_records (events : list Event) : list ScoreRecord :=
  flat_map event_records events.

Definition record_key (r : ScoreRecord) : Pandas.key :=
  (r_date r, r_factor_code r).

Definition group_rows (k : Pandas.key) (records : list ScoreRecord)
    : list ScoreRecord :=
  filter (fun r => Pandas.key_eqb (record_key r) k) records.

(** [.agg({'signed_score': 'sum', 'abs_score': 'sum', 'event_id': 'count'})]
    on one group. *)
Definition agg_group (records : list ScoreRecord) (k : Pandas.key)
    : FactorDayRecord :=
  let g := group_rows k records in
  {| date := fst k;
     factor_code := snd k;
     score := Py.qsum (map r_signed_score g);
     intensity := Py.qsum (map r_abs_score g);
     event_count := Z.of_nat (Pandas.count (map r_event_id g)) |}.

(** [df.groupby(['date', 'factor_code']).agg(...).reset_index()]: one row
    per distinct key, keys in sorted order. *)
Definition groupby_date_factor (records : list ScoreRecord)
    : list FactorDayRecord :=
  map (agg_group records)
      (Pandas.sort_keys (Pandas.unique_keys (map record_key records))).

Definition aggregate_factor_scores_by_day (events : list Event)
    : list FactorDayRecord :=
  let records := collect_records events in
  if Py.truthy records then groupby_date_factor records else [].

(** *** [create_factor_timeseries] *)

Fixpoint has_duplicates (l : list Z) : bool :=
  match l with
  | [] => false
  | x :: xs => existsb (Z.eqb x) xs || has_duplicates xs
  end.

(** One row of [factor_data[numeric_cols].reindex(date_range, fill_value=0)]. *)
Definition reindex_row (factor_data : list FactorDayRecord) (factor : string)
    (d : Z) : FactorDayRecord :=
  match find (fun r => (date r =? d)%Z) factor_data with
  | Some r => mkFactorDay d factor (score r) (intensity r) (event_count r)
  | None => mkFactorDay d factor 0 0 0
  end.

(** The body of the [for factor in all_factors] loop; [reindex] raises on
    an index with duplicate labels. *)
Definition factor_series (daily_factors : list FactorDayRecord)
    (range : list Z) (factor : string) : option (list FactorDayRecord) :=
  let factor_data :=
    filter (fun r => String.eqb (factor_code r) factor) daily_factors in
  if has_duplicates (map date factor_data) then None
  else Some (map (reindex_row factor_data factor) range).

(** [pd.concat(full_series)] once every iteration has succeeded. *)
Fixpoint concat_series (l : list (option (list FactorDayRecord)))
    : option (list FactorDayRecord) :=
  match l with
  | [] => Some []
  | None :: _ => None
  | Some s :: rest =>
      match concat_series rest with
      | Some t => Some (s ++ t)%list
      | None => None
      end
  end.

Definition create_factor_timeseries (daily_factors : list FactorDayRecord)
    (start_date end_date : Z) : option (list FactorDayRecord) :=
  if Py.truthy daily_factors then
    let all_factors := Pandas.unique (map factor_code daily_factors) in
    let range := Pandas.date_range start_date end_date in
    concat_series (map (factor_series daily_factors range) all_factors)
  else Some [].

(** *** [align_with_price] *)

(** [factor_ts.merge(price_data[['date', 'gold_price']], on='date',
    how='left')] for one left row: one output row per matching price row,
    or one row with a missing price. *)
Definition merge_row (price_data : list (Z * Q)) (r : FactorDayRecord)
    : list (FactorDayRecord * option Q) :=
  match filter (fun p => (fst p =? date r)%Z) price_data with
  | [] => [(r, None)]
  | matches => map (fun p => (r, Some (snd p))) matches
  end.

Definition merge_left (factor_ts : list FactorDayRecord)
    (price_data : list (Z * Q)) : list (FactorDayRecord * option Q) :=
  flat_map (merge_row price_data) factor_ts.

Fixpoint last_in_group (factor : string) (seen : list (string * option Q))
    : option (option Q) :=
  match seen with
  | [] => None
  | (f, p) :: rest =>
      if String.eqb f factor then Some p else last_in_group factor rest
  end.

(** [(cur / prev - 1) * 100] in float arithmetic: a quotient by zero is an
    infinity of the sign of [cur], and [0 / 0] is [NaN]. *)
Definition pct_change (prev cur : Q) : option Float :=
  if Qeq_bool prev 0 then
    if Qeq_bool cur 0 then None
    else Some (Infinity (negb (Qle_bool 0 cur)))
  else Some (Finite ((cur / prev - 1) * 100)).

(** [aligned.groupby('factor_code')['gold_price'].pct_change() * 100]:
    [seen] holds the rows already passed, nearest first. *)
Fixpoint pct_change_by_factor (seen : list (string * option Q))
    (rows : list (string * option Q)) : list (option Float) :=
  match rows with
  | [] => []
  | (f, p) :: rest =>
      let change :=
        match last_in_group f seen, p with
        | Some (Some prev), Some cur => pct_change prev cur
        | _, _ => None
        end in
      change :: pct_change_by_factor ((f, p) :: seen) rest
  end.

Definition aligned_row (x : FactorDayRecord * (option Q * option Float))
    : AlignedRecord :=
  let r := fst x in
  {| a_date := date r;
     a_factor_code := factor_code r;
     a_score := score r;
     a_intensity := intensity r;
     a_event_count := event_count r;
     gold_price := fst (snd x);
     price_change_pct := snd (snd x) |}.

Definition align_with_price (factor_ts : list FactorDayRecord)
    (price_data : list (Z * Q)) : list AlignedRecord :=
  if negb (Py.truthy factor_ts) || negb (Py.truthy price_data) then []
  else
    let aligned := merge_left factor_ts price_data in
    let filled := Pandas.ffill (map snd aligned) in
    let change :=
      pct_change_by_factor []
        (combine (map (fun x => factor_code (fst x)) aligned) filled) in
    map aligned_row (combine (map fst aligned) (combine filled change)).

(** *** [calculate_factor_influence_curve] *)

Fixpoint insert_by_date (r : AlignedRecord) (l : list AlignedRecord)
    : list AlignedRecord :=
  match l with
  | [] => [r]
  | r' :: rest =>
      if (a_date r <=? a_date r')%Z then r :: l
      else r' :: insert_by_date r rest
  end.

(** [factor_data.sort_values('date')]. *)
Definition sort_values_date (l : list AlignedRecord) : list AlignedRecord :=
  fold_right insert_by_date [] l.

(** The body of the [for factor in ...unique()] loop: the factor's rows by
    date, each with its [rolling_intensity]. *)
Definition factor_rolling (aligned_data : list AlignedRecord)
    (window_days : nat) (factor : string) : list (AlignedRecord * Q) :=
  let factor_data :=
    sort_values_date
      (filter (fun r => String.eqb (a_factor_code r) factor) aligned_data) in
  combine factor_data
          (Pandas.rolling_sum window_days (map a_intensity factor_data)).

(** [combined.groupby('date')['rolling_intensity'].transform('sum')] at one
    date. *)
Definition daily_total (combined : list (AlignedRecord * Q)) (d : Z) : Q :=
  Py.qsum (map snd (filter (fun x => (a_date (fst x) =? d)%Z) combined)).

Definition epsilon : Q := 1 # 1000000.

Definition influence_row (combined : list (AlignedRecord * Q))
    (x : AlignedRecord * Q) : InfluenceRecord :=
  {| i_date := a_date (fst x);
     i_factor_code := a_factor_code (fst x);
     normalized_influence :=
       snd x / (daily_total combined (a_date (fst x)) + epsilon);
     rolling_intensity := snd x;
     i_score := a_score (fst x);
     i_gold_price := gold_price (fst x) |}.

(** [rolling(window=0, min_periods=1)] raises, hence the [option]. *)
Definition calculate_factor_influence_curve
    (aligned_data : list AlignedRecord) (window_days : nat)
    : option (list InfluenceRecord) :=
  if Py.truthy aligned_data then
    if Nat.eqb window_days 0 then None
    else
      let combined :=
        flat_map (factor_rolling aligned_data window_days)
                 (Pandas.unique (map a_factor_code aligned_data)) in
      Some (map (influence_row combined) combined)
  else Some [].

End Engine.

End FactorEngine.

(** ** The caller: step 4 of [GoldAnalyzer.run_full_analysis] *)

Module GoldAnalyzer.

Section Analyzer.

Variable config : Config.
Variable to_date : string -> option Z.

Definition min_date (d : Z) (dates : list Z) : Z := fold_left Z.min dates d.
Definition max_date (d : Z) (dates : list Z) : Z := fold_left Z.max dates d.

(** Aggregation, densification over the span of the price dates, alignment
    and the influence curve with [window_days=7]; the caller has returned
    before this step when [aligned_prices] is empty. *)
Definition factor_analysis (events : list Event) (aligned_prices : list (Z * Q))
    : option (list InfluenceRecord) :=
  match map fst aligned_prices with
  | [] => None
  | d :: dates =>
      let daily_factors :=
        FactorEngine.aggregate_factor_scores_by_day config to_date events in
      let start_date := min_date d dates in
      let end_date := max_date d dates in
      match FactorEngine.create_factor_timeseries daily_factors start_date end_date with
      | None => None
      | Some factor_ts =>
          let aligned_data := FactorEngine.align_with_price factor_ts aligned_prices in
          FactorEngine.calculate_factor_influence_curve aligned_data 7
      end
  end.

End Analyzer.

End GoldAnalyzer.

(** ** Reference readings of the claims

    These definitions follow the wording of the specification, not the
    code; the theorems below compare them with the engine. *)

Module Reference.

Section Reference.

Variable config : Config.
Variable to_date : string -> option Z.

Open Scope string_scope.

(** The event has a timestamp that parses to a date. *)
Definition parseable (event : Event) : bool :=
  match to_date (Py.get (timestamp_utc event) "") with
  | Some _ => true
  | None => false
  end.

(** The tag names factor [f]. *)
Definition names_factor (f : string) (tag : Tag) : bool :=
  String.eqb (Py.get (factor tag) "") f.

(** The event contributes to group [(d, f)]: it is dated [d] and carries at
    least one tag for [f]. *)
Definition contributes (d : Z) (f : string) (event : Event) : bool :=
  match to_date (Py.get (timestamp_utc event) "") with
  | Some d' => (d' =? d)%Z && existsb (names_factor f) (Py.get (factor_tags event) [])
  | None => false
  end.

(** "count of contributing events". *)
Definition contributing_events (d : Z) (f : string) (events : list Event) : Z :=
  Z.of_nat (List.length (filter (contributes d f) events)).

(** The signed contributions of one event's tags to group [(d, f)]. *)
Definition event_contributions (d : Z) (f : string) (event : Event) : list Q :=
  match to_date (Py.get (timestamp_utc event) "") with
  | Some d' =>
      if (d' =? d)%Z
      then map (FactorEngine.signed_score
                  (FactorEngine.calculate_event_impact_score config event))
               (filter (names_factor f) (Py.get (factor_tags event) []))
      else []
  | None => []
  end.

(** The tags for factor [f] on one event dated [d], unless the event's
    identifier is null. *)
Definition event_counted_tags (d : Z) (f : string) (event : Event) : list Tag :=
  match to_date (Py.get (timestamp_utc event) "") with
  | Some d' =>
      if (d' =? d)%Z then
        match Py.get (event_id event) (Some "") with
        | Some _ => filter (names_factor f) (Py.get (factor_tags event) [])
        | None => []
        end
      else []
  | None => []
  end.

(** "count of non-null event ids": the tags for factor [f] on the events
    dated [d] that have an identifier. *)
Definition counted_tags (d : Z) (f : string) (events : list Event) : list Tag :=
  flat_map (event_counted_tags d f) events.

(** The signed contributions of all tags of all events to group [(d, f)]. *)
Definition tag_contributions (d : Z) (f : string) (events : list Event) : list Q :=
  flat_map (event_contributions d f) events.

(** The (date, factor) pair a row of the daily table stands for. *)
Definition row_key (r : FactorDayRecord) : Pandas.key :=
  (date r, factor_code r).

(** The dense-series row an aligned row was built from. *)
Definition dense_row (a : AlignedRecord) : FactorDayRecord :=
  mkFactorDay (a_date a) (a_factor_code a) (a_score a) (a_intensity a)
              (a_event_count a).

(** The price the mapping holds for date [d], if any. *)
Definition price_on (price_data : list (Z * Q)) (d : Z) : option Q :=
  option_map snd (find (fun p => (fst p =? d)%Z) price_data).

(** The rows of an influence curve dated [d]. *)
Definition rows_on (d : Z) (curve : list InfluenceRecord) : list InfluenceRecord :=
  filter (fun r => (i_date r =? d)%Z) curve.

(** A missing strength or confidence read as 0. *)
Definition strength_or_zero (tag : Tag) : Q :=
  match strength tag with
  | Some s => s
  | None => 0
  end.

Definition confidence_or_zero (tag : Tag) : Q :=
  match confidence tag with
  | Some c => c
  | None => 0
  end.

End Reference.

End Reference.

(** ** Sample inputs *)

Module Sample.

Open Scope string_scope.

Definition config : Config :=
  mkConfig (fun event_type =>
    if String.eqb event_type "CENTRAL_BANK_DECISION"
    then Some (mkEventTypeInfo (Some (6 # 10)))
    else None).

(** A date parser defined on the two days the samples use. *)
Definition to_date (timestamp : string) : option Z :=
  if String.eqb timestamp "2024-01-01" then Some 19723%Z
  else if String.eqb timestamp "2024-01-02" then Some 19724%Z
  else None.

Definition tag_a1 : Tag :=
  mkTag (Some "A1_REAL_YIELD") (Some "+") (Some (8 # 10)) (Some (9 # 10)).

Definition tag_a1_minus : Tag :=
  mkTag (Some "A1_REAL_YIELD") (Some "-") (Some (7 # 10)) (Some (9 # 10)).

Definition tag_no_strength : Tag :=
  mkTag (Some "A2_POLICY_PATH") (Some "+") None None.

(** One event, one tag: the scenario of the polarity-sign property. *)
Definition single_tag_event : Event :=
  mkEvent (Some "CENTRAL_BANK_DECISION") (Some "2024-01-01")
          (Some [tag_a1]) (Some (Some "evt_1")).

(** One event carrying two tags that name the same factor. *)
Definition same_factor_twice : Event :=
  mkEvent (Some "CENTRAL_BANK_DECISION") (Some "2024-01-01")
          (Some [tag_a1; tag_a1_minus]) (Some (Some "evt_2")).

Definition bad_timestamp_event : Event :=
  mkEvent (Some "CENTRAL_BANK_DECISION") (Some "not a date")
          (Some [tag_a1]) (Some (Some "evt_3")).

Definition no_strength_event : Event :=
  mkEvent (Some "CENTRAL_BANK_DECISION") (Some "2024-01-01")
          (Some [tag_no_strength]) (Some (Some "evt_4")).

(** An event whose identifier is null. *)
Definition null_id_event : Event :=
  mkEvent (Some "CENTRAL_BANK_DECISION") (Some "2024-01-02")
          (Some [tag_a1]) (Some None).

(** An event with no type, no tags and no identifier. *)
Definition bare_event : Event :=
  mkEvent None (Some "2024-01-02") None None.

(** The row aggregated from [same_factor_twice]. *)
Definition same_factor_twice_row : FactorDayRecord :=
  mkFactorDay 19723 "A1_REAL_YIELD"
              (4320000 # 100000000) (64800000 # 100000000) 2.

(** A dense series of two factors over two days. *)
Definition two_factor_series : list FactorDayRecord :=
  [ mkFactorDay 19723 "A1_REAL_YIELD" 0 0 0;
    mkFactorDay 19724 "A1_REAL_YIELD" (3 # 10) (3 # 10) 1;
    mkFactorDay 19723 "B1_GEOPOLITICS" (1 # 10) (1 # 10) 1;
    mkFactorDay 19724 "B1_GEOPOLITICS" 0 0 0 ].

(** A price series whose first date is the second day of the series. *)
Definition late_prices : list (Z * Q) := [ (19724%Z, 2000) ].

(** A weakly tagged event of unknown type: impact 0.001, intensity 1e-5. *)
Definition faint_tag : Tag :=
  mkTag (Some "A1_REAL_YIELD") (Some "+") (Some (1 # 100)) (Some (2 # 10)).

Definition faint_event : Event :=
  mkEvent (Some "RUMOUR") (Some "2024-01-01") (Some [faint_tag]) (Some (Some "evt_5")).

Definition one_day_prices : list (Z * Q) := [ (19723%Z, 2000) ].

(** One aligned row of intensity 1e-6. *)
Definition faint_day : list AlignedRecord :=
  [ mkAligned 19723 "A1_REAL_YIELD" (1 # 1000000) (1 # 1000000) 1
              (Some 2000) None ].

End Sample.

(** ** [FactorEngine.get_top_factors] and [FactorEngine.get_factor_name] *)

(** An entry of a domain's ['factors'] dict. *)
Record FactorInfo := mkFactorInfo {
  name : string
}.

(** A value of [config['factor_domains']]: its ['factors'] dict, as the
    list of its items. *)
Record FactorDomain := mkFactorDomain {
  factors : list (string * FactorInfo)
}.

Module Ranking.

(** [max] of the date column of a non-empty frame. *)
Definition max_date (curve : list InfluenceRecord) : Z :=
  match map i_date curve with
  | [] => 0%Z
  | d :: ds => fold_left Z.max ds d
  end.

Fixpoint insert_code (c : string) (l : list string) : list string :=
  match l with
  | [] => [c]
  | c' :: rest => if String.leb c c' then c :: l else c' :: insert_code c rest
  end.

(** The group keys of [groupby('factor_code')], in sorted order. *)
Definition sort_codes (l : list string) : list string :=
  fold_right insert_code [] l.

(** [recent.groupby('factor_code')['normalized_influence'].mean()] at one
    factor. *)
Definition factor_mean (recent : list InfluenceRecord) (f : string) : Q :=
  Py.mean (map normalized_influence
               (filter (fun r => String.eqb (i_factor_code r) f) recent)).

Section GetTopFactors.

(** [Series.sort_values(ascending=False)]: the sort is not stable, so the
    order among equal averages is left to this parameter. *)
Variable sort_values_desc : list (string * Q) -> list (string * Q).

Definition get_top_factors (influence_curve : list InfluenceRecord)
    (top_n : Z) (recent_days : Z) : list (string * Q) :=
  if Py.truthy influence_curve then
    let cutoff_date := (max_date influence_curve - recent_days)%Z in
    let recent :=
      filter (fun r => (cutoff_date <? i_date r)%Z) influence_curve in
    let factor_avg :=
      map (fun f => (f, factor_mean recent f))
          (sort_codes (Pandas.unique (map i_factor_code recent))) in
    Pandas.head (sort_values_desc factor_avg) top_n
  else [].

End GetTopFactors.

(** [factor_code in domain['factors']] and [domain['factors'][factor_code]]. *)
Fixpoint lookup_factor (factor_code : string) (items : list (string * FactorInfo))
    : option FactorInfo :=
  match items with
  | [] => None
  | (code, info) :: rest =>
      if String.eqb code factor_code then Some info
      else lookup_factor factor_code rest
  end.

Fixpoint get_factor_name (factor_domains : list FactorDomain)
    (factor_code : string) : string :=
  match factor_domains with
  | [] => factor_code
  | domain :: rest =>
      match lookup_factor factor_code (factors domain) with
      | Some info => name info
      | None => get_factor_name rest factor_code
      end
  end.

End Ranking.

(** ** [GoldAnalyzer.generate_daily_brief]: the events shown *)

Module DailyBrief.

Section Brief.

Variable config : Config.

Fixpoint insert_by_impact (e : Event) (l : list Event) : list Event :=
  match l with
  | [] => [e]
  | e' :: rest =>
      if Qle_bool (FactorEngine.calculate_event_impact_score config e')
                  (FactorEngine.calculate_event_impact_score config e)
      then e :: l
      else e' :: insert_by_impact e rest
  end.

(** [sorted(events, key=calculate_event_impact_score, reverse=True)]:
    Python's sort is stable, also when reversed. *)
Definition sorted_by_impact (events : list Event) : list Event :=
  fold_right insert_by_impact [] events.

(** [recent_events = sorted(...)[:5]]. *)
Definition recent_events (events : list Event) : list Event :=
  firstn 5 (sorted_by_impact events).

End Brief.

End DailyBrief.

(** ** [NewsFetcher.fetch_all_news]: de-duplication and ordering *)

(** A news item as both fetchers build it; [n_published] is [None] where
    the feed gave no date. *)
Record NewsItem := mkNewsItem {
  n_source : string;
  n_title : string;
  n_summary : string;
  n_url : string;
  n_published : option string;
  n_fetched_at : string
}.

Module NewsFetcher.

Definition url_seen (url : string) (seen_urls : list string) : bool :=
  existsb (String.eqb url) seen_urls.

(** The loop [for item in all_news: if url and url not in seen_urls: ...]. *)
Fixpoint dedup_from (seen_urls : list string) (all_news : list NewsItem)
    : list NewsItem :=
  match all_news with
  | [] => []
  | item :: rest =>
      let url := n_url item in
      if negb (String.eqb url "") && negb (url_seen url seen_urls)
      then item :: dedup_from (url :: seen_urls) rest
      else dedup_from seen_urls rest
  end.

Definition unique_news (all_news : list NewsItem) : list NewsItem :=
  dedup_from [] all_news.

Fixpoint insert_newest (date : string) (item : NewsItem)
    (l : list (string * NewsItem)) : list (string * NewsItem) :=
  match l with
  | [] => [(date, item)]
  | (date', item') :: rest =>
      if String.leb date' date then (date, item) :: l
      else (date', item') :: insert_newest date item rest
  end.

(** The sort keys [x.get('published', '')] when none of them is [None]. *)
Fixpoint published_keys (l : list NewsItem) : option (list (string * NewsItem)) :=
  match l with
  | [] => Some []
  | item :: rest =>
      match n_published item, published_keys rest with
      | Some date, Some keyed => Some ((date, item) :: keyed)
      | _, _ => None
      end
  end.

(** [unique_news.sort(key=lambda x: x.get('published', ''), reverse=True)]:
    a stable sort, newest first; comparing a [None] key raises [TypeError],
    which happens as soon as two items are compared. *)
Definition sort_newest_first (l : list NewsItem) : option (list NewsItem) :=
  match l with
  | [] | [_] => Some l
  | _ =>
      match published_keys l with
      | Some keyed =>
          Some (map snd (fold_right (fun x => insert_newest (fst x) (snd x)) [] keyed))
      | None => None
      end
  end.

(** What [fetch_all_news] returns for the items its sources delivered. *)
Definition deduplicate_and_sort (all_news : list NewsItem)
    : option (list NewsItem) :=
  sort_newest_first (unique_news all_news).

End NewsFetcher.

(** ** [EventExtractor.batch_extract] *)

Module EventExtractor.

Section Batch.

(** [extract_event], a call to the classification service: [None] when it
    fails. *)
Variable extract_event : NewsItem -> option Event.

Definition batch_extract (news_list : list NewsItem) (max_items : Z)
    : list Event :=
  flat_map (fun news_item =>
              match extract_event news_item with
              | Some event => [event]
              | None => []
              end)
           (Py.slice_to news_list max_items).

End Batch.

End EventExtractor.

(** ** Reference readings for the properties of the whole analysis *)

Module Quotes.

(** [p] is the price of the latest date, not after [d], for which the price
    mapping holds a price. *)
Definition latest_quote (price_data : list (Z * Q)) (d : Z) (p : Q) : Prop :=
  exists d',
    (d' <= d)%Z
    /\ Reference.price_on price_data d' = Some p
    /\ forall d'', (d' < d'' <= d)%Z -> Reference.price_on price_data d'' = None.

End Quotes.

(** ** Sample inputs for the ranking, the brief and the news *)

Module Sample2.

Open Scope string_scope.

Fixpoint insert_desc (x : string * Q) (l : list (string * Q)) : list (string * Q) :=
  match l with
  | [] => [x]
  | y :: rest => if Qle_bool (snd y) (snd x) then x :: l else y :: insert_desc x rest
  end.

(** One admissible [sort_values(ascending=False)]: a stable insertion sort. *)
Definition sort_desc (l : list (string * Q)) : list (string * Q) :=
  fold_right insert_desc [] l.

(** A curve of two factors over two days. *)
Definition curve : list InfluenceRecord :=
  [ mkInfluence 19723 "A1_REAL_YIELD" (1 # 4) (1 # 10) 0 (Some 2000);
    mkInfluence 19724 "A1_REAL_YIELD" (1 # 2) (2 # 10) 0 (Some 2010);
    mkInfluence 19723 "B1_GEOPOLITICS" (3 # 4) (3 # 10) 0 (Some 2000);
    mkInfluence 19724 "B1_GEOPOLITICS" (1 # 2) (2 # 10) 0 (Some 2010) ].

Definition domains : list FactorDomain :=
  [ mkFactorDomain [ ("A1_REAL_YIELD", mkFactorInfo "Real yields");
                     ("A2_POLICY_PATH", mkFactorInfo "Policy path") ];
    mkFactorDomain [ ("B1_GEOPOLITICS", mkFactorInfo "Geopolitical risk") ] ].

Definition news_fed : NewsItem :=
  mkNewsItem "Reuters" "Fed holds rates" "" "https://example.com/fed"
             (Some "2024-01-31T14:00:00") "2024-02-01T00:00:00".

Definition news_gold : NewsItem :=
  mkNewsItem "Bloomberg" "Gold rises" "" "https://example.com/gold"
             (Some "2024-01-31T10:30:00") "2024-02-01T00:00:00".

(** The same article delivered by a second source. *)
Definition news_fed_again : NewsItem :=
  mkNewsItem "Kitco" "Fed holds rates (update)" "" "https://example.com/fed"
             (Some "2024-01-31T15:00:00") "2024-02-01T00:00:00".

(** A feed entry without a publication date. *)
Definition news_undated : NewsItem :=
  mkNewsItem "IMF" "Inflation outlook" "" "https://example.com/imf"
             None "2024-02-01T00:00:00".

Definition news_no_url : NewsItem :=
  mkNewsItem "ECB" "Monetary policy statement" "" ""
             (Some "2024-01-30T09:00:00") "2024-02-01T00:00:00".

(** A classification service that fails on undated items. *)
Definition extract_event (item : NewsItem) : option Event :=
  match n_published item with
  | Some date => Some (mkEvent (Some "POLICY_ANNOUNCEMENT") (Some date) (Some [])
                               (Some (Some "evt_1")))
  | None => None
  end.

End Sample2.

(** ** [EventExtractor.extract_event]: removal of the Markdown code fence *)

Module ResponseText.

Open Scope string_scope.

(** [s.startswith(p)] and [s.endswith(p)]. *)
Definition startswith (p s : string) : bool := String.prefix p s.

Definition endswith (p s : string) : bool :=
  Nat.leb (String.length p) (String.length s)
  && String.eqb
       (String.substring (String.length s - String.length p) (String.length p) s)
       p.

(** [s[n:]] and [s[:-n]] on a string of at least [n] characters. *)
Definition slice_from (n : nat) (s : string) : string :=
  String.substring n (String.length s - n) s.

Definition slice_to_minus (n : nat) (s : string) : string :=
  String.substring 0 (String.length s - n) s.

(** The three statements between [response.text.strip()] and [json.loads]. *)
Definition strip_code_fence (response_text : string) : string :=
  let text1 :=
    if startswith "```json" response_text then slice_from 7 response_text
    else response_text in
  let text2 :=
    if startswith "```" text1 then slice_from 3 text1 else text1 in
  if endswith "```" text2 then slice_to_minus 3 text2 else text2.

End ResponseText.

(** * Properties *)

(** ** Arithmetic helpers *)

Lemma qsum_app (l1 l2 : list Q) :
  Py.qsum (l1 ++ l2) == Py.qsum l1 + Py.qsum l2.
Proof.
  induction l1 as [|x l1 IH]; simpl.
  - ring.
  - rewrite IH. ring.
Qed.

Lemma qsum_map_div {A : Type} (f : A -> Q) (c : Q) (l : list A) :
  Py.qsum (map (fun x => f x / c) l) == Py.qsum (map f l) / c.
Proof.
  induction l as [|x l IH]; simpl.
  - unfold Qdiv. ring.
  - rewrite IH. unfold Qdiv. ring.
Qed.



(** Rounding lands on a multiple of 1/1000 at distance at most 1/2000. *)
Lemma Qmake_1000 (k : Z) : k # 1000 == inject_Z k / 1000.
Proof. rewrite (Qmake_Qdiv k 1000). reflexivity. Qed.

Lemma round_half_even_near (y : Q) :
  Qabs (inject_Z (Py.round_half_even y) - y) <= 1 # 2.
Proof.
  unfold Py.round_half_even.
  pose proof (Qfloor_le y) as Hl. pose proof (Qlt_floor y) as Hu.
  rewrite inject_Z_plus in Hu. change (inject_Z 1) with 1 in Hu.
  apply Qabs_Qle_condition. cbv zeta.
  destruct (Qcompare_spec (y - inject_Z (Qfloor y)) (1 # 2)) as [E | L | G].
  - destruct (Z.even (Qfloor y));
      [|rewrite inject_Z_plus; change (inject_Z 1) with 1]; split; lra.
  - split; lra.
  - rewrite inject_Z_plus. change (inject_Z 1) with 1. split; lra.
Qed.

Lemma round3_near (x : Q) : Qabs (Py.round3 x - x) <= 1 # 2000.
Proof.
  unfold Py.round3. rewrite Qmake_1000.
  pose proof (round_half_even_near (x * 1000)) as H.
  apply Qabs_Qle_condition in H. apply Qabs_Qle_condition.
  set (k := inject_Z (Py.round_half_even (x * 1000))) in *.
  split.
  - apply Qle_minus_iff.
    setoid_replace (k / 1000 - x + - - (1 # 2000))
      with ((k - x * 1000 + (1 # 2)) / 1000) by field.
    apply Qle_shift_div_l; lra.
  - apply Qle_minus_iff.
    setoid_replace ((1 # 2000) + - (k / 1000 - x))
      with (((1 # 2) - (k - x * 1000)) / 1000) by field.
    apply Qle_shift_div_l; lra.
Qed.

(** [Py.max] returns an element of its argument that bounds all of them. *)
Lemma fold_max_step_ge (l : list Q) (x : Q) :
  x <= fold_left Py.max_step l x.
Proof.
  revert x. induction l as [|y l IH]; intros x; simpl.
  - apply Qle_refl.
  - apply Qle_trans with (Py.max_step x y); [|apply IH].
    unfold Py.max_step. destruct (Qlt_le_dec x y); [apply Qlt_le_weak; assumption | apply Qle_refl].
Qed.

Lemma fold_max_step_bound (l : list Q) (x y : Q) :
  In y l -> y <= fold_left Py.max_step l x.
Proof.
  revert x. induction l as [|z l IH]; intros x H; simpl in *.
  - contradiction.
  - destruct H as [-> | H].
    + apply Qle_trans with (Py.max_step x y); [|apply fold_max_step_ge].
      unfold Py.max_step. destruct (Qlt_le_dec x y); [apply Qle_refl | assumption].
    + apply IH. assumption.
Qed.

Lemma fold_max_step_in (l : list Q) (x : Q) :
  In (fold_left Py.max_step l x) (x :: l).
Proof.
  revert x. induction l as [|y l IH]; intros x; simpl.
  - left. reflexivity.
  - specialize (IH (Py.max_step x y)). simpl in IH.
    destruct IH as [E | IH].
    + rewrite <- E. unfold Py.max_step.
      destruct (Qlt_le_dec x y); [right; left | left]; reflexivity.
    + right. right. assumption.
Qed.

Lemma max_upper_bound (l : list Q) (y : Q) : In y l -> y <= Py.max l.
Proof.
  destruct l as [|x l]; simpl; [contradiction|].
  intros [-> | H]; [apply fold_max_step_ge | apply fold_max_step_bound; assumption].
Qed.

Lemma max_attained (l : list Q) : l <> [] -> In (Py.max l) l.
Proof.
  destruct l as [|x l]; [congruence|]. intros _. apply fold_max_step_in.
Qed.

Lemma mean_times_length (l : list Q) :
  l <> [] -> Py.mean l * inject_Z (Z.of_nat (List.length l)) == Py.qsum l.
Proof.
  intros H. unfold Py.mean. field.
  destruct l as [|x l]; [congruence|].
  intros E. simpl List.length in E.
  unfold Qeq in E. simpl in E. lia.
Qed.

(** ** List helpers for the group-by *)

Lemma key_eqb_eq (k1 k2 : Pandas.key) : Pandas.key_eqb k1 k2 = true <-> k1 = k2.
Proof.
  destruct k1 as [d1 f1], k2 as [d2 f2]. unfold Pandas.key_eqb. simpl.
  rewrite andb_true_iff, Z.eqb_eq, String.eqb_eq.
  split; [intros [-> ->]; reflexivity | intros E; inversion E; auto].
Qed.

Lemma in_unique_keys (l : list Pandas.key) (k : Pandas.key) :
  In k (Pandas.unique_keys l) <-> In k l.
Proof.
  induction l as [|a l IH]; simpl; [tauto|].
  rewrite filter_In, IH. split.
  - intros [H | [H _]]; auto.
  - intros [H | H]; auto.
    destruct (Pandas.key_eqb k a) eqn:E.
    + left. symmetry. apply key_eqb_eq. assumption.
    + right. split; [assumption | reflexivity].
Qed.

Lemma in_insert_key (k a : Pandas.key) (l : list Pandas.key) :
  In k (Pandas.insert_key a l) <-> k = a \/ In k l.
Proof.
  induction l as [|b l IH]; simpl.
  - intuition.
  - destruct (Pandas.key_leb a b); simpl; [intuition | rewrite IH; intuition].
Qed.

Lemma in_sort_keys (l : list Pandas.key) (k : Pandas.key) :
  In k (Pandas.sort_keys l) <-> In k l.
Proof.
  unfold Pandas.sort_keys.
  induction l as [|a l IH]; simpl; [tauto|].
  rewrite in_insert_key, IH. intuition.
Qed.

(** ** Scoring and aggregation *)

Section ScoringAndAggregation.

Variable config : Config.
Variable to_date : string -> option Z.

Open Scope string_scope.

Local Abbreviation impact_score := (FactorEngine.calculate_event_impact_score config).
Local Abbreviation aggregate := (FactorEngine.aggregate_factor_scores_by_day config to_date).
Local Abbreviation records_of := (FactorEngine.collect_records config to_date).

(** Every output row is the aggregate of the group of its own key, and that
    key occurs among the collected records. *)
Lemma aggregate_row_inv (events : list Event) (row : FactorDayRecord) :
  In row (aggregate events) ->
  In (date row, factor_code row)
     (map FactorEngine.record_key (records_of events))
  /\ row = FactorEngine.agg_group (records_of events) (date row, factor_code row).
Proof.
  unfold FactorEngine.aggregate_factor_scores_by_day.
  destruct (Py.truthy (records_of events)); [|contradiction].
  unfold FactorEngine.groupby_date_factor. rewrite in_map_iff.
  intros [k [<- Hk]]. rewrite in_sort_keys, in_unique_keys in Hk.
  destruct k as [d f]. simpl. split; [assumption | reflexivity].
Qed.

Lemma aggregate_keys (events : list Event) :
  map Reference.row_key (aggregate events)
  = Pandas.sort_keys
      (Pandas.unique_keys (map FactorEngine.record_key (records_of events))).
Proof.
  unfold FactorEngine.aggregate_factor_scores_by_day.
  destruct (records_of events) as [|r rs] eqn:E; [reflexivity|].
  cbn [Py.truthy]. unfold FactorEngine.groupby_date_factor.
  rewrite map_map. rewrite (map_ext _ (fun k => k)), map_id; [reflexivity|].
  intros [d f]. reflexivity.
Qed.

Lemma in_record_keys (events : list Event) (d : Z) (f : string) :
  In (d, f) (map FactorEngine.record_key (records_of events))
  <-> exists event tag,
        In event events
        /\ to_date (Py.get (timestamp_utc event) ""%string) = Some d
        /\ In tag (Py.get (factor_tags event) [])
        /\ Py.get (factor tag) ""%string = f.
Proof.
  rewrite in_map_iff. unfold FactorEngine.collect_records. split.
  - intros [r [Ek Hr]]. rewrite in_flat_map in Hr. destruct Hr as [e [He Hr]].
    unfold FactorEngine.event_records in Hr.
    destruct (to_date (Py.get (timestamp_utc e) ""%string)) as [d'|] eqn:Ed;
      [|contradiction].
    rewrite in_map_iff in Hr. destruct Hr as [t [<- Ht]].
    inversion Ek; subst. exists e, t. auto.
  - intros [e [t [He [Ed [Ht Ef]]]]].
    exists (FactorEngine.tag_record e d
              (FactorEngine.calculate_event_impact_score config e) t).
    split; [unfold FactorEngine.record_key; simpl; rewrite Ef; reflexivity|].
    rewrite in_flat_map. exists e. split; [assumption|].
    unfold FactorEngine.event_records. rewrite Ed. apply in_map. assumption.
Qed.

(** The rows one event appends for group [(d, f)]. *)
Lemma group_rows_event (d : Z) (f : string) (event : Event) :
  map r_signed_score
      (FactorEngine.group_rows (d, f) (FactorEngine.event_records config to_date event))
  = Reference.event_contributions config to_date d f event.
Proof.
  unfold FactorEngine.event_records, Reference.event_contributions.
  destruct (to_date (Py.get (timestamp_utc event) "")) as [d'|]; [|reflexivity].
  destruct (d' =? d)%Z eqn:Ed;
    induction (Py.get (factor_tags event) []) as [|t ts IH]; simpl;
    try reflexivity;
    unfold Pandas.key_eqb at 1; simpl; rewrite Ed; simpl.
  - unfold Reference.names_factor at 1.
    destruct (String.eqb (Py.get (factor t) "") f); simpl;
      [f_equal; exact IH | exact IH].
  - exact IH.
Qed.

Lemma group_rows_app (k : Pandas.key) (l1 l2 : list ScoreRecord) :
  FactorEngine.group_rows k (l1 ++ l2)
  = (FactorEngine.group_rows k l1 ++ FactorEngine.group_rows k l2)%list.
Proof. apply filter_app. Qed.

Lemma group_rows_signed (d : Z) (f : string) (events : list Event) :
  map r_signed_score (FactorEngine.group_rows (d, f) (records_of events))
  = Reference.tag_contributions config to_date d f events.
Proof.
  induction events as [|e es IH]; [reflexivity|].
  unfold FactorEngine.collect_records, Reference.tag_contributions in *. simpl.
  rewrite group_rows_app, map_app, group_rows_event, IH. reflexivity.
Qed.

Lemma abs_score_is_abs (l : list ScoreRecord) :
  (forall r, In r l -> r_abs_score r = Qabs (r_signed_score r)) ->
  map r_abs_score l = map Qabs (map r_signed_score l).
Proof.
  induction l as [|r l IH]; intros H; simpl; [reflexivity|].
  rewrite (H r (or_introl eq_refl)), IH; [reflexivity|].
  intros r' Hr'. apply H. right. assumption.
Qed.

Lemma records_abs_score (events : list Event) (r : ScoreRecord) :
  In r (records_of events) -> r_abs_score r = Qabs (r_signed_score r).
Proof.
  unfold FactorEngine.collect_records. rewrite in_flat_map.
  intros [e [_ Hr]]. unfold FactorEngine.event_records in Hr.
  destruct (to_date (Py.get (timestamp_utc e) "")); [|contradiction].
  rewrite in_map_iff in Hr. destruct Hr as [t [<- _]]. reflexivity.
Qed.

Lemma group_rows_abs (d : Z) (f : string) (events : list Event) :
  map r_abs_score (FactorEngine.group_rows (d, f) (records_of events))
  = map Qabs (Reference.tag_contributions config to_date d f events).
Proof.
  rewrite <- group_rows_signed. apply abs_score_is_abs.
  intros r Hr. apply (records_abs_score events).
  unfold FactorEngine.group_rows in Hr. rewrite filter_In in Hr. tauto.
Qed.

(** Events whose timestamp does not parse append no record. *)
Lemma records_filter_parseable (events : list Event) :
  records_of (filter (Reference.parseable to_date) events) = records_of events.
Proof.
  unfold FactorEngine.collect_records.
  induction events as [|e es IH]; [reflexivity|]. simpl.
  unfold Reference.parseable at 1.
  destruct (to_date (Py.get (timestamp_utc e) "")) eqn:E; simpl.
  - rewrite IH. reflexivity.
  - rewrite IH. unfold FactorEngine.event_records. rewrite E. reflexivity.
Qed.


(** C7: a tag contributes [impact * strength] under polarity [+], its
    opposite under [-] and 0 under any other polarity; every tag of an
    event whose timestamp parses has a row for its date and factor; and a
    row's score is the sum of the contributions of the tags of its date and
    factor, its intensity the sum of their absolute values. *)
Theorem aggregate_signed_scores :
  (forall (impact : Q) (tag : Tag),
      (Py.get (polarity tag) "0" = "+" ->
       FactorEngine.signed_score impact tag == impact * Py.get (strength tag) 0)
      /\ (Py.get (polarity tag) "0" = "-" ->
          FactorEngine.signed_score impact tag == - (impact * Py.get (strength tag) 0))
      /\ (Py.get (polarity tag) "0" <> "+" -> Py.get (polarity tag) "0" <> "-" ->
          FactorEngine.signed_score impact tag = 0))
  /\ (forall (events : list Event) (event : Event) (tag : Tag) (d : Z),
        In event events ->
        to_date (Py.get (timestamp_utc event) "") = Some d ->
        In tag (Py.get (factor_tags event) []) ->
        exists row,
          In row (aggregate events)
          /\ date row = d
          /\ factor_code row = Py.get (factor tag) "")
  /\ (forall (events : list Event) (row : FactorDayRecord),
        In row (aggregate events) ->
        score row
        = Py.qsum (Reference.tag_contributions config to_date
                     (date row) (factor_code row) events)
        /\ intensity row
           = Py.qsum (map Qabs (Reference.tag_contributions config to_date
                                  (date row) (factor_code row) events))).
Proof.
  split; [|split].
  - intros impact tag. unfold FactorEngine.signed_score.
    repeat split.
    + intros ->. simpl. reflexivity.
    + intros ->. simpl. ring.
    + intros H1 H2.
      destruct (String.eqb_spec (Py.get (polarity tag) "0") "+"); [contradiction|].
      destruct (String.eqb_spec (Py.get (polarity tag) "0") "-"); [contradiction|].
      reflexivity.
  - intros events event tag d He Hd Ht.
    assert (Hk : In (d, Py.get (factor tag) "")
                    (map Reference.row_key (aggregate events))).
    { rewrite aggregate_keys, in_sort_keys, in_unique_keys.
      apply in_record_keys. exists event, tag. auto. }
    rewrite in_map_iff in Hk. destruct Hk as [row [Ek Hrow]].
    exists row. inversion Ek. auto.
  - intros events row H. apply aggregate_row_inv in H. destruct H as [_ H].
    split.
    + assert (E : score row
                  = score (FactorEngine.agg_group (records_of events)
                             (date row, factor_code row)))
        by (rewrite <- H; reflexivity).
      rewrite E. simpl. rewrite group_rows_signed. reflexivity.
    + assert (E : intensity row
                  = intensity (FactorEngine.agg_group (records_of events)
                                 (date row, factor_code row)))
        by (rewrite <- H; reflexivity).
      rewrite E. simpl. rewrite group_rows_abs. reflexivity.
Qed.

(** C8: an event whose timestamp does not parse appends no record, and the
    aggregation of a batch equals the aggregation of the batch without its
    unparseable events. *)
Theorem unparseable_events_skipped :
  (forall event : Event,
      to_date (Py.get (timestamp_utc event) "") = None ->
      FactorEngine.event_records config to_date event = [])
  /\ (forall events : list Event,
        aggregate events = aggregate (filter (Reference.parseable to_date) events)).
Proof.
  split.
  - intros event H. unfold FactorEngine.event_records. rewrite H. reflexivity.
  - intros events. unfold FactorEngine.aggregate_factor_scores_by_day.
    rewrite records_filter_parseable. reflexivity.
Qed.

(** C10: when the tag list is not empty, the maximal strength bounds every
    tag's strength read with 0 for a missing one and is one of them, the
    mean confidence times the number of tags is the sum of the confidences
    read with 0 for a missing one, and a tag without strength contributes a
    signed score of 0 under every polarity. *)
Theorem missing_fields_read_as_zero :
  (forall (event : Event) (tags : list Tag),
      factor_tags event = Some tags -> tags <> [] ->
      (forall tag, In tag tags ->
         Reference.strength_or_zero tag <= FactorEngine.max_strength event)
      /\ (exists tag, In tag tags
            /\ FactorEngine.max_strength event = Reference.strength_or_zero tag)
      /\ FactorEngine.avg_confidence event * inject_Z (Z.of_nat (List.length tags))
         == Py.qsum (map Reference.confidence_or_zero tags))
  /\ (forall (impact : Q) (tag : Tag),
        strength tag = None -> FactorEngine.signed_score impact tag == 0).
Proof.
  split.
  - intros event tags Ht Hne.
    unfold FactorEngine.max_strength, FactorEngine.avg_confidence.
    rewrite Ht. simpl Py.get.
    assert (Htr : Py.truthy tags = true) by (destruct tags; [congruence | reflexivity]).
    rewrite Htr.
    assert (Es : map (fun tag => Py.get (strength tag) 0) tags
                 = map Reference.strength_or_zero tags) by reflexivity.
    assert (Ec : map (fun tag => Py.get (confidence tag) 0) tags
                 = map Reference.confidence_or_zero tags) by reflexivity.
    rewrite Es, Ec. repeat split.
    + intros tag Hin. apply max_upper_bound. apply in_map. assumption.
    + assert (Hm : map Reference.strength_or_zero tags <> [])
        by (destruct tags; [congruence | discriminate]).
      apply max_attained in Hm. rewrite in_map_iff in Hm.
      destruct Hm as [tag [E Hin]]. exists tag. split; [assumption | symmetry; assumption].
    + rewrite <- (length_map Reference.confidence_or_zero tags).
      apply mean_times_length. destruct tags; [congruence | discriminate].
  - intros impact tag H. unfold FactorEngine.signed_score. rewrite H. simpl.
    destruct (String.eqb _ "+"); [ring|].
    destruct (String.eqb _ "-"); [ring | reflexivity].
Qed.

End ScoringAndAggregation.

Lemma count_app {A : Type} (l1 l2 : list (option A)) :
  Pandas.count (l1 ++ l2) = (Pandas.count l1 + Pandas.count l2)%nat.
Proof. unfold Pandas.count. rewrite filter_app, length_app. reflexivity. Qed.

(** The identifiers one event appends for group [(d, f)] that are counted. *)
Lemma count_event_ids (config : Config) (to_date : string -> option Z)
    (d : Z) (f : string) (event : Event) :
  Pandas.count
    (map r_event_id
         (FactorEngine.group_rows (d, f)
            (FactorEngine.event_records config to_date event)))
  = List.length (Reference.event_counted_tags to_date d f event).
Proof.
  unfold FactorEngine.event_records, Reference.event_counted_tags.
  destruct (to_date (Py.get (timestamp_utc event) ""%string)) as [d'|]; [|reflexivity].
  destruct (d' =? d)%Z eqn:Ed;
    induction (Py.get (factor_tags event) []) as [|t ts IH]; simpl;
    try (destruct (Py.get (event_id event) (Some ""%string)); reflexivity);
    unfold Pandas.key_eqb at 1; simpl; rewrite Ed; simpl.
  - unfold Reference.names_factor at 1.
    destruct (String.eqb (Py.get (factor t) ""%string) f); simpl; [|exact IH].
    destruct (Py.get (event_id event) (Some ""%string)) eqn:Eid.
    + unfold Pandas.count in *. simpl. rewrite IH. reflexivity.
    + unfold Pandas.count in *. simpl. exact IH.
  - exact IH.
Qed.

Lemma count_group_ids (config : Config) (to_date : string -> option Z)
    (d : Z) (f : string) (events : list Event) :
  Pandas.count
    (map r_event_id
         (FactorEngine.group_rows (d, f)
            (FactorEngine.collect_records config to_date events)))
  = List.length (Reference.counted_tags to_date d f events).
Proof.
  unfold FactorEngine.collect_records, Reference.counted_tags.
  induction events as [|e es IH]; [reflexivity|]. simpl.
  rewrite group_rows_app, map_app, count_app, length_app, count_event_ids, IH.
  reflexivity.
Qed.

(** X4: the count column of a group is the number of tags of its date and
    factor that sit on an event whose identifier is not null. *)
Lemma event_count_is_tag_count (config : Config) (to_date : string -> option Z)
    (events : list Event) (row : FactorDayRecord) :
  In row (FactorEngine.aggregate_factor_scores_by_day config to_date events) ->
  event_count row
  = Z.of_nat (List.length (Reference.counted_tags to_date
                             (date row) (factor_code row) events)).
Proof.
  intros H. apply aggregate_row_inv in H. destruct H as [_ H].
  rewrite <- (count_group_ids config).
  rewrite H at 1. reflexivity.
Qed.


Lemma aggregate_signed_scores_witness :
  FactorEngine.signed_score (432 # 1000) Sample.tag_a1
  == (432 # 1000) * (8 # 10)
  /\ FactorEngine.signed_score (432 # 1000) Sample.tag_a1_minus
     == - ((432 # 1000) * (7 # 10))
  /\ (exists row,
        In row (FactorEngine.aggregate_factor_scores_by_day Sample.config
                  Sample.to_date [Sample.same_factor_twice])
        /\ date row = 19723%Z
        /\ factor_code row = "A1_REAL_YIELD"%string)
  /\ score Sample.same_factor_twice_row
     = Py.qsum (Reference.tag_contributions Sample.config Sample.to_date
                  19723 "A1_REAL_YIELD" [Sample.same_factor_twice])
  /\ intensity Sample.same_factor_twice_row
     = Py.qsum (map Qabs (Reference.tag_contributions Sample.config Sample.to_date
                            19723 "A1_REAL_YIELD" [Sample.same_factor_twice])).
Proof.
  destruct (aggregate_signed_scores Sample.config Sample.to_date) as [Hs [He Hg]].
  split; [apply (Hs (432 # 1000) Sample.tag_a1); reflexivity|].
  split; [apply (Hs (432 # 1000) Sample.tag_a1_minus); reflexivity|].
  split.
  - apply (He [Sample.same_factor_twice] Sample.same_factor_twice Sample.tag_a1).
    + left. reflexivity.
    + reflexivity.
    + left. reflexivity.
  - apply (Hg [Sample.same_factor_twice] Sample.same_factor_twice_row).
    vm_compute. left. reflexivity.
Defined.

Lemma unparseable_events_skipped_witness :
  FactorEngine.event_records Sample.config Sample.to_date Sample.bad_timestamp_event
  = [].
Proof.
  apply (proj1 (unparseable_events_skipped Sample.config Sample.to_date)).
  reflexivity.
Defined.

Lemma missing_fields_read_as_zero_witness :
  FactorEngine.max_strength Sample.no_strength_event = 0
  /\ FactorEngine.signed_score (1 # 2) Sample.tag_no_strength == 0.
Proof.
  destruct missing_fields_read_as_zero as [Ht Hs].
  destruct (Ht Sample.no_strength_event [Sample.tag_no_strength])
    as [_ [[tag [Hin E]] _]].
  - reflexivity.
  - discriminate.
  - split.
    + rewrite E. destruct Hin as [<- | []]. reflexivity.
    + apply Hs. reflexivity.
Defined.

(** C3: on one event that carries two tags for the same factor, the group's
    [event_count] is 2 although exactly one event contributes to it. *)
Theorem event_count_counts_tags_not_events :
  FactorEngine.aggregate_factor_scores_by_day Sample.config Sample.to_date
    [Sample.same_factor_twice]
  = [Sample.same_factor_twice_row]
  /\ event_count Sample.same_factor_twice_row = 2%Z
  /\ Reference.contributing_events Sample.to_date 19723 "A1_REAL_YIELD"
       [Sample.same_factor_twice]
     = 1%Z.
Proof.
  split; [vm_compute; reflexivity|]. split; reflexivity.
Qed.

(** ** Densification *)

Lemma in_unique (l : list string) (x : string) :
  In x (Pandas.unique l) <-> In x l.
Proof.
  induction l as [|a l IH]; simpl; [tauto|].
  rewrite filter_In, IH. split.
  - intros [H | [H _]]; auto.
  - intros [H | H]; auto.
    destruct (String.eqb_spec x a) as [-> | Hne]; [left; reflexivity|].
    right. split; [assumption | reflexivity].
Qed.

Lemma nodup_unique (l : list string) : NoDup (Pandas.unique l).
Proof.
  induction l as [|a l IH]; simpl; constructor.
  - rewrite filter_In. intros [_ H]. rewrite String.eqb_refl in H. discriminate.
  - apply NoDup_filter. assumption.
Qed.

Lemma nodup_unique_keys (l : list Pandas.key) : NoDup (Pandas.unique_keys l).
Proof.
  induction l as [|a l IH]; simpl; constructor.
  - rewrite filter_In. intros [_ H].
    assert (E : Pandas.key_eqb a a = true) by (apply key_eqb_eq; reflexivity).
    rewrite E in H. discriminate.
  - apply NoDup_filter. assumption.
Qed.

Lemma nodup_insert_key (k : Pandas.key) (l : list Pandas.key) :
  ~ In k l -> NoDup l -> NoDup (Pandas.insert_key k l).
Proof.
  induction l as [|a l IH]; intros Hk Hl; simpl.
  - constructor; [tauto | constructor].
  - destruct (Pandas.key_leb k a).
    + constructor; assumption.
    + inversion Hl as [|? ? Ha Hl']; subst. constructor.
      * rewrite in_insert_key. intros [-> | H]; [apply Hk; left; reflexivity | tauto].
      * apply IH; [intros H; apply Hk; right; assumption | assumption].
Qed.

Lemma nodup_sort_keys (l : list Pandas.key) : NoDup l -> NoDup (Pandas.sort_keys l).
Proof.
  unfold Pandas.sort_keys. induction 1 as [|a l Ha Hl IH]; simpl.
  - constructor.
  - apply nodup_insert_key; [rewrite in_sort_keys; assumption | assumption].
Qed.

(** The aggregator returns at most one row per (date, factor) pair. *)
Lemma aggregate_keys_nodup (config : Config) (to_date : string -> option Z)
    (events : list Event) :
  NoDup (map Reference.row_key
             (FactorEngine.aggregate_factor_scores_by_day config to_date events)).
Proof.
  unfold FactorEngine.aggregate_factor_scores_by_day.
  destruct (Py.truthy _); [|constructor].
  unfold FactorEngine.groupby_date_factor. rewrite map_map.
  rewrite (map_ext _ (fun k => k)), map_id.
  - apply nodup_sort_keys, nodup_unique_keys.
  - intros [d f]. reflexivity.
Qed.

Lemma in_date_range (start_date end_date d : Z) :
  In d (Pandas.date_range start_date end_date) <-> (start_date <= d <= end_date)%Z.
Proof.
  unfold Pandas.date_range. rewrite in_map_iff. split.
  - intros [i [<- Hi]]. rewrite in_seq in Hi. lia.
  - intros H. exists (Z.to_nat (d - start_date)). rewrite in_seq. lia.
Qed.

Lemma nodup_date_range (start_date end_date : Z) :
  NoDup (Pandas.date_range start_date end_date).
Proof.
  unfold Pandas.date_range. apply Finite.Injective_map_NoDup; [|apply seq_NoDup].
  intros i j H. lia.
Qed.

Lemma has_duplicates_false (l : list Z) :
  NoDup l -> FactorEngine.has_duplicates l = false.
Proof.
  induction 1 as [|x l Hx Hl IH]; simpl; [reflexivity|].
  rewrite IH, orb_false_r.
  destruct (existsb (Z.eqb x) l) eqn:E; [|reflexivity].
  rewrite existsb_exists in E. destruct E as [y [Hy E]].
  rewrite Z.eqb_eq in E. subst y. contradiction.
Qed.

(** Within one factor, a table with distinct keys has distinct dates. *)
Lemma nodup_factor_dates (daily : list FactorDayRecord) (f : string) :
  NoDup (map Reference.row_key daily) ->
  NoDup (map date (filter (fun r => String.eqb (factor_code r) f) daily)).
Proof.
  induction daily as [|r daily IH]; simpl; intros H; [constructor|].
  inversion H as [|? ? Hr Hd]; subst.
  destruct (String.eqb_spec (factor_code r) f) as [E | _]; simpl.
  - constructor; [|apply IH; assumption].
    rewrite in_map_iff. intros [r' [Ed Hin]]. rewrite filter_In in Hin.
    destruct Hin as [Hin Ef]. rewrite String.eqb_eq in Ef.
    apply Hr. rewrite in_map_iff. exists r'. split; [|assumption].
    unfold Reference.row_key. rewrite Ed, Ef, E. reflexivity.
  - apply IH. assumption.
Qed.

Lemma concat_series_some {A : Type}
    (g : A -> option (list FactorDayRecord)) (h : A -> list FactorDayRecord)
    (l : list A) :
  (forall a, In a l -> g a = Some (h a)) ->
  FactorEngine.concat_series (map g l) = Some (flat_map h l).
Proof.
  induction l as [|a l IH]; intros H; simpl; [reflexivity|].
  rewrite (H a (or_introl eq_refl)), IH; [reflexivity|].
  intros b Hb. apply H. right. assumption.
Qed.

Lemma nodup_grid (factors : list string) (range : list Z) :
  NoDup factors -> NoDup range ->
  NoDup (flat_map (fun f => map (fun d => (d, f)) range) factors).
Proof.
  intros Hf Hr. induction Hf as [|f fs Hnot Hfs IH]; simpl; [constructor|].
  apply NoDup_app.
  - apply Finite.Injective_map_NoDup; [|assumption].
    intros d1 d2 E. inversion E. reflexivity.
  - assumption.
  - intros [d f'] H1 H2. rewrite in_map_iff in H1. destruct H1 as [d1 [E _]].
    inversion E; subst. rewrite in_flat_map in H2. destruct H2 as [f2 [Hin H2]].
    rewrite in_map_iff in H2. destruct H2 as [d2 [E2 _]]. inversion E2; subst.
    contradiction.
Qed.

Lemma in_grid (factors : list string) (range : list Z) (d : Z) (f : string) :
  In (d, f) (flat_map (fun f => map (fun d => (d, f)) range) factors)
  <-> In d range /\ In f factors.
Proof.
  rewrite in_flat_map. split.
  - intros [f' [Hf H]]. rewrite in_map_iff in H. destruct H as [d' [E Hd]].
    inversion E; subst. tauto.
  - intros [Hd Hf]. exists f. split; [assumption|].
    apply (in_map (fun d' => (d', f))). assumption.
Qed.

Lemma reindex_row_key (fd : list FactorDayRecord) (f : string) (d : Z) :
  Reference.row_key (FactorEngine.reindex_row fd f d) = (d, f).
Proof.
  unfold FactorEngine.reindex_row. destruct (find _ fd); reflexivity.
Qed.

Lemma grid_keys (daily : list FactorDayRecord) (factors : list string) (range : list Z) :
  map Reference.row_key
      (flat_map (fun f =>
                   map (FactorEngine.reindex_row
                          (filter (fun r => String.eqb (factor_code r) f) daily) f)
                       range) factors)
  = flat_map (fun f => map (fun d => (d, f)) range) factors.
Proof.
  induction factors as [|f fs IH]; simpl; [reflexivity|].
  rewrite map_app, IH, map_map. f_equal.
  apply map_ext. intros d. apply reindex_row_key.
Qed.

(** A reindexed row is the input row of its date and factor, or a zero row
    when the input has none. *)
Lemma reindex_row_value (daily : list FactorDayRecord) (f : string) (d : Z) :
  let row := FactorEngine.reindex_row
               (filter (fun r => String.eqb (factor_code r) f) daily) f d in
  In row daily
  \/ (~ In (d, f) (map Reference.row_key daily)
      /\ score row = 0 /\ intensity row = 0 /\ event_count row = 0%Z).
Proof.
  simpl. unfold FactorEngine.reindex_row.
  destruct (find _ _) as [r|] eqn:E.
  - left. apply find_some in E. destruct E as [Hin Ed].
    rewrite filter_In in Hin. destruct Hin as [Hin Ef].
    rewrite Z.eqb_eq in Ed. rewrite String.eqb_eq in Ef.
    destruct r; simpl in *; subst. assumption.
  - right. split; [|repeat split; reflexivity].
    rewrite in_map_iff. intros [r [Ek Hin]]. inversion Ek as [[Ed Ef]].
    assert (H := find_none _ _ E r). rewrite filter_In in H.
    rewrite Ef, String.eqb_refl, Ed, Z.eqb_refl in H.
    specialize (H (conj Hin eq_refl)). discriminate.
Qed.

(** C5: an empty table densifies to an empty table; a non-empty table with
    one row per (date, factor) pair densifies to exactly one row for every
    calendar day of [start_date, end_date] and every factor of the table,
    each row being the table's row of that day and factor or, when the
    table has none, a row of zeros. *)
Theorem densify_complete (daily : list FactorDayRecord) (start_date end_date : Z) :
  FactorEngine.create_factor_timeseries [] start_date end_date = Some []
  /\ (daily <> [] -> NoDup (map Reference.row_key daily) ->
      exists rows,
        FactorEngine.create_factor_timeseries daily start_date end_date = Some rows
        /\ NoDup (map Reference.row_key rows)
        /\ (forall d f,
              In (d, f) (map Reference.row_key rows)
              <-> (start_date <= d <= end_date)%Z /\ In f (map factor_code daily))
        /\ (forall row,
              In row rows ->
              In row daily
              \/ (~ In (Reference.row_key row) (map Reference.row_key daily)
                  /\ score row = 0 /\ intensity row = 0
                  /\ event_count row = 0%Z))).
Proof.
  split; [reflexivity|]. intros Hne Hnd.
  unfold FactorEngine.create_factor_timeseries.
  assert (Ht : Py.truthy daily = true) by (destruct daily; [congruence | reflexivity]).
  rewrite Ht.
  set (factors := Pandas.unique (map factor_code daily)).
  set (range := Pandas.date_range start_date end_date).
  set (h := fun f => map (FactorEngine.reindex_row
                            (filter (fun r => String.eqb (factor_code r) f) daily) f)
                         range).
  exists (flat_map h factors). split; [|split; [|split]].
  - apply concat_series_some. intros f _. unfold FactorEngine.factor_series.
    rewrite has_duplicates_false; [reflexivity | apply nodup_factor_dates; assumption].
  - unfold h. rewrite grid_keys.
    apply nodup_grid; [apply nodup_unique | apply nodup_date_range].
  - intros d f. unfold h. rewrite grid_keys, in_grid.
    unfold range, factors. rewrite in_date_range, in_unique. reflexivity.
  - intros row Hin. rewrite in_flat_map in Hin. destruct Hin as [f [_ Hin]].
    unfold h in Hin. rewrite in_map_iff in Hin. destruct Hin as [d [<- _]].
    rewrite reindex_row_key. apply reindex_row_value.
Qed.

Lemma densify_complete_witness :
  exists rows,
    FactorEngine.create_factor_timeseries [Sample.same_factor_twice_row] 19722 19724
    = Some rows
    /\ NoDup (map Reference.row_key rows)
    /\ (forall d f,
          In (d, f) (map Reference.row_key rows)
          <-> (19722 <= d <= 19724)%Z
              /\ In f (map factor_code [Sample.same_factor_twice_row]))
    /\ (forall row,
          In row rows ->
          In row [Sample.same_factor_twice_row]
          \/ (~ In (Reference.row_key row)
                   (map Reference.row_key [Sample.same_factor_twice_row])
              /\ score row = 0 /\ intensity row = 0 /\ event_count row = 0%Z)).
Proof.
  apply (proj2 (densify_complete [Sample.same_factor_twice_row] 19722 19724)).
  - discriminate.
  - simpl. constructor; [simpl; tauto | constructor].
Defined.

(** ** Price alignment *)

Lemma ffill_from_length (last : option Q) (col : list (option Q)) :
  List.length (Pandas.ffill_from last col) = List.length col.
Proof.
  revert last. induction col as [|[p|] col IH]; intros last; simpl;
    [reflexivity | rewrite IH; reflexivity | rewrite IH; reflexivity].
Qed.

Lemma pct_change_length (seen rows : list (string * option Q)) :
  List.length (FactorEngine.pct_change_by_factor seen rows) = List.length rows.
Proof.
  revert seen. induction rows as [|[f p] rows IH]; intros seen; simpl;
    [reflexivity | rewrite IH; reflexivity].
Qed.

Lemma map_fst_combine {A B : Type} (l1 : list A) (l2 : list B) :
  List.length l1 = List.length l2 -> map fst (combine l1 l2) = l1.
Proof.
  revert l2. induction l1 as [|a l1 IH]; intros [|b l2] H; simpl in *;
    try discriminate; [reflexivity|].
  rewrite IH; [reflexivity | lia].
Qed.

Lemma map_snd_combine {A B : Type} (l1 : list A) (l2 : list B) :
  List.length l1 = List.length l2 -> map snd (combine l1 l2) = l2.
Proof.
  revert l2. induction l1 as [|a l1 IH]; intros [|b l2] H; simpl in *;
    try discriminate; [reflexivity|].
  rewrite IH; [reflexivity | lia].
Qed.

Lemma dense_row_aligned_row (x : FactorDayRecord * (option Q * option Float)) :
  Reference.dense_row (FactorEngine.aligned_row x) = fst x.
Proof. destruct x as [[d f s i c] [p q]]. reflexivity. Qed.

(** With one price per date, at most one price row matches a date. *)
Lemma filter_unique_date (price_data : list (Z * Q)) (d : Z) :
  NoDup (map fst price_data) ->
  filter (fun p => (fst p =? d)%Z) price_data
  = match find (fun p => (fst p =? d)%Z) price_data with
    | Some p => [p]
    | None => []
    end.
Proof.
  induction price_data as [|p ps IH]; simpl; intros H; [reflexivity|].
  inversion H as [|? ? Hp Hps]; subst.
  destruct (fst p =? d)%Z eqn:E.
  - f_equal. rewrite Z.eqb_eq in E.
    destruct (filter (fun p0 => (fst p0 =? d)%Z) ps) as [|q qs] eqn:F; [reflexivity|].
    assert (Hq : In q (filter (fun p0 => (fst p0 =? d)%Z) ps))
      by (rewrite F; left; reflexivity).
    rewrite filter_In, Z.eqb_eq in Hq. destruct Hq as [Hq Eq].
    exfalso. apply Hp. rewrite E, <- Eq. apply in_map. assumption.
  - apply IH. assumption.
Qed.

Lemma merge_row_unique (price_data : list (Z * Q)) (r : FactorDayRecord) :
  NoDup (map fst price_data) ->
  FactorEngine.merge_row price_data r
  = [(r, Reference.price_on price_data (date r))].
Proof.
  intros H. unfold FactorEngine.merge_row, Reference.price_on.
  rewrite (filter_unique_date _ _ H).
  destruct (find _ price_data); reflexivity.
Qed.

Lemma merge_left_unique (factor_ts : list FactorDayRecord) (price_data : list (Z * Q)) :
  NoDup (map fst price_data) ->
  FactorEngine.merge_left factor_ts price_data
  = map (fun r => (r, Reference.price_on price_data (date r))) factor_ts.
Proof.
  intros H. unfold FactorEngine.merge_left.
  induction factor_ts as [|r rs IH]; simpl; [reflexivity|].
  rewrite merge_row_unique, IH by assumption. reflexivity.
Qed.

(** The rows and the price column of the aligned frame, whatever the join
    returned. *)
Lemma align_with_price_columns (factor_ts : list FactorDayRecord)
    (price_data : list (Z * Q)) :
  factor_ts <> [] -> price_data <> [] ->
  map Reference.dense_row (FactorEngine.align_with_price factor_ts price_data)
  = map fst (FactorEngine.merge_left factor_ts price_data)
  /\ map gold_price (FactorEngine.align_with_price factor_ts price_data)
     = Pandas.ffill (map snd (FactorEngine.merge_left factor_ts price_data)).
Proof.
  intros Ht Hp. unfold FactorEngine.align_with_price.
  destruct factor_ts as [|r rs]; [congruence|].
  destruct price_data as [|p ps]; [congruence|].
  cbn [Py.truthy negb orb].
  set (aligned := FactorEngine.merge_left (r :: rs) (p :: ps)).
  set (filled := Pandas.ffill (map snd aligned)).
  set (change := FactorEngine.pct_change_by_factor [] _).
  assert (Lf : List.length filled = List.length aligned).
  { unfold filled, Pandas.ffill. rewrite ffill_from_length, length_map. reflexivity. }
  assert (Lc : List.length change = List.length aligned).
  { unfold change. rewrite pct_change_length, length_combine, !length_map, Lf.
    apply Nat.min_id. }
  assert (Lfc : List.length (combine filled change) = List.length aligned).
  { rewrite length_combine, Lf, Lc. apply Nat.min_id. }
  split.
  - rewrite map_map. rewrite (map_ext _ fst) by apply dense_row_aligned_row.
    apply map_fst_combine. rewrite length_map, Lfc. reflexivity.
  - rewrite map_map.
    rewrite (map_ext _ (fun x => fst (snd x))) by (intros x; reflexivity).
    rewrite <- (map_map snd fst).
    rewrite map_snd_combine by (rewrite length_map, Lfc; reflexivity).
    apply map_fst_combine. rewrite Lf, Lc. reflexivity.
Qed.

Lemma app_tail_eq {A : Type} (l1 l1' l2 l2' : list A) :
  List.length l1 = List.length l1' -> (l1 ++ l2 = l1' ++ l2')%list -> l2 = l2'.
Proof.
  revert l1'. induction l1 as [|x l1 IH]; intros [|y l1'] L E; simpl in *;
    try discriminate; [assumption|].
  injection E as _ E. apply (IH l1'); [lia | assumption].
Qed.

Lemma ffill_from_app_state (last : option Q) (l1 l2 : list (option Q)) :
  exists last',
    Pandas.ffill_from last (l1 ++ l2)
    = (Pandas.ffill_from last l1 ++ Pandas.ffill_from last' l2)%list.
Proof.
  revert last. induction l1 as [|[p|] l1 IH]; intros last; simpl.
  - exists last. reflexivity.
  - destruct (IH (Some p)) as [last' E]. exists last'. rewrite E. reflexivity.
  - destruct (IH last) as [last' E]. exists last'. rewrite E. reflexivity.
Qed.

(** A filled cell holds the value of its own cell when that one is
    present. *)
Lemma ffill_from_keeps_present (last : option Q) (col : list (option Q)) :
  Forall2 (fun c o => forall p, c = Some p -> o = Some p)
          col (Pandas.ffill_from last col).
Proof.
  revert last. induction col as [|[q|] col IH]; intros last; simpl;
    constructor; try apply IH; intros p E; [assumption | discriminate].
Qed.

Lemma Forall2_map_same {A B C : Type} (R : B -> C -> Prop)
    (f : A -> B) (g : A -> C) (l : list A) :
  Forall2 R (map f l) (map g l) -> Forall (fun x => R (f x) (g x)) l.
Proof.
  induction l as [|x l IH]; simpl; intros H; [constructor|].
  inversion H; subst. constructor; [assumption | apply IH; assumption].
Qed.

(** Before the first present cell nothing is filled. *)
Lemma ffill_from_leading (l1 l2 : list (option Q)) :
  Forall (fun c => c = None) l1 ->
  Pandas.ffill_from None (l1 ++ l2) = (l1 ++ Pandas.ffill_from None l2)%list.
Proof.
  induction l1 as [|c l1 IH]; simpl; intros H; [reflexivity|].
  inversion H as [|? ? Hc H1]; subst. simpl. rewrite IH by assumption.
  reflexivity.
Qed.

Lemma ffill_from_cons (last y : option Q) (rest : list (option Q)) :
  Pandas.ffill_from last (y :: rest)
  = (match y with Some p => Some p | None => last end)
    :: Pandas.ffill_from (match y with Some p => Some p | None => last end) rest.
Proof. destruct y; reflexivity. Qed.

(** A run of absent cells takes the filled value of the cell above it. *)
Lemma ffill_from_carry (l2 : list (option Q)) :
  forall (last y : option Q) (l3 : list (option Q))
         (oy ox : option Q) (o2 o3 : list (option Q)),
    Pandas.ffill_from last (y :: l2 ++ None :: l3) = oy :: o2 ++ ox :: o3 ->
    List.length o2 = List.length l2 ->
    Forall (fun c => c = None) l2 ->
    ox = oy.
Proof.
  induction l2 as [|c l2 IH]; intros last y l3 oy ox o2 o3 E L H;
    rewrite ffill_from_cons in E; injection E as Ey E; rewrite Ey in E.
  - destruct o2; [|discriminate]. simpl in E. injection E as <- _. reflexivity.
  - destruct o2 as [|o o2]; [discriminate|].
    inversion H as [|? ? Hc H2]; subst c.
    rewrite <- !app_comm_cons in E.
    assert (Eo : o = oy) by (injection E as <- _; reflexivity).
    rewrite <- Eo. rewrite <- Eo in E.
    apply (IH o None l3 o ox o2 o3); [exact E | | assumption].
    simpl in L. lia.
Qed.

(** The price column of the aligned frame is the fill of the prices the
    mapping holds for the rows' own dates. *)
Lemma align_price_column (factor_ts : list FactorDayRecord)
    (price_data : list (Z * Q)) :
  price_data <> [] -> NoDup (map fst price_data) ->
  map Reference.dense_row (FactorEngine.align_with_price factor_ts price_data)
  = factor_ts
  /\ map gold_price (FactorEngine.align_with_price factor_ts price_data)
     = Pandas.ffill
         (map (fun a => Reference.price_on price_data (a_date a))
              (FactorEngine.align_with_price factor_ts price_data)).
Proof.
  intros Hp Hnd.
  assert (Es : map snd (FactorEngine.merge_left factor_ts price_data)
               = map (fun r => Reference.price_on price_data (date r)) factor_ts).
  { rewrite merge_left_unique by assumption. rewrite map_map. reflexivity. }
  assert (Ef : map fst (FactorEngine.merge_left factor_ts price_data) = factor_ts).
  { rewrite merge_left_unique by assumption. rewrite map_map. apply map_id. }
  destruct factor_ts as [|r rs]; [split; reflexivity|].
  destruct (align_with_price_columns (r :: rs) price_data) as [Hr Hg];
    [discriminate | assumption |].
  rewrite Ef in Hr. split; [exact Hr|].
  rewrite Hg, Es. rewrite <- Hr at 1. rewrite map_map. reflexivity.
Qed.

(** C4, as the engine has it: an empty price mapping, or an empty dense
    series, gives an empty frame.  With a non-empty price mapping holding one
    price per date, alignment returns exactly the rows of the dense series,
    in order, none dropped; the join gives each row the mapping's price for
    its date, missing when the mapping has none; in the output a row whose
    date is in the mapping carries that price, a row with no date of the
    mapping at or above it has no price, and a row whose date is not in the
    mapping carries the price of the row above it when the rows from that
    one down to it belong to one factor and have no date of the mapping. *)
Theorem align_keeps_every_row (factor_ts : list FactorDayRecord)
    (price_data : list (Z * Q)) :
  FactorEngine.align_with_price factor_ts [] = []
  /\ FactorEngine.align_with_price [] price_data = []
  /\ (price_data <> [] -> NoDup (map fst price_data) ->
      map Reference.dense_row (FactorEngine.align_with_price factor_ts price_data)
      = factor_ts
      /\ map snd (FactorEngine.merge_left factor_ts price_data)
         = map (fun r => Reference.price_on price_data (date r)) factor_ts
      /\ (forall (a : AlignedRecord) (p : Q),
            In a (FactorEngine.align_with_price factor_ts price_data) ->
            Reference.price_on price_data (a_date a) = Some p ->
            gold_price a = Some p)
      /\ (forall (above below : list AlignedRecord) (a : AlignedRecord),
            FactorEngine.align_with_price factor_ts price_data
            = (above ++ a :: below)%list ->
            (forall b, In b (above ++ [a])%list ->
                       Reference.price_on price_data (a_date b) = None) ->
            gold_price a = None)
      /\ (forall (above between below : list AlignedRecord)
                 (b a : AlignedRecord) (p : Q),
            FactorEngine.align_with_price factor_ts price_data
            = (above ++ b :: between ++ a :: below)%list ->
            gold_price b = Some p ->
            (forall c, In c (between ++ [a])%list ->
                       a_factor_code c = a_factor_code b
                       /\ Reference.price_on price_data (a_date c) = None) ->
            gold_price a = Some p)).
Proof.
  split; [destruct factor_ts; reflexivity|].
  split; [reflexivity|].
  intros Hp Hnd.
  destruct (align_price_column factor_ts price_data Hp Hnd) as [Hr Hg].
  set (out := FactorEngine.align_with_price factor_ts price_data) in *.
  set (g := fun a : AlignedRecord => Reference.price_on price_data (a_date a)) in *.
  split; [exact Hr|].
  split; [rewrite merge_left_unique by assumption; rewrite map_map; reflexivity|].
  split; [|split].
  - intros a p Ha Hd.
    assert (F : Forall (fun x => forall q, g x = Some q -> gold_price x = Some q) out).
    { apply (Forall2_map_same (fun c o => forall q, c = Some q -> o = Some q)
                              g gold_price).
      rewrite Hg. apply ffill_from_keeps_present. }
    rewrite Forall_forall in F. apply (F a Ha p Hd).
  - intros above below a E Hn. rewrite E in Hg.
    replace (above ++ a :: below)%list with ((above ++ [a]) ++ below)%list in Hg
      by (rewrite <- app_assoc; reflexivity).
    rewrite (map_app g (above ++ [a]) below) in Hg.
    unfold Pandas.ffill in Hg.
    rewrite ffill_from_leading in Hg
      by (rewrite Forall_forall; intros c Hc; apply in_map_iff in Hc;
          destruct Hc as [b [<- Hb]]; apply Hn; assumption).
    rewrite !map_app in Hg. rewrite <- !app_assoc in Hg.
    apply app_tail_eq in Hg; [|rewrite !length_map; reflexivity].
    simpl in Hg. injection Hg as Hg _.
    rewrite Hg. apply Hn. apply in_or_app. right. left. reflexivity.
  - intros above between below b a p E Hb Hc. rewrite E in Hg.
    rewrite !map_app in Hg. cbn [map] in Hg. rewrite !map_app in Hg.
    cbn [map] in Hg. unfold Pandas.ffill in Hg.
    destruct (ffill_from_app_state None (map g above)
                (g b :: map g between ++ g a :: map g below)) as [last' S].
    rewrite S in Hg. apply app_tail_eq in Hg;
      [|rewrite ffill_from_length, !length_map; reflexivity].
    assert (Ea : g a = None).
    { apply Hc. apply in_or_app. right. left. reflexivity. }
    rewrite Ea in Hg. symmetry in Hg.
    apply ffill_from_carry in Hg.
    + rewrite Hg. exact Hb.
    + rewrite !length_map. reflexivity.
    + rewrite Forall_forall. intros c Hin. apply in_map_iff in Hin.
      destruct Hin as [x [<- Hx]]. apply Hc. apply in_or_app. left. assumption.
Qed.

Lemma align_keeps_every_row_witness :
  map Reference.dense_row
      (FactorEngine.align_with_price Sample.two_factor_series Sample.late_prices)
  = Sample.two_factor_series
  /\ map snd (FactorEngine.merge_left Sample.two_factor_series Sample.late_prices)
     = [None; Some 2000; None; Some 2000].
Proof.
  destruct (align_keeps_every_row Sample.two_factor_series Sample.late_prices)
    as [_ [_ H]].
  destruct H as [Hr [Hm _]].
  - discriminate.
  - simpl. constructor; [simpl; tauto | constructor].
  - split; [exact Hr | rewrite Hm; reflexivity].
Defined.

(** C4 as stated fails on the empty price mapping: the guard returns an
    empty frame, so a non-empty dense series loses all its rows. *)
Lemma align_empty_prices_drops_rows :
  ~ (forall (factor_ts : list FactorDayRecord) (price_data : list (Z * Q)),
       factor_ts <> [] ->
       List.length (FactorEngine.align_with_price factor_ts price_data)
       = List.length factor_ts).
Proof.
  intros H. specialize (H Sample.two_factor_series []).
  assert (E : Sample.two_factor_series <> []) by discriminate.
  specialize (H E). discriminate H.
Qed.

(** C2: with prices starting on the second day, the second factor's row of
    the first day, which has no earlier price, is filled with the price the
    first factor's block ended on. *)
Theorem ffill_crosses_factor_groups :
  map (fun a => (a_date a, a_factor_code a, gold_price a))
      (FactorEngine.align_with_price Sample.two_factor_series Sample.late_prices)
  = [ (19723%Z, "A1_REAL_YIELD"%string, None);
      (19724%Z, "A1_REAL_YIELD"%string, Some 2000);
      (19723%Z, "B1_GEOPOLITICS"%string, Some 2000);
      (19724%Z, "B1_GEOPOLITICS"%string, Some 2000) ]
  /\ Forall (fun p => (19723 < fst p)%Z) Sample.late_prices.
Proof.
  split; [reflexivity|]. repeat constructor.
Qed.

(** ** Influence curve *)

Lemma shortfall_bound (T s : Q) :
  0 <= T -> s * (T + FactorEngine.epsilon) == T ->
  (1 - s <= 1 # 10000 <-> 9999 # 1000000 <= T).
Proof.
  unfold FactorEngine.epsilon. intros HT E. split; intros H.
  - assert (P : 0 <= ((1 # 10000) - (1 - s)) * (T + (1 # 1000000)))
      by (apply Qmult_le_0_compat; lra).
    lra.
  - destruct (Qlt_le_dec (1 # 10000) (1 - s)) as [C | C]; [|assumption].
    assert (P : 0 < ((1 - s) - (1 # 10000)) * (T + (1 # 1000000)))
      by (apply Qmult_lt_0_compat; lra).
    lra.
Qed.

Lemma share_at_most_one (T s : Q) :
  0 <= T -> s * (T + FactorEngine.epsilon) == T -> s <= 1.
Proof.
  unfold FactorEngine.epsilon. intros HT E.
  destruct (Qlt_le_dec 1 s) as [C | C]; [|assumption].
  assert (P : 0 < (s - 1) * (T + (1 # 1000000)))
    by (apply Qmult_lt_0_compat; lra).
  lra.
Qed.

(** The rows of one date in the curve built from [combined]. *)
Lemma rows_on_curve (combined part : list (AlignedRecord * Q)) (d : Z) :
  Reference.rows_on d (map (FactorEngine.influence_row combined) part)
  = map (FactorEngine.influence_row combined)
        (filter (fun x => (a_date (fst x) =? d)%Z) part).
Proof. unfold Reference.rows_on. apply filter_map_swap. Qed.

Lemma curve_rolling (combined part : list (AlignedRecord * Q)) :
  map rolling_intensity (map (FactorEngine.influence_row combined) part)
  = map snd part.
Proof. rewrite map_map. reflexivity. Qed.

Lemma curve_normalized (combined part : list (AlignedRecord * Q)) (d : Z) :
  (forall x, In x part -> a_date (fst x) = d) ->
  map normalized_influence (map (FactorEngine.influence_row combined) part)
  = map (fun x => snd x / (FactorEngine.daily_total combined d + FactorEngine.epsilon))
        part.
Proof.
  intros H. rewrite map_map. apply map_ext_in.
  intros x Hx. simpl. rewrite (H x Hx). reflexivity.
Qed.

(** On every date the shares add up to [T / (T + epsilon)], [T] being the
    date's total rolling intensity. *)
Lemma day_share (aligned : list AlignedRecord) (window_days : nat)
    (curve : list InfluenceRecord) (d : Z) :
  FactorEngine.calculate_factor_influence_curve aligned window_days = Some curve ->
  Py.qsum (map normalized_influence (Reference.rows_on d curve))
  == Py.qsum (map rolling_intensity (Reference.rows_on d curve))
     / (Py.qsum (map rolling_intensity (Reference.rows_on d curve))
        + FactorEngine.epsilon).
Proof.
  unfold FactorEngine.calculate_factor_influence_curve.
  destruct (Py.truthy aligned).
  - destruct (Nat.eqb window_days 0); [discriminate|].
    intros H. injection H as <-.
    set (combined := flat_map _ _).
    rewrite rows_on_curve, curve_rolling.
    rewrite (curve_normalized combined _ d).
    + rewrite (qsum_map_div snd). reflexivity.
    + intros x Hx. rewrite filter_In, Z.eqb_eq in Hx. tauto.
  - intros H. injection H as <-. reflexivity.
Qed.

(** C1, as the engine has it: on a date whose total rolling intensity [T]
    is not negative, the normalized influences add up to [T / (T + 1e-6)];
    the sum is within 1e-4 of 1 exactly when [T] is at least 0.009999. *)
Theorem normalized_influence_sum (aligned : list AlignedRecord)
    (window_days : nat) (curve : list InfluenceRecord) (d : Z) :
  FactorEngine.calculate_factor_influence_curve aligned window_days = Some curve ->
  0 <= Py.qsum (map rolling_intensity (Reference.rows_on d curve)) ->
  Py.qsum (map normalized_influence (Reference.rows_on d curve))
  == Py.qsum (map rolling_intensity (Reference.rows_on d curve))
     / (Py.qsum (map rolling_intensity (Reference.rows_on d curve))
        + FactorEngine.epsilon)
  /\ (Qabs (Py.qsum (map normalized_influence (Reference.rows_on d curve)) - 1)
      <= 1 # 10000
      <-> 9999 # 1000000
          <= Py.qsum (map rolling_intensity (Reference.rows_on d curve))).
Proof.
  intros Hc HT. pose proof (day_share aligned window_days curve d Hc) as Hs.
  set (T := Py.qsum (map rolling_intensity (Reference.rows_on d curve))) in *.
  set (s := Py.qsum (map normalized_influence (Reference.rows_on d curve))) in *.
  split; [exact Hs|].
  assert (E : s * (T + FactorEngine.epsilon) == T).
  { rewrite Hs. field. unfold FactorEngine.epsilon. lra. }
  pose proof (share_at_most_one T s HT E) as Hle.
  rewrite Qabs_neg by lra.
  rewrite <- (shortfall_bound T s HT E).
  split; intros H; lra.
Qed.

Lemma normalized_influence_sum_witness :
  Py.qsum (map normalized_influence
             (Reference.rows_on 19723
                [mkInfluence 19723 "A1_REAL_YIELD" (1 # 2) (1 # 1000000)
                             (1 # 1000000) (Some 2000)]))
  == (1 # 1000000) / ((1 # 1000000) + FactorEngine.epsilon).
Proof.
  destruct (normalized_influence_sum Sample.faint_day 7
              [mkInfluence 19723 "A1_REAL_YIELD"
                           (1000000000000 # 2000000000000) (1 # 1000000)
                           (1 # 1000000) (Some 2000)] 19723) as [H _].
  - reflexivity.
  - vm_compute. discriminate.
  - vm_compute. reflexivity.
Defined.

(** C1 as stated fails: a date whose only factor has rolling intensity 1e-6
    gets a share of 1/2, not 1 within 1e-4. *)
Lemma normalization_tolerance_fails :
  ~ (forall (aligned : list AlignedRecord) (window_days : nat)
            (curve : list InfluenceRecord) (d : Z),
       FactorEngine.calculate_factor_influence_curve aligned window_days = Some curve ->
       (exists r, In r (Reference.rows_on d curve) /\ ~ rolling_intensity r == 0) ->
       Qabs (Py.qsum (map normalized_influence (Reference.rows_on d curve)) - 1)
       <= 1 # 10000).
Proof.
  intros H.
  specialize (H Sample.faint_day 7%nat _ 19723%Z eq_refl).
  assert (Hr : exists r,
             In r (Reference.rows_on 19723
                     [FactorEngine.influence_row
                        (combine Sample.faint_day [1 # 1000000])
                        (mkAligned 19723 "A1_REAL_YIELD" (1 # 1000000)
                                   (1 # 1000000) 1 (Some 2000) None,
                         1 # 1000000)])
             /\ ~ rolling_intensity r == 0).
  { eexists. split; [left; reflexivity|]. vm_compute. discriminate. }
  specialize (H Hr). vm_compute in H. apply H. reflexivity.
Qed.

(** The same shortfall reached from an event: a tag of strength 0.01 and
    confidence 0.2 on an event of unknown type yields intensity 1e-5 and a
    share of 10/11 on its day. *)
Lemma faint_event_share :
  option_map (map (fun r => (rolling_intensity r, Qred (normalized_influence r))))
    (GoldAnalyzer.factor_analysis Sample.config Sample.to_date
       [Sample.faint_event] Sample.one_day_prices)
  = Some [(1 # 100000, 10 # 11)].
Proof. vm_compute. reflexivity. Qed.

(** Totals are not negative when the aligned intensities are not, as is the
    case for every frame the aggregator's sums of absolute scores lead to. *)
Lemma qsum_nonneg (l : list Q) : Forall (fun x => 0 <= x) l -> 0 <= Py.qsum l.
Proof.
  induction 1 as [|x l Hx Hl IH]; simpl; [apply Qle_refl | lra].
Qed.

Lemma Forall_firstn_nonneg (n : nat) (l : list Q) :
  Forall (fun x => 0 <= x) l -> Forall (fun x => 0 <= x) (firstn n l).
Proof.
  intros H. revert n. induction H as [|x l Hx Hl IH]; intros [|n]; simpl;
    constructor; auto.
Qed.

Lemma Forall_skipn_nonneg (n : nat) (l : list Q) :
  Forall (fun x => 0 <= x) l -> Forall (fun x => 0 <= x) (skipn n l).
Proof.
  intros H. revert n. induction H as [|x l Hx Hl IH]; intros [|n]; simpl;
    try constructor; auto.
Qed.

Lemma rolling_sum_nonneg (window : nat) (col : list Q) :
  Forall (fun x => 0 <= x) col ->
  Forall (fun x => 0 <= x) (Pandas.rolling_sum window col).
Proof.
  intros H. unfold Pandas.rolling_sum. rewrite Forall_forall.
  intros q Hq. rewrite in_map_iff in Hq. destruct Hq as [i [<- _]].
  apply qsum_nonneg, Forall_firstn_nonneg, Forall_skipn_nonneg. assumption.
Qed.

Lemma in_insert_by_date (r x : AlignedRecord) (l : list AlignedRecord) :
  In x (FactorEngine.insert_by_date r l) -> x = r \/ In x l.
Proof.
  induction l as [|a l IH]; simpl.
  - intuition.
  - destruct (a_date r <=? a_date a)%Z; simpl; intuition.
Qed.

Lemma in_sort_values_date (x : AlignedRecord) (l : list AlignedRecord) :
  In x (FactorEngine.sort_values_date l) -> In x l.
Proof.
  unfold FactorEngine.sort_values_date.
  induction l as [|a l IH]; simpl; [tauto|].
  intros H. apply in_insert_by_date in H. intuition.
Qed.

Lemma curve_rolling_nonneg (aligned : list AlignedRecord) (window_days : nat)
    (curve : list InfluenceRecord) :
  Forall (fun a => 0 <= a_intensity a) aligned ->
  FactorEngine.calculate_factor_influence_curve aligned window_days = Some curve ->
  Forall (fun r => 0 <= rolling_intensity r) curve.
Proof.
  intros Hin. unfold FactorEngine.calculate_factor_influence_curve.
  destruct (Py.truthy aligned); [|intros H; injection H as <-; constructor].
  destruct (Nat.eqb window_days 0); [discriminate|].
  intros H. injection H as <-. rewrite Forall_forall.
  intros r Hr. rewrite in_map_iff in Hr. destruct Hr as [[a q] [<- Hx]].
  simpl. rewrite in_flat_map in Hx. destruct Hx as [f [_ Hx]].
  unfold FactorEngine.factor_rolling in Hx. apply in_combine_r in Hx.
  revert q Hx. rewrite <- Forall_forall. apply rolling_sum_nonneg.
  rewrite Forall_forall. intros i Hi. rewrite in_map_iff in Hi.
  destruct Hi as [a' [<- Ha']]. apply in_sort_values_date in Ha'.
  rewrite filter_In in Ha'. rewrite Forall_forall in Hin. apply Hin. tauto.
Qed.

Lemma day_total_nonneg (aligned : list AlignedRecord) (window_days : nat)
    (curve : list InfluenceRecord) (d : Z) :
  Forall (fun a => 0 <= a_intensity a) aligned ->
  FactorEngine.calculate_factor_influence_curve aligned window_days = Some curve ->
  0 <= Py.qsum (map rolling_intensity (Reference.rows_on d curve)).
Proof.
  intros Hin Hc. apply qsum_nonneg. rewrite Forall_forall.
  intros q Hq. rewrite in_map_iff in Hq. destruct Hq as [r [<- Hr]].
  unfold Reference.rows_on in Hr. rewrite filter_In in Hr.
  pose proof (curve_rolling_nonneg aligned window_days curve Hin Hc) as Hf.
  rewrite Forall_forall in Hf. apply Hf. tauto.
Qed.

(** * Further properties of the engine *)

(** ** Order of strings and of group keys *)

Lemma ascii_compare_lt_trans (a b c : ascii) :
  Ascii.compare a b = Lt -> Ascii.compare b c = Lt -> Ascii.compare a c = Lt.
Proof.
  unfold Ascii.compare. rewrite !N.compare_lt_iff. lia.
Qed.

Lemma string_compare_lt_trans (s1 s2 s3 : string) :
  String.compare s1 s2 = Lt -> String.compare s2 s3 = Lt ->
  String.compare s1 s3 = Lt.
Proof.
  revert s2 s3. induction s1 as [|c1 s1 IH]; intros [|c2 s2] [|c3 s3]; simpl;
    try discriminate; try reflexivity.
  destruct (Ascii.compare c1 c2) eqn:E12; try discriminate;
    destruct (Ascii.compare c2 c3) eqn:E23; try discriminate; intros H1 H2.
  - apply Ascii.compare_eq_iff in E12, E23. subst.
    assert (E : Ascii.compare c3 c3 = Eq).
    { unfold Ascii.compare. apply N.compare_refl. }
    rewrite E. eapply IH; eassumption.
  - apply Ascii.compare_eq_iff in E12. subst. rewrite E23. reflexivity.
  - apply Ascii.compare_eq_iff in E23. subst. rewrite E12. reflexivity.
  - rewrite (ascii_compare_lt_trans _ _ _ E12 E23). reflexivity.
Qed.

Lemma string_leb_iff (s1 s2 : string) :
  String.leb s1 s2 = true <-> String.compare s1 s2 = Lt \/ s1 = s2.
Proof.
  unfold String.leb. split.
  - destruct (String.compare s1 s2) eqn:E; try discriminate; intros _.
    + right. apply String.compare_eq_iff. assumption.
    + left. reflexivity.
  - intros [-> | ->]; [reflexivity|].
    assert (E : String.compare s2 s2 = Eq).
    { induction s2 as [|c s IH]; simpl; [reflexivity|].
      assert (Ec : Ascii.compare c c = Eq) by (unfold Ascii.compare; apply N.compare_refl).
      rewrite Ec. assumption. }
    rewrite E. reflexivity.
Qed.

Lemma string_leb_trans (s1 s2 s3 : string) :
  String.leb s1 s2 = true -> String.leb s2 s3 = true -> String.leb s1 s3 = true.
Proof.
  rewrite !string_leb_iff. intros [H1 | ->] [H2 | ->]; auto.
  left. eapply string_compare_lt_trans; eassumption.
Qed.

Lemma string_leb_refl (s : string) : String.leb s s = true.
Proof. apply string_leb_iff. right. reflexivity. Qed.

Lemma key_leb_total (a b : Pandas.key) :
  Pandas.key_leb a b = false -> Pandas.key_leb b a = true.
Proof.
  destruct a as [d1 f1], b as [d2 f2]. unfold Pandas.key_leb. simpl.
  rewrite orb_false_iff, orb_true_iff, andb_false_iff, andb_true_iff.
  rewrite !Z.ltb_ge, !Z.ltb_lt, !Z.eqb_neq, !Z.eqb_eq.
  intros [H1 [H2 | H2]].
  - left. lia.
  - destruct (Z.eq_dec d2 d1); [|left; lia].
    right. split; [assumption|].
    destruct (String.leb_total f1 f2) as [H | H]; [congruence | assumption].
Qed.

Lemma key_leb_trans (a b c : Pandas.key) :
  Pandas.key_leb a b = true -> Pandas.key_leb b c = true ->
  Pandas.key_leb a c = true.
Proof.
  destruct a as [d1 f1], b as [d2 f2], c as [d3 f3]. unfold Pandas.key_leb. simpl.
  rewrite !orb_true_iff, !andb_true_iff, !Z.ltb_lt, !Z.eqb_eq.
  intros [H1 | [H1 L1]] [H2 | [H2 L2]]; try (left; lia).
  right. split; [lia | eapply string_leb_trans; eassumption].
Qed.

Lemma insert_key_sorted (k : Pandas.key) (l : list Pandas.key) :
  Sorted (fun a b => Pandas.key_leb a b = true) l ->
  Sorted (fun a b => Pandas.key_leb a b = true) (Pandas.insert_key k l).
Proof.
  induction l as [|a l IH]; simpl; intros H.
  - repeat constructor.
  - destruct (Pandas.key_leb k a) eqn:E.
    + constructor; [assumption | constructor; assumption].
    + apply Sorted_inv in H. destruct H as [Hs Hh].
      constructor; [apply IH; assumption|].
      destruct l as [|b l]; simpl.
      * constructor. apply key_leb_total. assumption.
      * destruct (Pandas.key_leb k b); constructor.
        -- apply key_leb_total. assumption.
        -- inversion Hh. assumption.
Qed.

Lemma sort_keys_sorted (l : list Pandas.key) :
  StronglySorted (fun a b => Pandas.key_leb a b = true) (Pandas.sort_keys l).
Proof.
  apply Sorted_StronglySorted.
  - intros a b c. apply key_leb_trans.
  - unfold Pandas.sort_keys. induction l as [|k l IH]; simpl;
      [constructor | apply insert_key_sorted; assumption].
Qed.

Lemma StronglySorted_map {A B : Type} (R : B -> B -> Prop) (f : A -> B)
    (l : list A) :
  StronglySorted R (map f l) -> StronglySorted (fun a b => R (f a) (f b)) l.
Proof.
  induction l as [|a l IH]; simpl; intros H; [constructor|].
  apply StronglySorted_inv in H. destruct H as [Hs Hf].
  constructor; [apply IH; assumption|].
  rewrite Forall_forall in *. intros x Hx. apply Hf. apply in_map. assumption.
Qed.

Section AggregatorShape.

Variable config : Config.
Variable to_date : string -> option Z.

Local Abbreviation aggregate :=
  (FactorEngine.aggregate_factor_scores_by_day config to_date).
Local Abbreviation records_of := (FactorEngine.collect_records config to_date).

(** X2: the aggregated table is ordered by date, and by factor code within a
    date: every row precedes, in that order, every row after it. *)
Theorem aggregate_sorted (events : list Event) :
  StronglySorted
    (fun a b =>
       (date a < date b)%Z
       \/ (date a = date b /\ String.leb (factor_code a) (factor_code b) = true))
    (aggregate events).
Proof.
  pose proof (sort_keys_sorted
                (Pandas.unique_keys
                   (map FactorEngine.record_key (records_of events)))) as H.
  rewrite <- aggregate_keys in H. apply StronglySorted_map in H.
  induction H as [|a l Hs IH Hf]; constructor; [assumption|].
  rewrite Forall_forall in *. intros b Hb. specialize (Hf b Hb).
  unfold Pandas.key_leb, Reference.row_key in Hf. simpl in Hf.
  rewrite orb_true_iff, andb_true_iff, Z.ltb_lt, Z.eqb_eq in Hf. exact Hf.
Qed.

(** X3: the aggregated table has a row for a (date, factor) pair exactly when
    some event dated that day carries a tag for that factor. *)
Theorem aggregate_groups (events : list Event) (d : Z) (f : string) :
  In (d, f) (map Reference.row_key (aggregate events))
  <-> exists event tag,
        In event events
        /\ to_date (Py.get (timestamp_utc event) ""%string) = Some d
        /\ In tag (Py.get (factor_tags event) [])
        /\ Py.get (factor tag) ""%string = f.
Proof.
  rewrite aggregate_keys, in_sort_keys, in_unique_keys. apply in_record_keys.
Qed.

End AggregatorShape.

(** ** Group columns *)

Lemma qsum_abs_nonneg (l : list Q) : 0 <= Py.qsum (map Qabs l).
Proof.
  induction l as [|x l IH]; simpl; [apply Qle_refl|].
  pose proof (Qabs_nonneg x). lra.
Qed.

Lemma qsum_abs_triangle (l : list Q) : Qabs (Py.qsum l) <= Py.qsum (map Qabs l).
Proof.
  induction l as [|x l IH]; simpl; [apply Qle_refl|].
  eapply Qle_trans; [apply Qabs_triangle|]. lra.
Qed.

Lemma aggregate_row_sums (config : Config) (to_date : string -> option Z)
    (events : list Event) (row : FactorDayRecord) :
  In row (FactorEngine.aggregate_factor_scores_by_day config to_date events) ->
  score row
  = Py.qsum (Reference.tag_contributions config to_date
               (date row) (factor_code row) events)
  /\ intensity row
     = Py.qsum (map Qabs (Reference.tag_contributions config to_date
                            (date row) (factor_code row) events)).
Proof.
  intros H. apply aggregate_row_inv in H. destruct H as [_ H].
  set (g := FactorEngine.agg_group
              (FactorEngine.collect_records config to_date events)
              (date row, factor_code row)) in H.
  assert (Es : score row = score g) by (rewrite <- H; reflexivity).
  assert (Ei : intensity row = intensity g) by (rewrite <- H; reflexivity).
  rewrite Es, Ei. unfold g. simpl.
  rewrite group_rows_signed, group_rows_abs. split; reflexivity.
Qed.

(** X6: every aggregated row has a non-negative intensity that bounds the
    absolute value of its score. *)
Theorem aggregate_intensity_bounds (config : Config)
    (to_date : string -> option Z) (events : list Event) (row : FactorDayRecord) :
  In row (FactorEngine.aggregate_factor_scores_by_day config to_date events) ->
  0 <= intensity row /\ Qabs (score row) <= intensity row.
Proof.
  intros H. apply aggregate_row_sums in H. destruct H as [-> ->].
  split; [apply qsum_abs_nonneg | apply qsum_abs_triangle].
Qed.

Lemma aggregate_intensity_bounds_witness :
  0 <= intensity Sample.same_factor_twice_row
  /\ Qabs (score Sample.same_factor_twice_row)
     <= intensity Sample.same_factor_twice_row.
Proof.
  apply (aggregate_intensity_bounds Sample.config Sample.to_date
           [Sample.same_factor_twice]).
  vm_compute. left. reflexivity.
Defined.

Lemma event_count_is_tag_count_witness :
  event_count Sample.same_factor_twice_row
  = Z.of_nat (List.length (Reference.counted_tags Sample.to_date
                             19723 "A1_REAL_YIELD" [Sample.same_factor_twice]))
  /\ forall row,
       In row (FactorEngine.aggregate_factor_scores_by_day Sample.config
                 Sample.to_date [Sample.null_id_event]) ->
       event_count row = 0%Z.
Proof.
  split.
  - apply (event_count_is_tag_count Sample.config Sample.to_date
             [Sample.same_factor_twice] Sample.same_factor_twice_row).
    vm_compute. left. reflexivity.
  - intros row H.
    rewrite (event_count_is_tag_count Sample.config Sample.to_date
               [Sample.null_id_event] row H).
    unfold Reference.counted_tags, Reference.event_counted_tags.
    cbn [flat_map]. change (Sample.to_date _) with (Some 19724%Z). cbv iota.
    destruct (19724 =? date row)%Z; reflexivity.
Defined.

Lemma group_rows_nonempty (k : Pandas.key) (records : list ScoreRecord) :
  In k (map FactorEngine.record_key records) ->
  FactorEngine.group_rows k records <> [].
Proof.
  rewrite in_map_iff. intros [r [E Hr]] Hn.
  assert (Hin : In r (FactorEngine.group_rows k records)).
  { unfold FactorEngine.group_rows. rewrite filter_In. split; [assumption|].
    apply key_eqb_eq. assumption. }
  rewrite Hn in Hin. contradiction.
Qed.

Lemma count_all_present {A : Type} (col : list (option A)) :
  Forall (fun v => v <> None) col -> Pandas.count col = List.length col.
Proof.
  unfold Pandas.count. induction col as [|[v|] col IH]; intros H;
    inversion H; subst; simpl; [reflexivity | rewrite IH by assumption; reflexivity
                               | congruence].
Qed.

Lemma records_ids_present (config : Config) (to_date : string -> option Z)
    (events : list Event) :
  (forall event, In event events ->
                 Py.get (event_id event) (Some ""%string) <> None) ->
  Forall (fun r => r_event_id r <> None)
         (FactorEngine.collect_records config to_date events).
Proof.
  intros H. rewrite Forall_forall. intros r Hr.
  unfold FactorEngine.collect_records in Hr. rewrite in_flat_map in Hr.
  destruct Hr as [event [He Hr]]. unfold FactorEngine.event_records in Hr.
  destruct (to_date _); [|contradiction].
  cbv zeta in Hr. rewrite in_map_iff in Hr. destruct Hr as [tag [<- _]].
  simpl. apply H. assumption.
Qed.

(** X5: the event count of an aggregated row is never negative, and it is
    at least 1 when no event carries a null identifier (an identifier that
    is missing reads as the empty string and is counted). *)
Theorem event_count_positive (config : Config) (to_date : string -> option Z)
    (events : list Event) (row : FactorDayRecord) :
  In row (FactorEngine.aggregate_factor_scores_by_day config to_date events) ->
  (0 <= event_count row)%Z
  /\ ((forall event, In event events ->
                     Py.get (event_id event) (Some ""%string) <> None) ->
      (1 <= event_count row)%Z).
Proof.
  intros H. apply aggregate_row_inv in H. destruct H as [Hk H].
  apply group_rows_nonempty in Hk.
  assert (E : event_count row
              = event_count (FactorEngine.agg_group
                               (FactorEngine.collect_records config to_date events)
                               (date row, factor_code row)))
    by (rewrite <- H; reflexivity).
  rewrite E. simpl. split; [lia|].
  intros Hid. rewrite count_all_present.
  - rewrite length_map.
    destruct (FactorEngine.group_rows _ _); [congruence | simpl; lia].
  - rewrite Forall_forall. intros v Hv. rewrite in_map_iff in Hv.
    destruct Hv as [r [<- Hr]]. unfold FactorEngine.group_rows in Hr.
    rewrite filter_In in Hr. destruct Hr as [Hr _].
    pose proof (records_ids_present config to_date events Hid) as F.
    rewrite Forall_forall in F. apply F. assumption.
Qed.

Lemma event_count_positive_witness :
  (1 <= event_count Sample.same_factor_twice_row)%Z.
Proof.
  apply (event_count_positive Sample.config Sample.to_date
           [Sample.same_factor_twice]).
  - vm_compute. left. reflexivity.
  - intros event [<- | []]. discriminate.
Defined.

(** ** Rounding and range of the impact score *)

Lemma round_half_even_range (y : Q) (n : Z) :
  0 <= y -> y <= inject_Z n ->
  (0 <= Py.round_half_even y <= n)%Z.
Proof.
  intros H0 Hn. unfold Py.round_half_even.
  pose proof (Qfloor_le y) as Hl.
  assert (F0 : (0 <= Qfloor y)%Z).
  { change 0%Z with (Qfloor 0). apply Qfloor_resp_le. assumption. }
  assert (Fn : (Qfloor y <= n)%Z).
  { rewrite <- (Qfloor_Z n). apply Qfloor_resp_le. assumption. }
  assert (Up : inject_Z (Qfloor y) < y -> (Qfloor y + 1 <= n)%Z).
  { intros Hlt. assert (Hq : inject_Z (Qfloor y) < inject_Z n) by lra.
    rewrite <- Zlt_Qlt in Hq. lia. }
  destruct (Qcompare_spec (y - inject_Z (Qfloor y)) (1 # 2)) as [E | L | G].
  - destruct (Z.even (Qfloor y)); [lia|].
    split; [lia|]. apply Up. lra.
  - lia.
  - split; [lia|]. apply Up. lra.
Qed.

Lemma round3_unit (x : Q) : 0 <= x -> x <= 1 -> 0 <= Py.round3 x <= 1.
Proof.
  intros H0 H1.
  destruct (round_half_even_range (x * 1000) 1000) as [L U];
    [lra | change (inject_Z 1000) with 1000; lra |].
  unfold Py.round3, Qle. simpl. split; lia.
Qed.

Lemma mean_unit (l : list Q) :
  l <> [] -> Forall (fun x => 0 <= x <= 1) l -> 0 <= Py.mean l <= 1.
Proof.
  intros Hne Hl.
  assert (Hs : 0 <= Py.qsum l <= inject_Z (Z.of_nat (List.length l))).
  { clear Hne. induction Hl as [|x l [Hx0 Hx1] Hl [IH0 IH1]].
    - simpl. split; apply Qle_refl.
    - cbn [Py.qsum List.length]. rewrite Nat2Z.inj_succ, <- Z.add_1_r, inject_Z_plus.
      change (inject_Z 1) with 1.
      set (n := inject_Z (Z.of_nat (List.length l))) in *. split; lra. }
  assert (Hn : 0 < inject_Z (Z.of_nat (List.length l))).
  { destruct l as [|x l]; [congruence|].
    change 0 with (inject_Z 0). rewrite <- Zlt_Qlt. simpl. lia. }
  unfold Py.mean. split.
  - apply Qle_shift_div_l; [assumption | lra].
  - apply Qle_shift_div_r; [assumption | lra].
Qed.

Lemma product_unit (a b c : Q) :
  0 <= a <= 1 -> 0 <= b <= 1 -> 0 <= c <= 1 -> 0 <= a * b * c * 1 <= 1.
Proof.
  intros [A0 A1] [B0 B1] [C0 C1].
  assert (AB0 : 0 <= a * b) by (apply Qmult_le_0_compat; assumption).
  assert (AB1 : 0 <= (1 - a) * b) by (apply Qmult_le_0_compat; lra).
  assert (ABC0 : 0 <= a * b * c) by (apply Qmult_le_0_compat; assumption).
  assert (ABC1 : 0 <= (1 - a * b) * c) by (apply Qmult_le_0_compat; lra).
  split; lra.
Qed.

(** X7: the impact score is the unrounded product moved by at most 0.0005. *)
Theorem impact_score_rounding_error (config : Config) (event : Event) :
  Qabs (FactorEngine.calculate_event_impact_score config event
        - FactorEngine.type_importance config event
          * FactorEngine.max_strength event
          * FactorEngine.avg_confidence event)
  <= 1 # 2000.
Proof.
  unfold FactorEngine.calculate_event_impact_score,
    FactorEngine.market_volatility_multiplier.
  set (p := FactorEngine.type_importance config event
            * FactorEngine.max_strength event * FactorEngine.avg_confidence event).
  pose proof (round3_near (p * 1)) as H.
  apply Qabs_Qle_condition in H. apply Qabs_Qle_condition. split; lra.
Qed.

(** X8: the impact score lies in [0, 1], as the docstring says, whenever the
    type importance and every tag's strength and confidence (0 where
    missing) lie in [0, 1]. *)
Theorem impact_score_in_unit_interval (config : Config) (event : Event) :
  0 <= FactorEngine.type_importance config event <= 1 ->
  (forall tag, In tag (Py.get (factor_tags event) []) ->
     0 <= Py.get (strength tag) 0 <= 1 /\ 0 <= Py.get (confidence tag) 0 <= 1) ->
  0 <= FactorEngine.calculate_event_impact_score config event <= 1.
Proof.
  intros Hi Ht.
  assert (Hs : 0 <= FactorEngine.max_strength event <= 1).
  { unfold FactorEngine.max_strength.
    destruct (Py.get (factor_tags event) []) as [|t ts] eqn:E;
      cbn [Py.truthy]; [split; lra|].
    assert (Hm : In (Py.max (map (fun tag => Py.get (strength tag) 0) (t :: ts)))
                    (map (fun tag => Py.get (strength tag) 0) (t :: ts)))
      by (apply max_attained; discriminate).
    rewrite in_map_iff in Hm. destruct Hm as [tag [<- Hin]].
    apply Ht. assumption. }
  assert (Hc : 0 <= FactorEngine.avg_confidence event <= 1).
  { unfold FactorEngine.avg_confidence.
    destruct (Py.get (factor_tags event) []) as [|t ts] eqn:E;
      cbn [Py.truthy]; [split; lra|].
    apply mean_unit; [discriminate|].
    rewrite Forall_forall. intros c Hin. rewrite in_map_iff in Hin.
    destruct Hin as [tag [<- Hin]]. apply Ht. assumption. }
  unfold FactorEngine.calculate_event_impact_score,
    FactorEngine.market_volatility_multiplier.
  pose proof (product_unit _ _ _ Hi Hs Hc) as [P0 P1].
  apply round3_unit; assumption.
Qed.

Lemma impact_score_in_unit_interval_witness :
  0 <= FactorEngine.calculate_event_impact_score Sample.config Sample.single_tag_event
  <= 1.
Proof.
  apply impact_score_in_unit_interval.
  - vm_compute. split; discriminate.
  - intros tag [<- | []]. vm_compute. repeat split; discriminate.
Defined.

(** ** Layout and failure of the densifier *)

Lemma grid_length (factors : list string) (range : list Z) :
  List.length (flat_map (fun f => map (fun d => (d, f)) range) factors)
  = (List.length factors * List.length range)%nat.
Proof.
  induction factors as [|f fs IH]; simpl; [reflexivity|].
  rewrite length_app, length_map, IH. reflexivity.
Qed.

Lemma densify_rows (daily : list FactorDayRecord) (start_date end_date : Z) :
  NoDup (map Reference.row_key daily) ->
  FactorEngine.create_factor_timeseries daily start_date end_date
  = Some (flat_map
            (fun f =>
               map (FactorEngine.reindex_row
                      (filter (fun r => String.eqb (factor_code r) f) daily) f)
                   (Pandas.date_range start_date end_date))
            (Pandas.unique (map factor_code daily))).
Proof.
  intros Hnd. unfold FactorEngine.create_factor_timeseries.
  destruct (Py.truthy daily) eqn:Ht.
  - apply concat_series_some. intros f _. unfold FactorEngine.factor_series.
    rewrite has_duplicates_false; [reflexivity | apply nodup_factor_dates; assumption].
  - destruct daily; [reflexivity | discriminate].
Qed.

(** X10: the dense series is laid out factor after factor, in the order the
    factors first appear in the daily table, each factor running through
    the days of [start_date, end_date] in ascending order; it has one row
    per factor and day. *)
Theorem densify_layout (daily : list FactorDayRecord) (start_date end_date : Z) :
  NoDup (map Reference.row_key daily) ->
  exists rows,
    FactorEngine.create_factor_timeseries daily start_date end_date = Some rows
    /\ map Reference.row_key rows
       = flat_map (fun f => map (fun d => (d, f))
                                (Pandas.date_range start_date end_date))
                  (Pandas.unique (map factor_code daily))
    /\ List.length rows
       = (List.length (Pandas.unique (map factor_code daily))
          * Z.to_nat (end_date - start_date + 1))%nat.
Proof.
  intros Hnd. eexists. split; [apply densify_rows; assumption|].
  split; [apply grid_keys|].
  rewrite <- (length_map Reference.row_key), grid_keys, grid_length.
  unfold Pandas.date_range. rewrite length_map, length_seq. reflexivity.
Qed.

Lemma densify_layout_witness :
  exists rows,
    FactorEngine.create_factor_timeseries [Sample.same_factor_twice_row] 19722 19724
    = Some rows
    /\ map Reference.row_key rows
       = [ (19722%Z, "A1_REAL_YIELD"%string);
           (19723%Z, "A1_REAL_YIELD"%string);
           (19724%Z, "A1_REAL_YIELD"%string) ]
    /\ List.length rows = 3%nat.
Proof.
  apply (densify_layout [Sample.same_factor_twice_row] 19722 19724).
  simpl. constructor; [simpl; tauto | constructor].
Defined.

Lemma concat_series_none (l : list (option (list FactorDayRecord))) :
  In None l -> FactorEngine.concat_series l = None.
Proof.
  induction l as [|[s|] l IH]; simpl; [contradiction | | reflexivity].
  intros [H | H]; [discriminate|]. rewrite IH; [reflexivity | assumption].
Qed.

Lemma has_duplicates_repeat (l1 l2 l3 : list Z) (x : Z) :
  FactorEngine.has_duplicates (l1 ++ x :: l2 ++ x :: l3) = true.
Proof.
  induction l1 as [|y l1 IH]; simpl.
  - apply orb_true_iff. left. apply existsb_exists. exists x.
    split; [apply in_or_app; right; left; reflexivity | apply Z.eqb_refl].
  - rewrite IH. apply orb_true_r.
Qed.

(** X11: two rows for the same date and factor make densification fail,
    whatever the date range. *)
Theorem densify_rejects_duplicate_keys (l1 l2 l3 : list FactorDayRecord)
    (r1 r2 : FactorDayRecord) (start_date end_date : Z) :
  Reference.row_key r1 = Reference.row_key r2 ->
  FactorEngine.create_factor_timeseries (l1 ++ r1 :: l2 ++ r2 :: l3)
    start_date end_date
  = None.
Proof.
  intros Ek. unfold FactorEngine.create_factor_timeseries.
  assert (Ht : Py.truthy (l1 ++ r1 :: l2 ++ r2 :: l3) = true)
    by (destruct l1; reflexivity).
  rewrite Ht. apply concat_series_none. rewrite in_map_iff.
  exists (factor_code r1). split.
  - unfold FactorEngine.factor_series.
    inversion Ek as [[Ed Ef]].
    rewrite filter_app. simpl. rewrite String.eqb_refl.
    rewrite filter_app. simpl. rewrite <- Ef, String.eqb_refl.
    rewrite map_app. simpl. rewrite map_app. simpl. rewrite <- Ed.
    rewrite has_duplicates_repeat. reflexivity.
  - apply in_unique. rewrite map_app. apply in_or_app. right. left. reflexivity.
Qed.

Lemma densify_rejects_duplicate_keys_witness :
  FactorEngine.create_factor_timeseries
    ([] ++ Sample.same_factor_twice_row :: [] ++ Sample.same_factor_twice_row :: [])
    19722 19724
  = None.
Proof.
  apply densify_rejects_duplicate_keys. reflexivity.
Defined.

(** ** The analysis step as a whole *)

Lemma fold_min_le (l : list Z) (d : Z) : (fold_left Z.min l d <= d)%Z.
Proof.
  revert d. induction l as [|x l IH]; intros d; simpl; [lia|].
  specialize (IH (Z.min d x)). lia.
Qed.

Lemma fold_max_ge (l : list Z) (d : Z) : (d <= fold_left Z.max l d)%Z.
Proof.
  revert d. induction l as [|x l IH]; intros d; simpl; [lia|].
  specialize (IH (Z.max d x)). lia.
Qed.

Lemma fold_min_in (l : list Z) (d : Z) : In (fold_left Z.min l d) (d :: l).
Proof.
  revert d. induction l as [|x l IH]; intros d; simpl; [left; reflexivity|].
  specialize (IH (Z.min d x)). simpl in IH.
  destruct IH as [E | H]; [|right; right; assumption].
  rewrite <- E. destruct (Z.min_spec d x) as [[_ ->] | [_ ->]]; auto.
Qed.

(** X12: whatever the events, the analysis step produces a curve as soon as
    there is a price: the aggregated table never holds two rows for one
    (date, factor) pair, so densification cannot fail on it. *)
Theorem factor_analysis_succeeds (config : Config) (to_date : string -> option Z)
    (events : list Event) (aligned_prices : list (Z * Q)) :
  aligned_prices <> [] ->
  exists curve,
    GoldAnalyzer.factor_analysis config to_date events aligned_prices = Some curve.
Proof.
  intros Hp. unfold GoldAnalyzer.factor_analysis.
  destruct aligned_prices as [|[d p] ps]; [congruence|]. cbn [map]. cbv zeta.
  rewrite densify_rows by apply aggregate_keys_nodup.
  unfold FactorEngine.calculate_factor_influence_curve.
  destruct (Py.truthy _); eexists; reflexivity.
Qed.

Lemma factor_analysis_succeeds_witness :
  exists curve,
    GoldAnalyzer.factor_analysis Sample.config Sample.to_date
      [Sample.same_factor_twice; Sample.bad_timestamp_event] Sample.late_prices
    = Some curve.
Proof.
  apply factor_analysis_succeeds. discriminate.
Defined.

(** ** Price columns of the aligned frame *)

Lemma ffill_from_some_all (p : Q) (col : list (option Q)) :
  Forall (fun o => o <> None) (Pandas.ffill_from (Some p) col).
Proof.
  revert p. induction col as [|[q|] col IH]; intros p; simpl; constructor;
    try discriminate; apply IH.
Qed.

Lemma ffill_from_no_gap (last : option Q) (col l1 l2 : list (option Q))
    (x : option Q) :
  Pandas.ffill_from last col = l1 ++ x :: l2 -> x <> None ->
  Forall (fun o => o <> None) l2.
Proof.
  revert last col. induction l1 as [|y l1 IH]; intros last col E Hx.
  - destruct col as [|[q|] col]; simpl in E; try discriminate.
    + injection E as _ <-. apply ffill_from_some_all.
    + injection E as -> <-. destruct x as [q|]; [|congruence].
      apply ffill_from_some_all.
  - destruct col as [|[q|] col]; simpl in E; try discriminate;
      injection E as _ E; eapply IH; eassumption.
Qed.

Lemma align_with_price_nonempty (factor_ts : list FactorDayRecord)
    (price_data : list (Z * Q)) :
  FactorEngine.align_with_price factor_ts price_data <> [] ->
  factor_ts <> [] /\ price_data <> [].
Proof.
  unfold FactorEngine.align_with_price.
  destruct factor_ts, price_data; simpl; intros H; try congruence;
    split; discriminate.
Qed.

(** X14: forward fill leaves no gap: once a row of the aligned frame has a
    price, every row below it has one. *)
Theorem aligned_prices_have_no_gap (factor_ts : list FactorDayRecord)
    (price_data : list (Z * Q)) (above below : list AlignedRecord)
    (a : AlignedRecord) :
  FactorEngine.align_with_price factor_ts price_data = above ++ a :: below ->
  gold_price a <> None ->
  Forall (fun b => gold_price b <> None) below.
Proof.
  intros E Ha.
  destruct (align_with_price_nonempty factor_ts price_data) as [Ht Hp].
  { rewrite E. destruct above; discriminate. }
  destruct (align_with_price_columns factor_ts price_data Ht Hp) as [_ Hg].
  rewrite E, map_app in Hg. simpl in Hg. symmetry in Hg.
  apply ffill_from_no_gap in Hg; [|assumption].
  rewrite Forall_map in Hg. exact Hg.
Qed.

Lemma aligned_prices_have_no_gap_witness :
  Forall (fun b => gold_price b <> None)
    [ mkAligned 19723 "B1_GEOPOLITICS" (1 # 10) (1 # 10) 1 (Some 2000) None;
      mkAligned 19724 "B1_GEOPOLITICS" 0 0 0 (Some 2000) (Some (Finite (0 # 2000))) ].
Proof.
  apply (aligned_prices_have_no_gap Sample.two_factor_series Sample.late_prices
           [mkAligned 19723 "A1_REAL_YIELD" 0 0 0 None None]
           _ (mkAligned 19724 "A1_REAL_YIELD" (3 # 10) (3 # 10) 1 (Some 2000) None)).
  - vm_compute. reflexivity.
  - discriminate.
Defined.

Lemma pct_change_app (seen r1 r2 : list (string * option Q)) :
  FactorEngine.pct_change_by_factor seen (r1 ++ r2)
  = (FactorEngine.pct_change_by_factor seen r1
     ++ FactorEngine.pct_change_by_factor (rev r1 ++ seen) r2)%list.
Proof.
  revert seen. induction r1 as [|[f p] r1 IH]; intros seen; simpl; [reflexivity|].
  rewrite IH, <- app_assoc. reflexivity.
Qed.

Lemma last_in_group_absent (f : string) (l seen : list (string * option Q)) :
  (forall x, In x l -> fst x <> f) ->
  FactorEngine.last_in_group f (l ++ seen) = FactorEngine.last_in_group f seen.
Proof.
  induction l as [|[g p] l IH]; intros H; simpl; [reflexivity|].
  destruct (String.eqb_spec g f) as [E | _].
  - exfalso. apply (H (g, p)); [left; reflexivity | assumption].
  - apply IH. intros x Hx. apply H. right. assumption.
Qed.

(** The change column, read off the output rows themselves. *)
Lemma align_change_column (factor_ts : list FactorDayRecord)
    (price_data : list (Z * Q)) :
  map price_change_pct (FactorEngine.align_with_price factor_ts price_data)
  = FactorEngine.pct_change_by_factor []
      (map (fun a => (a_factor_code a, gold_price a))
           (FactorEngine.align_with_price factor_ts price_data)).
Proof.
  unfold FactorEngine.align_with_price.
  destruct factor_ts as [|r rs]; [reflexivity|].
  destruct price_data as [|p ps]; [reflexivity|].
  cbn [Py.truthy negb orb].
  set (aligned := FactorEngine.merge_left (r :: rs) (p :: ps)).
  set (filled := Pandas.ffill (map snd aligned)).
  set (keyed := combine (map (fun x => factor_code (fst x)) aligned) filled).
  set (change := FactorEngine.pct_change_by_factor [] keyed).
  assert (Lf : List.length filled = List.length aligned).
  { unfold filled, Pandas.ffill. rewrite ffill_from_length, length_map. reflexivity. }
  assert (Lc : List.length change = List.length aligned).
  { unfold change, keyed. rewrite pct_change_length, length_combine, !length_map, Lf.
    apply Nat.min_id. }
  assert (Lfc : List.length (combine filled change) = List.length aligned).
  { rewrite length_combine, Lf, Lc. apply Nat.min_id. }
  assert (Ek : map (fun a => (a_factor_code a, gold_price a))
                   (map FactorEngine.aligned_row
                        (combine (map fst aligned) (combine filled change)))
               = keyed).
  { unfold keyed. clearbody filled change. clear -Lf Lc.
    revert filled change Lf Lc.
    induction aligned as [|x xs IH]; intros [|o os] [|c cs] Lf Lc;
      simpl in *; try discriminate; [reflexivity|].
    f_equal. apply IH; lia. }
  rewrite Ek. rewrite map_map.
  rewrite (map_ext _ (fun x => snd (snd x))) by (intros x; reflexivity).
  rewrite <- (map_map snd snd).
  rewrite map_snd_combine by (rewrite length_map, Lfc; reflexivity).
  apply map_snd_combine. rewrite Lf. symmetry. exact Lc.
Qed.

Lemma pct_change_cases (prev cur : Q) :
  (~ prev == 0 ->
   FactorEngine.pct_change prev cur = Some (Finite ((cur / prev - 1) * 100)))
  /\ (prev == 0 -> 0 < cur ->
      FactorEngine.pct_change prev cur = Some (Infinity false))
  /\ (prev == 0 -> cur < 0 ->
      FactorEngine.pct_change prev cur = Some (Infinity true))
  /\ (prev == 0 -> cur == 0 -> FactorEngine.pct_change prev cur = None).
Proof.
  unfold FactorEngine.pct_change.
  destruct (Qeq_bool prev 0) eqn:Ep.
  - apply Qeq_bool_iff in Ep. split; [intros H; contradiction|].
    destruct (Qeq_bool cur 0) eqn:Ec.
    + apply Qeq_bool_iff in Ec.
      repeat split; intros _ H; try reflexivity; rewrite Ec in H;
        exfalso; apply (Qlt_irrefl 0); assumption.
    + apply Qeq_bool_neq in Ec.
      repeat split; intros _ H; try contradiction.
      * assert (L : Qle_bool 0 cur = true)
          by (apply Qle_bool_iff; apply Qlt_le_weak; assumption).
        rewrite L. reflexivity.
      * destruct (Qle_bool 0 cur) eqn:L; [|reflexivity].
        apply Qle_bool_iff in L. exfalso.
        apply (Qlt_irrefl cur). apply (Qlt_le_trans _ 0); assumption.
  - apply Qeq_bool_neq in Ep.
    split; [reflexivity|]. repeat split; intros H; contradiction.
Qed.

(** X15: the first row of every factor has no price change; any other row
    is compared with the nearest row above it of the same factor: no change
    when either price is missing; the percent change of its price against
    that row's when that price is not zero; against a zero price, plus or
    minus infinity by the sign of its own price, and no change when both
    are zero. *)
Theorem price_change_within_factor (factor_ts : list FactorDayRecord)
    (price_data : list (Z * Q)) :
  (forall (above below : list AlignedRecord) (a : AlignedRecord),
      FactorEngine.align_with_price factor_ts price_data = above ++ a :: below ->
      (forall b, In b above -> a_factor_code b <> a_factor_code a) ->
      price_change_pct a = None)
  /\ (forall (above between below : list AlignedRecord) (b a : AlignedRecord),
        FactorEngine.align_with_price factor_ts price_data
        = above ++ b :: between ++ a :: below ->
        a_factor_code b = a_factor_code a ->
        (forall c, In c between -> a_factor_code c <> a_factor_code a) ->
        match gold_price b, gold_price a with
        | Some prev, Some cur =>
            (~ prev == 0 ->
             price_change_pct a = Some (Finite ((cur / prev - 1) * 100)))
            /\ (prev == 0 -> 0 < cur ->
                price_change_pct a = Some (Infinity false))
            /\ (prev == 0 -> cur < 0 ->
                price_change_pct a = Some (Infinity true))
            /\ (prev == 0 -> cur == 0 -> price_change_pct a = None)
        | _, _ => price_change_pct a = None
        end).
Proof.
  pose proof (align_change_column factor_ts price_data) as Hc.
  split.
  - intros above below a E Hab. rewrite E in Hc.
    rewrite !map_app in Hc. simpl in Hc.
    rewrite pct_change_app in Hc. simpl in Hc.
    apply app_tail_eq in Hc;
      [|rewrite pct_change_length, !length_map; reflexivity].
    injection Hc as Hc _. rewrite Hc.
    rewrite last_in_group_absent; [reflexivity|].
    intros x Hx. rewrite <- in_rev, in_map_iff in Hx.
    destruct Hx as [b [<- Hb]]. simpl. apply Hab. assumption.
  - intros above between below b a E Ef Hbt. rewrite E in Hc.
    replace (above ++ b :: between ++ a :: below)%list
      with ((above ++ b :: between) ++ a :: below)%list in Hc
      by (rewrite <- app_assoc; reflexivity).
    rewrite (map_app price_change_pct) in Hc.
    rewrite (map_app (fun a0 => (a_factor_code a0, gold_price a0))) in Hc.
    simpl in Hc. rewrite pct_change_app in Hc. simpl in Hc.
    apply app_tail_eq in Hc;
      [|rewrite pct_change_length, !length_map; reflexivity].
    injection Hc as Hc _.
    rewrite app_nil_r, map_app, rev_app_distr in Hc. simpl in Hc.
    rewrite <- app_assoc in Hc. simpl in Hc.
    rewrite last_in_group_absent in Hc.
    + simpl in Hc. rewrite Ef, String.eqb_refl in Hc.
      destruct (gold_price b) as [prev|], (gold_price a) as [cur|];
        try exact Hc.
      rewrite Hc. apply pct_change_cases.
    + intros x Hx. rewrite <- in_rev, in_map_iff in Hx.
      destruct Hx as [c [<- Hc']]. simpl. apply Hbt. assumption.
Qed.

Lemma price_change_within_factor_witness :
  price_change_pct
    (mkAligned 19723 "B1_GEOPOLITICS" (1 # 10) (1 # 10) 1 (Some 2000) None)
  = None
  /\ price_change_pct
       (mkAligned 19724 "B1_GEOPOLITICS" 0 0 0 (Some 2000) (Some (Finite (0 # 2000))))
     = Some (Finite ((2000 / 2000 - 1) * 100)).
Proof.
  destruct (price_change_within_factor Sample.two_factor_series Sample.late_prices)
    as [Hfirst Hnext].
  split.
  - apply (Hfirst
             [ mkAligned 19723 "A1_REAL_YIELD" 0 0 0 None None;
               mkAligned 19724 "A1_REAL_YIELD" (3 # 10) (3 # 10) 1 (Some 2000) None ]
             [ mkAligned 19724 "B1_GEOPOLITICS" 0 0 0 (Some 2000) (Some (Finite (0 # 2000))) ]).
    + vm_compute. reflexivity.
    + intros b [<- | [<- | []]]; discriminate.
  - apply (Hnext
             [ mkAligned 19723 "A1_REAL_YIELD" 0 0 0 None None;
               mkAligned 19724 "A1_REAL_YIELD" (3 # 10) (3 # 10) 1 (Some 2000) None ]
             [] []
             (mkAligned 19723 "B1_GEOPOLITICS" (1 # 10) (1 # 10) 1 (Some 2000) None)
             (mkAligned 19724 "B1_GEOPOLITICS" 0 0 0 (Some 2000) (Some (Finite (0 # 2000))))).
    + vm_compute. reflexivity.
    + reflexivity.
    + intros c [].
    + discriminate.
Defined.

(** ** Prices along the analysis step *)

Lemma price_on_in (price_data : list (Z * Q)) (d : Z) :
  In d (map fst price_data) -> exists p, Reference.price_on price_data d = Some p.
Proof.
  unfold Reference.price_on. intros H.
  destruct (find (fun p => (fst p =? d)%Z) price_data) as [[d' p]|] eqn:E.
  - exists p. reflexivity.
  - exfalso. rewrite in_map_iff in H. destruct H as [x [Ex Hx]].
    pose proof (find_none _ _ E x Hx) as Hn. simpl in Hn.
    rewrite Ex, Z.eqb_refl in Hn. discriminate.
Qed.

(** Blocks that each start with a price are filled independently. *)
Lemma ffill_from_blocks (blocks : list (list (option Q))) (last : option Q) :
  (forall b, In b blocks -> exists p rest, b = Some p :: rest) ->
  Pandas.ffill_from last (List.concat blocks)
  = List.concat (map Pandas.ffill blocks).
Proof.
  revert last. induction blocks as [|b bs IH]; intros last H; simpl; [reflexivity|].
  destruct (ffill_from_app_state last b (List.concat bs)) as [last' E].
  rewrite E, IH by (intros b' Hb'; apply H; right; assumption).
  f_equal. destruct (H b (or_introl eq_refl)) as [p [rest ->]]. reflexivity.
Qed.

(** Along consecutive days, forward fill carries the latest quote. *)
Lemma ffill_from_latest (price_data : list (Z * Q)) (start : Z) (n k : nat) (q : Q) :
  Quotes.latest_quote price_data (start + Z.of_nat k - 1) q ->
  Forall2 (fun d o => exists p, o = Some p /\ Quotes.latest_quote price_data d p)
          (map (fun i => (start + Z.of_nat i)%Z) (seq k n))
          (Pandas.ffill_from (Some q)
             (map (Reference.price_on price_data)
                  (map (fun i => (start + Z.of_nat i)%Z) (seq k n)))).
Proof.
  revert k q. induction n as [|n IH]; intros k q Hq; simpl; [constructor|].
  destruct (Reference.price_on price_data (start + Z.of_nat k)) as [p|] eqn:E.
  - constructor.
    + exists p. split; [reflexivity|].
      exists (start + Z.of_nat k)%Z. split; [lia|]. split; [assumption|]. lia.
    + apply IH. exists (start + Z.of_nat k)%Z.
      split; [lia|]. split; [assumption|]. lia.
  - assert (Hq' : Quotes.latest_quote price_data (start + Z.of_nat k) q).
    { destruct Hq as [d' [Hle [Hp Hnone]]]. exists d'.
      split; [lia|]. split; [assumption|].
      intros d'' Hd''. destruct (Z.eq_dec d'' (start + Z.of_nat k)) as [-> | Hne];
        [assumption | apply Hnone; lia]. }
    constructor.
    + exists q. split; [reflexivity | assumption].
    + apply IH. replace (start + Z.of_nat (S k) - 1)%Z with (start + Z.of_nat k)%Z by lia.
      assumption.
Qed.

Lemma ffill_range_latest (price_data : list (Z * Q)) (start_date end_date : Z) :
  In start_date (map fst price_data) -> (start_date <= end_date)%Z ->
  (exists p rest,
     map (Reference.price_on price_data) (Pandas.date_range start_date end_date)
     = Some p :: rest)
  /\ Forall2 (fun d o => exists p, o = Some p /\ Quotes.latest_quote price_data d p)
             (Pandas.date_range start_date end_date)
             (Pandas.ffill
                (map (Reference.price_on price_data)
                     (Pandas.date_range start_date end_date))).
Proof.
  intros Hin Hle. unfold Pandas.date_range.
  destruct (Z.to_nat (end_date - start_date + 1)) as [|n] eqn:En; [lia|].
  cbn [seq map]. replace (start_date + Z.of_nat 0)%Z with start_date by lia.
  destruct (price_on_in _ _ Hin) as [p0 Hp0]. rewrite Hp0. split.
  - eexists. eexists. reflexivity.
  - unfold Pandas.ffill. cbn [Pandas.ffill_from].
    assert (H0 : Quotes.latest_quote price_data start_date p0).
    { exists start_date. split; [lia|]. split; [assumption|]. lia. }
    constructor.
    + exists p0. split; [reflexivity | assumption].
    + apply ffill_from_latest.
      replace (start_date + Z.of_nat 1 - 1)%Z with start_date by lia. assumption.
Qed.

Lemma Forall2_concat_const {A B C : Type} (R : A -> B -> Prop)
    (l1 : list A) (l2 : list B) (cs : list C) :
  Forall2 R l1 l2 ->
  Forall2 R (List.concat (map (fun _ => l1) cs)) (List.concat (map (fun _ => l2) cs)).
Proof.
  intros H. induction cs as [|c cs IH]; simpl; [constructor|].
  apply Forall2_app; assumption.
Qed.

Lemma Forall2_in_combine {A B : Type} (R : A -> B -> Prop)
    (l1 : list A) (l2 : list B) (x : A) (y : B) :
  Forall2 R l1 l2 -> In (x, y) (combine l1 l2) -> R x y.
Proof.
  induction 1 as [|a b l1 l2 Hab Hl IH]; simpl; [contradiction|].
  intros [E | H]; [inversion E; subst; assumption | apply IH; assumption].
Qed.

(** The date and price columns of the aligned frame, as a list of pairs. *)
Lemma align_date_price_pairs (factor_ts : list FactorDayRecord)
    (price_data : list (Z * Q)) :
  factor_ts <> [] -> price_data <> [] -> NoDup (map fst price_data) ->
  map (fun a => (a_date a, gold_price a))
      (FactorEngine.align_with_price factor_ts price_data)
  = combine (map date factor_ts)
            (Pandas.ffill
               (map (Reference.price_on price_data) (map date factor_ts))).
Proof.
  intros Ht Hp Hnd.
  destruct (align_with_price_columns factor_ts price_data Ht Hp) as [Hr Hg].
  rewrite merge_left_unique in Hr, Hg by assumption.
  rewrite map_map in Hr, Hg. simpl in Hr, Hg. rewrite map_id in Hr.
  rewrite (map_map date (Reference.price_on price_data)), <- Hg.
  set (out := FactorEngine.align_with_price factor_ts price_data) in *.
  clearbody out. rewrite <- Hr. clear.
  induction out as [|a l IH]; simpl; [reflexivity | rewrite IH; reflexivity].
Qed.

Lemma densified_dates (daily : list FactorDayRecord) (factors : list string)
    (range : list Z) :
  map date
      (flat_map (fun f =>
                   map (FactorEngine.reindex_row
                          (filter (fun r => String.eqb (factor_code r) f) daily) f)
                       range) factors)
  = List.concat (map (fun _ => range) factors).
Proof.
  induction factors as [|f fs IH]; simpl; [reflexivity|].
  rewrite map_app, IH, map_map. f_equal.
  rewrite <- (map_id range) at 2. apply map_ext. intros d.
  unfold FactorEngine.reindex_row. destruct (find _ _); reflexivity.
Qed.

(** Every row of a curve stems from an aligned row of the same date,
    factor and price. *)
Lemma curve_row_origin (aligned : list AlignedRecord) (window_days : nat)
    (curve : list InfluenceRecord) (r : InfluenceRecord) :
  FactorEngine.calculate_factor_influence_curve aligned window_days = Some curve ->
  In r curve ->
  exists a, In a aligned
            /\ i_date r = a_date a
            /\ i_factor_code r = a_factor_code a
            /\ i_score r = a_score a
            /\ i_gold_price r = gold_price a.
Proof.
  unfold FactorEngine.calculate_factor_influence_curve.
  destruct (Py.truthy aligned); [|intros H; injection H as <-; contradiction].
  destruct (Nat.eqb window_days 0); [discriminate|].
  intros H. injection H as <-. rewrite in_map_iff.
  intros [[a q] [<- Hx]]. exists a. simpl. repeat split.
  rewrite in_flat_map in Hx. destruct Hx as [f [_ Hx]].
  unfold FactorEngine.factor_rolling in Hx. apply in_combine_l in Hx.
  apply in_sort_values_date in Hx. rewrite filter_In in Hx. tauto.
Qed.

(** X13: in the analysis step, with one price per date, every row of the curve
    carries a price, and it is the latest quote on or before the row's
    date: the series starts on the first price date, so forward fill never
    reaches across two factors. *)
Theorem analysis_prices_are_latest_quotes (config : Config)
    (to_date : string -> option Z) (events : list Event)
    (aligned_prices : list (Z * Q)) (curve : list InfluenceRecord)
    (r : InfluenceRecord) :
  NoDup (map fst aligned_prices) ->
  GoldAnalyzer.factor_analysis config to_date events aligned_prices = Some curve ->
  In r curve ->
  exists p, i_gold_price r = Some p
            /\ Quotes.latest_quote aligned_prices (i_date r) p.
Proof.
  intros Hnd. unfold GoldAnalyzer.factor_analysis.
  destruct aligned_prices as [|[d0 p0] ps] eqn:Eprices; [discriminate|].
  rewrite <- Eprices in *. assert (Hp : aligned_prices <> []) by (subst; discriminate).
  replace (map fst aligned_prices) with (d0 :: map fst ps) by (subst; reflexivity).
  cbv zeta. rewrite densify_rows by apply aggregate_keys_nodup.
  set (daily := FactorEngine.aggregate_factor_scores_by_day config to_date events).
  set (start_date := GoldAnalyzer.min_date d0 (map fst ps)).
  set (end_date := GoldAnalyzer.max_date d0 (map fst ps)).
  set (ts := flat_map _ _).
  intros Hc Hr.
  destruct (curve_row_origin _ _ _ _ Hc Hr) as [a [Ha [Ed [_ [_ Eg]]]]].
  rewrite Ed, Eg.
  assert (Hts : ts <> []).
  { intros E. rewrite E in Ha. destruct aligned_prices; contradiction. }
  assert (Hstart : In start_date (map fst aligned_prices)).
  { subst aligned_prices. apply fold_min_in. }
  assert (Hle : (start_date <= end_date)%Z).
  { pose proof (fold_min_le (map fst ps) d0). pose proof (fold_max_ge (map fst ps) d0).
    unfold start_date, end_date, GoldAnalyzer.min_date, GoldAnalyzer.max_date. lia. }
  destruct (ffill_range_latest aligned_prices start_date end_date Hstart Hle)
    as [Hhead Hblock].
  pose proof (align_date_price_pairs ts aligned_prices Hts Hp Hnd) as Hpairs.
  unfold ts in Hpairs at 2 3. rewrite densified_dates in Hpairs.
  rewrite List.concat_map, map_map in Hpairs.
  unfold Pandas.ffill in Hpairs at 1. rewrite ffill_from_blocks in Hpairs.
  2:{ intros b Hb. rewrite in_map_iff in Hb. destruct Hb as [f [<- _]]. exact Hhead. }
  rewrite map_map in Hpairs.
  apply (in_map (fun a => (a_date a, gold_price a))) in Ha.
  rewrite Hpairs in Ha.
  apply (Forall2_in_combine
           (fun d o => exists p, o = Some p /\ Quotes.latest_quote aligned_prices d p)
           _ _ _ _ (Forall2_concat_const _ _ _ _ Hblock) Ha).
Qed.

Lemma analysis_prices_are_latest_quotes_witness :
  exists p,
    i_gold_price
      (mkInfluence 19723 "A1_REAL_YIELD" (100000000000 # 110000000000)
                   (1 # 100000) (1 # 100000) (Some 2000))
    = Some p
    /\ Quotes.latest_quote Sample.one_day_prices 19723 p.
Proof.
  apply (analysis_prices_are_latest_quotes Sample.config Sample.to_date
           [Sample.faint_event] Sample.one_day_prices
           [mkInfluence 19723 "A1_REAL_YIELD" (100000000000 # 110000000000)
                        (1 # 100000) (1 # 100000) (Some 2000)]).
  - simpl. constructor; [simpl; tauto | constructor].
  - vm_compute. reflexivity.
  - left. reflexivity.
Defined.

(** ** Shape and range of the influence curve *)

Lemma qsum_ge_member (l : list Q) (y : Q) :
  Forall (fun x => 0 <= x) l -> In y l -> y <= Py.qsum l.
Proof.
  induction 1 as [|x l Hx Hl IH]; simpl; [contradiction|].
  pose proof (qsum_nonneg l Hl) as Hs. intros [-> | Hy]; [lra|].
  specialize (IH Hy). lra.
Qed.

Lemma rolling_sum_length (window : nat) (col : list Q) :
  List.length (Pandas.rolling_sum window col) = List.length col.
Proof. unfold Pandas.rolling_sum. rewrite length_map, length_seq. reflexivity. Qed.

Lemma factor_rolling_rows (aligned : list AlignedRecord) (window_days : nat)
    (f : string) :
  map fst (FactorEngine.factor_rolling aligned window_days f)
  = FactorEngine.sort_values_date
      (filter (fun r => String.eqb (a_factor_code r) f) aligned).
Proof.
  unfold FactorEngine.factor_rolling. apply map_fst_combine.
  rewrite rolling_sum_length, length_map. reflexivity.
Qed.

Lemma insert_by_date_perm (r : AlignedRecord) (l : list AlignedRecord) :
  Permutation (FactorEngine.insert_by_date r l) (r :: l).
Proof.
  induction l as [|a l IH]; simpl; [reflexivity|].
  destruct (a_date r <=? a_date a)%Z; [reflexivity|].
  rewrite IH. apply perm_swap.
Qed.

Lemma sort_values_date_perm (l : list AlignedRecord) :
  Permutation (FactorEngine.sort_values_date l) l.
Proof.
  unfold FactorEngine.sort_values_date.
  induction l as [|a l IH]; simpl; [reflexivity|].
  rewrite insert_by_date_perm. constructor. assumption.
Qed.

Lemma filter_split_perm {A : Type} (p q : A -> bool) (l : list A) :
  (forall x, In x l -> p x = true -> q x = false) ->
  Permutation (filter p l ++ filter q l) (filter (fun x => p x || q x) l).
Proof.
  induction l as [|a l IH]; intros H; simpl; [reflexivity|].
  assert (IH' := IH (fun x Hx => H x (or_intror Hx))).
  destruct (p a) eqn:Ep; simpl.
  - rewrite (H a (or_introl eq_refl) Ep). constructor. assumption.
  - destruct (q a); [|assumption].
    rewrite <- IH'. symmetry. apply Permutation_middle.
Qed.

Lemma filter_all {A : Type} (p : A -> bool) (l : list A) :
  (forall x, In x l -> p x = true) -> filter p l = l.
Proof.
  induction l as [|a l IH]; intros H; simpl; [reflexivity|].
  rewrite (H a (or_introl eq_refl)), IH; [reflexivity|].
  intros x Hx. apply H. right. assumption.
Qed.

(** Splitting a frame by the distinct values of a column and gluing the
    parts together loses and repeats nothing. *)
Lemma group_partition_perm {A : Type} (code : A -> string) (l : list A)
    (fs : list string) :
  NoDup fs ->
  Permutation
    (flat_map (fun f => filter (fun r => String.eqb (code r) f) l) fs)
    (filter (fun r => existsb (String.eqb (code r)) fs) l).
Proof.
  induction 1 as [|f fs Hf Hfs IH]; simpl.
  - induction l; simpl; [reflexivity | assumption].
  - rewrite IH. apply filter_split_perm.
    intros x _ E. apply String.eqb_eq in E.
    destruct (existsb (String.eqb (code x)) fs) eqn:Ex; [|reflexivity].
    rewrite existsb_exists in Ex. destruct Ex as [g [Hg Eg]].
    apply String.eqb_eq in Eg. exfalso. apply Hf. congruence.
Qed.

Lemma combined_rows_perm (aligned : list AlignedRecord) (window_days : nat) :
  Permutation
    (map fst (flat_map (FactorEngine.factor_rolling aligned window_days)
                       (Pandas.unique (map a_factor_code aligned))))
    aligned.
Proof.
  set (fs := Pandas.unique (map a_factor_code aligned)).
  assert (E : map fst (flat_map (FactorEngine.factor_rolling aligned window_days) fs)
              = flat_map (fun f => FactorEngine.sort_values_date
                                     (filter (fun r => String.eqb (a_factor_code r) f)
                                             aligned)) fs).
  { induction fs as [|f fs' IH]; simpl; [reflexivity|].
    rewrite map_app, factor_rolling_rows, IH. reflexivity. }
  rewrite E. clear E.
  transitivity (flat_map (fun f => filter (fun r => String.eqb (a_factor_code r) f)
                                          aligned) fs).
  - induction fs as [|f fs' IH]; simpl; [reflexivity|].
    apply Permutation_app; [apply sort_values_date_perm | assumption].
  - rewrite (group_partition_perm a_factor_code aligned fs) by apply nodup_unique.
    rewrite filter_all; [reflexivity|].
    intros a Ha. apply existsb_exists. exists (a_factor_code a).
    split; [|apply String.eqb_refl].
    apply in_unique. apply in_map. assumption.
Qed.

(** X16: the curve holds the aligned rows, each exactly once, with their date,
    factor, score and price unchanged. *)
Theorem curve_keeps_every_row (aligned : list AlignedRecord)
    (window_days : nat) (curve : list InfluenceRecord) :
  FactorEngine.calculate_factor_influence_curve aligned window_days = Some curve ->
  Permutation
    (map (fun r => (i_date r, i_factor_code r, i_score r, i_gold_price r)) curve)
    (map (fun a => (a_date a, a_factor_code a, a_score a, gold_price a)) aligned).
Proof.
  unfold FactorEngine.calculate_factor_influence_curve.
  destruct (Py.truthy aligned) eqn:Ht.
  - destruct (Nat.eqb window_days 0); [discriminate|].
    intros H. injection H as <-. rewrite map_map. simpl.
    rewrite <- (map_map fst
                  (fun a => (a_date a, a_factor_code a, a_score a, gold_price a))).
    apply Permutation_map. apply combined_rows_perm.
  - intros H. injection H as <-. destruct aligned; [reflexivity | discriminate].
Qed.

Lemma curve_keeps_every_row_witness :
  Permutation
    (map (fun r => (i_date r, i_factor_code r, i_score r, i_gold_price r))
         [mkInfluence 19723 "A1_REAL_YIELD" (1000000000000 # 2000000000000)
                      (1 # 1000000) (1 # 1000000) (Some 2000)])
    (map (fun a => (a_date a, a_factor_code a, a_score a, gold_price a))
         Sample.faint_day).
Proof.
  apply (curve_keeps_every_row Sample.faint_day 7). vm_compute. reflexivity.
Defined.

(** X17: with intensities that are not negative, every normalized influence
    lies in [0, 1): the epsilon keeps the quotient defined and below 1. *)
Theorem normalized_influence_in_unit_interval (aligned : list AlignedRecord)
    (window_days : nat) (curve : list InfluenceRecord) (r : InfluenceRecord) :
  Forall (fun a => 0 <= a_intensity a) aligned ->
  FactorEngine.calculate_factor_influence_curve aligned window_days = Some curve ->
  In r curve ->
  0 <= normalized_influence r /\ normalized_influence r < 1.
Proof.
  intros Hin Hc Hr.
  pose proof (curve_rolling_nonneg aligned window_days curve Hin Hc) as Hnn.
  revert Hc Hr Hnn. unfold FactorEngine.calculate_factor_influence_curve.
  destruct (Py.truthy aligned); [|intros H; injection H as <-; contradiction].
  destruct (Nat.eqb window_days 0); [discriminate|].
  set (combined := flat_map _ _).
  intros H. injection H as <-. intros Hr Hnn.
  rewrite in_map_iff in Hr. destruct Hr as [x [<- Hx]]. simpl.
  rewrite Forall_map in Hnn. simpl in Hnn.
  assert (Hx0 : 0 <= snd x) by (rewrite Forall_forall in Hnn; apply Hnn; assumption).
  assert (HT : snd x <= FactorEngine.daily_total combined (a_date (fst x))).
  { unfold FactorEngine.daily_total. apply qsum_ge_member.
    - rewrite Forall_map. rewrite Forall_forall in *.
      intros y Hy. rewrite filter_In in Hy. apply Hnn. tauto.
    - apply in_map. rewrite filter_In. split; [assumption | apply Z.eqb_refl]. }
  unfold FactorEngine.epsilon. split.
  - apply Qle_shift_div_l; lra.
  - apply Qlt_shift_div_r; lra.
Qed.

Lemma normalized_influence_in_unit_interval_witness :
  0 <= normalized_influence
         (mkInfluence 19723 "A1_REAL_YIELD" (1000000000000 # 2000000000000)
                      (1 # 1000000) (1 # 1000000) (Some 2000))
  /\ normalized_influence
       (mkInfluence 19723 "A1_REAL_YIELD" (1000000000000 # 2000000000000)
                    (1 # 1000000) (1 # 1000000) (Some 2000))
     < 1.
Proof.
  apply (normalized_influence_in_unit_interval Sample.faint_day 7
           [mkInfluence 19723 "A1_REAL_YIELD" (1000000000000 # 2000000000000)
                        (1 # 1000000) (1 # 1000000) (Some 2000)]
           (mkInfluence 19723 "A1_REAL_YIELD" (1000000000000 # 2000000000000)
                        (1 # 1000000) (1 # 1000000) (Some 2000))).
  - repeat constructor. vm_compute. discriminate.
  - vm_compute. reflexivity.
  - left. reflexivity.
Defined.

(** ** Ranking of factors *)

Lemma insert_code_perm (c : string) (l : list string) :
  Permutation (Ranking.insert_code c l) (c :: l).
Proof.
  induction l as [|a l IH]; simpl; [reflexivity|].
  destruct (String.leb c a); [reflexivity|].
  rewrite IH. apply perm_swap.
Qed.

Lemma sort_codes_perm (l : list string) : Permutation (Ranking.sort_codes l) l.
Proof.
  unfold Ranking.sort_codes. induction l as [|a l IH]; simpl; [reflexivity|].
  rewrite insert_code_perm. constructor. assumption.
Qed.

Lemma max_date_bounds (curve : list InfluenceRecord) (r : InfluenceRecord) :
  In r curve -> (i_date r <= Ranking.max_date curve)%Z.
Proof.
  unfold Ranking.max_date. destruct curve as [|r0 rs]; [contradiction|].
  simpl map. intros H.
  assert (G : forall (l : list Z) (d x : Z),
             x = d \/ In x l -> (x <= fold_left Z.max l d)%Z).
  { induction l as [|y l IHl]; intros d x [E | Hx]; simpl in *.
    - lia.
    - contradiction.
    - subst. pose proof (fold_max_ge l (Z.max d y)). lia.
    - destruct Hx as [-> | Hx].
      + pose proof (fold_max_ge l (Z.max d x)). lia.
      + apply IHl. right. assumption. }
  apply G. destruct H as [<- | H]; [left; reflexivity|].
  right. apply in_map. assumption.
Qed.

Lemma max_date_attained (curve : list InfluenceRecord) :
  curve <> [] -> exists r, In r curve /\ i_date r = Ranking.max_date curve.
Proof.
  unfold Ranking.max_date. destruct curve as [|r0 rs]; [congruence|]. intros _.
  simpl map.
  assert (G : forall (l : list Z) (d : Z), In (fold_left Z.max l d) (d :: l)).
  { induction l as [|y l IHl]; intros d; simpl; [left; reflexivity|].
    specialize (IHl (Z.max d y)). simpl in IHl.
    destruct IHl as [E | Hin]; [|right; right; assumption].
    rewrite <- E. destruct (Z.max_spec d y) as [[_ ->] | [_ ->]]; auto. }
  specialize (G (map i_date rs) (i_date r0)).
  change (i_date r0 :: map i_date rs) with (map i_date (r0 :: rs)) in G.
  rewrite in_map_iff in G. destruct G as [r [E Hr]]. exists r. auto.
Qed.

Lemma StronglySorted_app_order {A : Type} (R : A -> A -> Prop) (l1 l2 : list A) :
  StronglySorted R (l1 ++ l2) ->
  forall x y, In x l1 -> In y l2 -> R x y.
Proof.
  induction l1 as [|a l1 IH]; simpl; intros H x y Hx Hy; [contradiction|].
  apply StronglySorted_inv in H. destruct H as [Hs Hf].
  destruct Hx as [<- | Hx].
  - rewrite Forall_forall in Hf. apply Hf. apply in_or_app. right. assumption.
  - apply IH; assumption.
Qed.

Lemma filter_none {A : Type} (p : A -> bool) (l : list A) :
  (forall x, In x l -> p x = false) -> filter p l = [].
Proof.
  induction l as [|a l IH]; intros H; simpl; [reflexivity|].
  rewrite (H a (or_introl eq_refl)). apply IH.
  intros x Hx. apply H. right. assumption.
Qed.

Lemma slice_to_firstn {A : Type} (l : list A) (n : Z) :
  exists k : nat,
    Py.slice_to l n = firstn k l
    /\ Z.of_nat (List.length (Py.slice_to l n))
       = (if (0 <=? n)%Z then Z.min n (Z.of_nat (List.length l))
          else Z.max 0 (Z.of_nat (List.length l) + n))%Z.
Proof.
  unfold Py.slice_to. destruct (0 <=? n)%Z eqn:E.
  - exists (Z.to_nat n). split; [reflexivity|].
    rewrite length_firstn. apply Z.leb_le in E. lia.
  - exists (List.length l - Z.to_nat (- n))%nat. split; [reflexivity|].
    rewrite length_firstn. apply Z.leb_gt in E. lia.
Qed.

Section TopFactors.

Variable sort_values_desc : list (string * Q) -> list (string * Q).

Hypothesis sort_values_perm :
  forall l, Permutation (sort_values_desc l) l.

Hypothesis sort_values_sorted :
  forall l, Sorted (fun x y => snd y <= snd x) (sort_values_desc l).

Variable influence_curve : list InfluenceRecord.
Variable top_n : Z.
Variable recent_days : Z.

Local Abbreviation top_factors :=
  (Ranking.get_top_factors sort_values_desc influence_curve top_n recent_days).

Local Abbreviation recent :=
  (filter (fun r => (Ranking.max_date influence_curve - recent_days <? i_date r)%Z)
          influence_curve).

Local Abbreviation factor_avg :=
  (map (fun f => (f, Ranking.factor_mean recent f))
       (Ranking.sort_codes (Pandas.unique (map i_factor_code recent)))).

Lemma top_factors_unfold :
  top_factors = Pandas.head (sort_values_desc factor_avg) top_n.
Proof.
  unfold Ranking.get_top_factors.
  destruct influence_curve as [|r rs] eqn:E; [|reflexivity].
  simpl.
  assert (Hnil : sort_values_desc [] = []).
  { apply Permutation_nil. symmetry. apply sort_values_perm. }
  rewrite Hnil. unfold Pandas.head, Py.slice_to.
  destruct (0 <=? top_n)%Z; rewrite firstn_nil; reflexivity.
Qed.

Lemma in_factor_avg (f : string) (avg : Q) :
  In (f, avg) factor_avg
  <-> In f (map i_factor_code recent) /\ avg = Ranking.factor_mean recent f.
Proof.
  rewrite in_map_iff. split.
  - intros [g [E Hg]]. inversion E; subst. split; [|reflexivity].
    apply in_unique. apply (Permutation_in _ (sort_codes_perm _)). assumption.
  - intros [Hf ->]. exists f. split; [reflexivity|].
    apply (Permutation_in _ (Permutation_sym (sort_codes_perm _))).
    apply in_unique. assumption.
Qed.

Lemma factor_avg_codes_nodup : NoDup (map fst factor_avg).
Proof.
  rewrite map_map. simpl. rewrite map_id.
  apply (Permutation_NoDup (Permutation_sym (sort_codes_perm _))).
  apply nodup_unique.
Qed.

(** The ranking is a prefix of the sorted averages. *)
Lemma sorted_split :
  exists rest, sort_values_desc factor_avg = (top_factors ++ rest)%list.
Proof.
  rewrite top_factors_unfold. unfold Pandas.head.
  destruct (slice_to_firstn (sort_values_desc factor_avg) top_n) as [k [E _]].
  rewrite E. exists (skipn k (sort_values_desc factor_avg)).
  symmetry. apply firstn_skipn.
Qed.

Lemma sorted_averages_length :
  List.length (sort_values_desc factor_avg)
  = List.length (Pandas.unique (map i_factor_code recent)).
Proof.
  rewrite (Permutation_length (sort_values_perm factor_avg)), length_map.
  apply Permutation_length. apply sort_codes_perm.
Qed.

Lemma top_factors_length :
  Z.of_nat (List.length top_factors)
  = (if (0 <=? top_n)%Z
     then Z.min top_n
            (Z.of_nat (List.length (Pandas.unique (map i_factor_code recent))))
     else Z.max 0
            (Z.of_nat (List.length (Pandas.unique (map i_factor_code recent)))
             + top_n))%Z.
Proof.
  rewrite top_factors_unfold. unfold Pandas.head.
  destruct (slice_to_firstn (sort_values_desc factor_avg) top_n) as [k [_ L]].
  rewrite L, sorted_averages_length. reflexivity.
Qed.

(** No factor is recent exactly when the curve is empty or the window of
    recent days is not positive. *)
Lemma no_recent_factor_iff :
  List.length (Pandas.unique (map i_factor_code recent)) = 0%nat
  <-> influence_curve = [] \/ (recent_days <= 0)%Z.
Proof.
  split.
  - intros H.
    destruct influence_curve as [|r0 rs] eqn:Ec; [left; reflexivity|]. right.
    destruct (Z_le_gt_dec recent_days 0) as [Hle | Hgt]; [assumption|]. exfalso.
    destruct (max_date_attained (r0 :: rs)) as [r [Hr Ed]]; [discriminate|].
    assert (Hrec : In (i_factor_code r)
                      (Pandas.unique
                         (map i_factor_code
                            (filter (fun r => (Ranking.max_date (r0 :: rs) - recent_days
                                               <? i_date r)%Z) (r0 :: rs))))).
    { apply in_unique. apply in_map. rewrite filter_In, Z.ltb_lt.
      split; [assumption | lia]. }
    destruct (Pandas.unique _) as [|x xs]; [contradiction | discriminate].
  - intros [-> | Hle]; [reflexivity|].
    assert (Hrec : recent = []).
    { apply filter_none. intros r Hr. apply Z.ltb_ge.
      pose proof (max_date_bounds influence_curve r Hr). lia. }
    rewrite Hrec. reflexivity.
Qed.

(** X18: with [n] the number of distinct factors that have a row later than
    [max_date - recent_days], the ranking returns [min top_n n] entries for
    a [top_n] that is not negative, and [max 0 (n + top_n)] entries (all
    but the last [-top_n]) for a negative one; no factor twice; each factor
    has a row later than [max_date - recent_days], and its value is the
    mean of the factor's normalized influence over those rows. *)
Theorem top_factors_are_recent_means :
  ((0 <= top_n)%Z ->
   Z.of_nat (List.length (Ranking.get_top_factors sort_values_desc influence_curve top_n recent_days))
   = Z.min top_n (Z.of_nat (List.length (Pandas.unique (map i_factor_code recent)))))
  /\ ((top_n < 0)%Z ->
      Z.of_nat (List.length (Ranking.get_top_factors sort_values_desc influence_curve top_n recent_days))
      = Z.max 0 (Z.of_nat (List.length (Pandas.unique (map i_factor_code recent)))
                 + top_n)%Z)
  /\ NoDup (map fst (Ranking.get_top_factors sort_values_desc influence_curve top_n recent_days))
  /\ forall f avg,
       In (f, avg) (Ranking.get_top_factors sort_values_desc influence_curve top_n recent_days) ->
       (exists r, In r influence_curve
                  /\ i_factor_code r = f
                  /\ (Ranking.max_date influence_curve - recent_days < i_date r)%Z)
       /\ avg = Ranking.factor_mean recent f.
Proof.
  destruct sorted_split as [rest Hsplit].
  split; [|split; [|split]].
  - intros Hn. rewrite top_factors_length.
    apply Z.leb_le in Hn. rewrite Hn. reflexivity.
  - intros Hn. rewrite top_factors_length.
    apply Z.leb_gt in Hn. rewrite Hn. reflexivity.
  - assert (Hnd : NoDup (map fst (sort_values_desc factor_avg))).
    { apply (Permutation_NoDup
               (Permutation_map fst (Permutation_sym (sort_values_perm factor_avg)))).
      apply factor_avg_codes_nodup. }
    rewrite Hsplit, map_app in Hnd.
    apply NoDup_app_remove_r in Hnd. exact Hnd.
  - intros f avg H.
    assert (Hin : In (f, avg) factor_avg).
    { apply (Permutation_in _ (sort_values_perm factor_avg)).
      rewrite Hsplit. apply in_or_app. left. assumption. }
    apply in_factor_avg in Hin. destruct Hin as [Hf ->]. split; [|reflexivity].
    rewrite in_map_iff in Hf. destruct Hf as [r [E Hr]].
    rewrite filter_In, Z.ltb_lt in Hr. exists r. tauto.
Qed.

(** X19: the ranking is in descending order of mean influence, and no recent
    factor it leaves out has a larger mean than one it returns. *)
Theorem top_factors_ranked :
  StronglySorted (fun x y => snd y <= snd x) (Ranking.get_top_factors sort_values_desc influence_curve top_n recent_days)
  /\ forall f avg g,
       In (f, avg) (Ranking.get_top_factors sort_values_desc influence_curve top_n recent_days) ->
       In g (map i_factor_code recent) ->
       ~ In g (map fst (Ranking.get_top_factors sort_values_desc influence_curve top_n recent_days)) ->
       Ranking.factor_mean recent g <= avg.
Proof.
  assert (Hss : StronglySorted (fun x y => snd y <= snd x)
                               (sort_values_desc factor_avg)).
  { apply Sorted_StronglySorted; [|apply sort_values_sorted].
    intros x y z Hxy Hyz. eapply Qle_trans; eassumption. }
  destruct sorted_split as [rest Hsplit].
  rewrite Hsplit in Hss. split.
  - clear -Hss. induction top_factors as [|a l IH]; [constructor|].
    simpl in Hss. apply StronglySorted_inv in Hss. destruct Hss as [Hs Hf].
    constructor; [apply IH; assumption|].
    rewrite Forall_forall in *. intros x Hx. apply Hf. apply in_or_app. left. assumption.
  - intros f avg g Hf Hg Hng.
    assert (Hin : In (g, Ranking.factor_mean recent g) (sort_values_desc factor_avg)).
    { apply (Permutation_in _ (Permutation_sym (sort_values_perm factor_avg))).
      apply in_factor_avg. split; [assumption | reflexivity]. }
    rewrite Hsplit in Hin. apply in_app_or in Hin. destruct Hin as [Hin | Hin].
    + exfalso. apply Hng. apply (in_map fst) in Hin. exact Hin.
    + apply (StronglySorted_app_order _ _ _ Hss (f, avg) _ Hf Hin).
Qed.

(** X20: the ranking is empty exactly when the curve is empty, the window of
    recent days is not positive, no entry is asked for, or [top_n] is
    negative and no more than [-top_n] distinct factors have a row later
    than [max_date - recent_days]. *)
Theorem top_factors_empty_iff :
  (Ranking.get_top_factors sort_values_desc influence_curve top_n recent_days) = []
  <-> influence_curve = [] \/ (recent_days <= 0)%Z \/ top_n = 0%Z
      \/ ((top_n < 0)%Z
          /\ (Z.of_nat (List.length (Pandas.unique (map i_factor_code recent)))
              <= - top_n)%Z).
Proof.
  pose proof top_factors_length as L.
  pose proof no_recent_factor_iff as Hz.
  split.
  - intros H. rewrite H in L. simpl in L.
    destruct (0 <=? top_n)%Z eqn:E.
    + apply Z.leb_le in E.
      destruct (Z.eq_dec top_n 0) as [-> | Hn]; [right; right; left; reflexivity|].
      assert (H0 : List.length (Pandas.unique (map i_factor_code recent)) = 0%nat)
        by lia.
      apply Hz in H0. tauto.
    + apply Z.leb_gt in E. right. right. right. split; [assumption | lia].
  - intros Hd.
    assert (L0 : Z.of_nat (List.length top_factors) = 0%Z).
    { rewrite L.
      destruct Hd as [Hc | [Hr | [-> | [Hn Hle]]]].
      - assert (H0 : List.length (Pandas.unique (map i_factor_code recent)) = 0%nat)
          by (apply Hz; left; assumption).
        rewrite H0. destruct (0 <=? top_n)%Z eqn:E;
          [apply Z.leb_le in E | apply Z.leb_gt in E]; lia.
      - assert (H0 : List.length (Pandas.unique (map i_factor_code recent)) = 0%nat)
          by (apply Hz; right; assumption).
        rewrite H0. destruct (0 <=? top_n)%Z eqn:E;
          [apply Z.leb_le in E | apply Z.leb_gt in E]; lia.
      - simpl. lia.
      - apply Z.leb_gt in Hn. rewrite Hn. lia. }
    destruct top_factors; [reflexivity | simpl in L0; lia].
Qed.

End TopFactors.

Lemma insert_desc_perm (x : string * Q) (l : list (string * Q)) :
  Permutation (Sample2.insert_desc x l) (x :: l).
Proof.
  induction l as [|a l IH]; simpl; [reflexivity|].
  destruct (Qle_bool (snd a) (snd x)); [reflexivity|].
  rewrite IH. apply perm_swap.
Qed.

Lemma sort_desc_perm (l : list (string * Q)) : Permutation (Sample2.sort_desc l) l.
Proof.
  unfold Sample2.sort_desc. induction l as [|a l IH]; simpl; [reflexivity|].
  rewrite insert_desc_perm. constructor. assumption.
Qed.

Lemma insert_desc_sorted (x : string * Q) (l : list (string * Q)) :
  Sorted (fun a b => snd b <= snd a) l ->
  Sorted (fun a b => snd b <= snd a) (Sample2.insert_desc x l).
Proof.
  induction l as [|a l IH]; simpl; intros H.
  - repeat constructor.
  - destruct (Qle_bool (snd a) (snd x)) eqn:E.
    + constructor; [assumption|]. constructor. apply Qle_bool_iff. assumption.
    + apply Sorted_inv in H. destruct H as [Hs Hh].
      assert (Hax : snd x <= snd a).
      { destruct (Qlt_le_dec (snd a) (snd x)) as [L | L]; [|assumption].
        apply Qlt_le_weak in L. apply Qle_bool_iff in L. congruence. }
      constructor; [apply IH; assumption|].
      destruct l as [|b l]; simpl; [constructor; assumption|].
      destruct (Qle_bool (snd b) (snd x)); constructor;
        [assumption | inversion Hh; assumption].
Qed.

Lemma sort_desc_sorted (l : list (string * Q)) :
  Sorted (fun a b => snd b <= snd a) (Sample2.sort_desc l).
Proof.
  unfold Sample2.sort_desc. induction l as [|a l IH]; simpl;
    [constructor | apply insert_desc_sorted; assumption].
Qed.

Lemma top_factors_are_recent_means_witness :
  Z.of_nat (List.length (Ranking.get_top_factors Sample2.sort_desc Sample2.curve (-1) 7))
  = 1%Z
  /\ (exists r, In r Sample2.curve
                /\ i_factor_code r = "B1_GEOPOLITICS"%string
                /\ (Ranking.max_date Sample2.curve - 7 < i_date r)%Z)
  /\ (10 # 16)
     = Ranking.factor_mean
         (filter (fun r => (Ranking.max_date Sample2.curve - 7 <? i_date r)%Z)
                 Sample2.curve)
         "B1_GEOPOLITICS".
Proof.
  split.
  - rewrite (proj1 (proj2 (top_factors_are_recent_means
                             Sample2.sort_desc sort_desc_perm Sample2.curve (-1) 7)));
      [reflexivity | lia].
  - apply (proj2 (proj2 (proj2 (top_factors_are_recent_means
                                  Sample2.sort_desc sort_desc_perm Sample2.curve 5 7)))).
    vm_compute. left. reflexivity.
Defined.

Lemma top_factors_ranked_witness :
  Ranking.factor_mean
    (filter (fun r => (Ranking.max_date Sample2.curve - 7 <? i_date r)%Z)
            Sample2.curve)
    "A1_REAL_YIELD"
  <= 10 # 16.
Proof.
  apply (proj2 (top_factors_ranked Sample2.sort_desc sort_desc_perm sort_desc_sorted
                  Sample2.curve 1 7) "B1_GEOPOLITICS"%string).
  - vm_compute. left. reflexivity.
  - vm_compute. left. reflexivity.
  - vm_compute. intros [H | []]. discriminate H.
Defined.

Lemma top_factors_empty_iff_witness :
  Ranking.get_top_factors Sample2.sort_desc Sample2.curve (-2) 7 = [].
Proof.
  apply (proj2 (top_factors_empty_iff Sample2.sort_desc sort_desc_perm
                  Sample2.curve (-2) 7)).
  right. right. right. split; [lia|]. vm_compute. discriminate.
Defined.

(** ** Factor names *)

Lemma lookup_factor_none (code : string) (items : list (string * FactorInfo)) :
  Ranking.lookup_factor code items = None <-> ~ In code (map fst items).
Proof.
  induction items as [|[c i] items IH]; simpl; [tauto|].
  destruct (String.eqb_spec c code) as [-> | Hne].
  - split; [discriminate | intros H; exfalso; apply H; left; reflexivity].
  - rewrite IH. tauto.
Qed.

Lemma lookup_factor_some (code : string) (items : list (string * FactorInfo))
    (info : FactorInfo) :
  Ranking.lookup_factor code items = Some info -> In (code, info) items.
Proof.
  induction items as [|[c i] items IH]; simpl; [discriminate|].
  destruct (String.eqb_spec c code) as [-> | Hne].
  - intros H. injection H as ->. left. reflexivity.
  - intros H. right. apply IH. assumption.
Qed.

(** X21: a code that no domain lists is its own name; a code to which the
    configuration gives one name, in whatever domains, gets that name. *)
Theorem get_factor_name_lookup (factor_domains : list FactorDomain)
    (factor_code : string) :
  ((forall domain, In domain factor_domains ->
      ~ In factor_code (map fst (factors domain))) ->
   Ranking.get_factor_name factor_domains factor_code = factor_code)
  /\ (forall domain info,
        In domain factor_domains ->
        In (factor_code, info) (factors domain) ->
        (forall domain' info',
           In domain' factor_domains ->
           In (factor_code, info') (factors domain') ->
           name info' = name info) ->
        Ranking.get_factor_name factor_domains factor_code = name info).
Proof.
  split.
  - induction factor_domains as [|d ds IH]; intros H; simpl; [reflexivity|].
    rewrite (proj2 (lookup_factor_none _ _) (H d (or_introl eq_refl))).
    apply IH. intros d' Hd'. apply H. right. assumption.
  - intros domain info Hd Hin Huniq.
    induction factor_domains as [|d ds IH]; simpl; [contradiction|].
    destruct (Ranking.lookup_factor factor_code (factors d)) as [i|] eqn:E.
    + apply lookup_factor_some in E.
      apply (Huniq d i); [left; reflexivity | assumption].
    + destruct Hd as [-> | Hd].
      * exfalso. apply (proj1 (lookup_factor_none _ _) E).
        apply (in_map fst) in Hin. exact Hin.
      * apply IH; [assumption|].
        intros d' i' Hd' Hi'. apply (Huniq d' i'); [right; assumption | assumption].
Qed.

Lemma get_factor_name_lookup_witness :
  Ranking.get_factor_name Sample2.domains "Z9_UNKNOWN" = "Z9_UNKNOWN"%string
  /\ Ranking.get_factor_name Sample2.domains "B1_GEOPOLITICS"
     = "Geopolitical risk"%string.
Proof.
  destruct (get_factor_name_lookup Sample2.domains "Z9_UNKNOWN") as [Hnone _].
  destruct (get_factor_name_lookup Sample2.domains "B1_GEOPOLITICS") as [_ Hsome].
  split.
  - apply Hnone. intros domain [<- | [<- | []]]; simpl;
      intros H; repeat (destruct H as [H | H]; [discriminate H|]); exact H.
  - apply (Hsome (mkFactorDomain
                    [("B1_GEOPOLITICS"%string, mkFactorInfo "Geopolitical risk")])
                 (mkFactorInfo "Geopolitical risk")).
    + right. left. reflexivity.
    + left. reflexivity.
    + intros domain' info' [<- | [<- | []]]; simpl; intros H;
        repeat (destruct H as [H | H]; [inversion H; try reflexivity|]);
        try contradiction.
Defined.

(** ** De-duplication and ordering of news *)

Lemma url_seen_iff (url : string) (seen : list string) :
  NewsFetcher.url_seen url seen = true <-> In url seen.
Proof.
  unfold NewsFetcher.url_seen. rewrite existsb_exists. split.
  - intros [u [Hu E]]. apply String.eqb_eq in E. subst. assumption.
  - intros H. exists url. split; [assumption | apply String.eqb_refl].
Qed.

Lemma dedup_from_in (seen : list string) (all_news : list NewsItem) (item : NewsItem) :
  In item (NewsFetcher.dedup_from seen all_news) ->
  In item all_news /\ n_url item <> ""%string /\ ~ In (n_url item) seen.
Proof.
  revert seen. induction all_news as [|x l IH]; intros seen; simpl; [contradiction|].
  destruct (String.eqb_spec (n_url x) "") as [E | Hne]; simpl.
  - intros H. apply IH in H. tauto.
  - destruct (NewsFetcher.url_seen (n_url x) seen) eqn:Es; simpl.
    + intros H. apply IH in H. tauto.
    + intros [<- | H].
      * split; [left; reflexivity|]. split; [assumption|].
        rewrite <- url_seen_iff, Es. discriminate.
      * apply IH in H. destruct H as [Hin [Hu Hs]].
        split; [right; assumption|]. split; [assumption|].
        intros Hs'. apply Hs. right. assumption.
Qed.

Lemma dedup_from_nodup (seen : list string) (all_news : list NewsItem) :
  NoDup (map n_url (NewsFetcher.dedup_from seen all_news)).
Proof.
  revert seen. induction all_news as [|x l IH]; intros seen; simpl; [constructor|].
  destruct (negb (String.eqb (n_url x) "") && negb (NewsFetcher.url_seen (n_url x) seen));
    [|apply IH].
  simpl. constructor; [|apply IH].
  rewrite in_map_iff. intros [y [E Hy]]. apply dedup_from_in in Hy.
  destruct Hy as [_ [_ Hs]]. apply Hs. left. symmetry. assumption.
Qed.

Lemma dedup_from_first (seen : list string) (before after : list NewsItem)
    (item : NewsItem) :
  n_url item <> ""%string ->
  ~ In (n_url item) seen ->
  (forall x, In x before -> n_url x <> n_url item) ->
  In item (NewsFetcher.dedup_from seen (before ++ item :: after)).
Proof.
  revert seen. induction before as [|x l IH]; intros seen Hu Hs Hb; simpl.
  - destruct (String.eqb_spec (n_url item) "") as [E | _]; [contradiction|].
    destruct (NewsFetcher.url_seen (n_url item) seen) eqn:Es;
      [apply url_seen_iff in Es; contradiction|].
    left. reflexivity.
  - assert (Hx : n_url x <> n_url item) by (apply Hb; left; reflexivity).
    assert (Hl : forall y, In y l -> n_url y <> n_url item)
      by (intros y Hy; apply Hb; right; assumption).
    destruct (negb (String.eqb (n_url x) "")
              && negb (NewsFetcher.url_seen (n_url x) seen)).
    + right. apply IH; [assumption | | assumption].
      intros [E | H]; [congruence | contradiction].
    + apply IH; assumption.
Qed.

Lemma dedup_from_fixed (seen : list string) (l : list NewsItem) :
  NoDup (map n_url l) ->
  (forall x, In x l -> n_url x <> ""%string /\ ~ In (n_url x) seen) ->
  NewsFetcher.dedup_from seen l = l.
Proof.
  revert seen. induction l as [|x l IH]; intros seen Hnd H; simpl; [reflexivity|].
  inversion Hnd as [|? ? Hx Hl]; subst.
  destruct (H x (or_introl eq_refl)) as [Hu Hs].
  destruct (String.eqb_spec (n_url x) "") as [E | _]; [contradiction|].
  destruct (NewsFetcher.url_seen (n_url x) seen) eqn:Es;
    [apply url_seen_iff in Es; contradiction|].
  simpl. f_equal. apply IH; [assumption|].
  intros y Hy. destruct (H y (or_intror Hy)) as [Hyu Hys].
  split; [assumption|]. intros [E | Hin]; [|contradiction].
  apply Hx. rewrite E. apply in_map. assumption.
Qed.

(** X22: after de-duplication no URL is empty or occurs twice, every item comes
    from the input, the first item of every non-empty URL is kept, and
    de-duplicating again changes nothing. *)
Theorem unique_news_keeps_first_of_each_url (all_news : list NewsItem) :
  NoDup (map n_url (NewsFetcher.unique_news all_news))
  /\ (forall item, In item (NewsFetcher.unique_news all_news) ->
        In item all_news /\ n_url item <> ""%string)
  /\ (forall before after item,
        all_news = (before ++ item :: after)%list ->
        n_url item <> ""%string ->
        (forall x, In x before -> n_url x <> n_url item) ->
        In item (NewsFetcher.unique_news all_news))
  /\ NewsFetcher.unique_news (NewsFetcher.unique_news all_news)
     = NewsFetcher.unique_news all_news.
Proof.
  unfold NewsFetcher.unique_news. split; [apply dedup_from_nodup|].
  split; [|split].
  - intros item H. apply dedup_from_in in H. tauto.
  - intros before after item -> Hu Hb. apply dedup_from_first; auto.
  - apply dedup_from_fixed; [apply dedup_from_nodup|].
    intros x Hx. apply dedup_from_in in Hx. split; [tauto | intros []].
Qed.

Lemma unique_news_keeps_first_of_each_url_witness :
  In Sample2.news_fed
     (NewsFetcher.unique_news
        [Sample2.news_gold; Sample2.news_fed; Sample2.news_fed_again]).
Proof.
  apply (proj1 (proj2 (proj2 (unique_news_keeps_first_of_each_url
                                [Sample2.news_gold; Sample2.news_fed;
                                 Sample2.news_fed_again])))
           [Sample2.news_gold] [Sample2.news_fed_again]).
  - reflexivity.
  - discriminate.
  - intros x [<- | []]. discriminate.
Defined.

Lemma published_keys_some (l : list NewsItem) (keyed : list (string * NewsItem)) :
  NewsFetcher.published_keys l = Some keyed ->
  map snd keyed = l
  /\ Forall (fun x => n_published (snd x) = Some (fst x)) keyed.
Proof.
  revert keyed. induction l as [|item l IH]; simpl; intros keyed H.
  - injection H as <-. split; [reflexivity | constructor].
  - destruct (n_published item) as [d|] eqn:Ed; [|discriminate].
    destruct (NewsFetcher.published_keys l) as [k|]; [|discriminate].
    injection H as <-. destruct (IH k eq_refl) as [Em Hf].
    split; [simpl; rewrite Em; reflexivity | constructor; assumption].
Qed.

Lemma published_keys_none (l : list NewsItem) :
  NewsFetcher.published_keys l = None
  <-> exists item, In item l /\ n_published item = None.
Proof.
  induction l as [|item l IH]; simpl.
  - split; [discriminate | intros [x [[] _]]].
  - destruct (n_published item) as [d|] eqn:Ed.
    + destruct (NewsFetcher.published_keys l) as [k|].
      * split; [discriminate|]. intros [x [[<- | Hx] Ex]]; [congruence|].
        assert (Hk : Some k = None) by (apply (proj2 IH); exists x; auto).
        discriminate Hk.
      * split; [|reflexivity]. intros _.
        destruct (proj1 IH eq_refl) as [x [Hx Ex]]. exists x. auto.
    + split; [|reflexivity]. intros _. exists item. auto.
Qed.

Lemma insert_newest_perm (d : string) (item : NewsItem) (l : list (string * NewsItem)) :
  Permutation (NewsFetcher.insert_newest d item l) ((d, item) :: l).
Proof.
  induction l as [|[d' i'] l IH]; simpl; [reflexivity|].
  destruct (String.leb d' d); [reflexivity|].
  rewrite IH. apply perm_swap.
Qed.

Lemma insert_newest_sorted (d : string) (item : NewsItem)
    (l : list (string * NewsItem)) :
  Sorted (fun a b => String.leb (fst b) (fst a) = true) l ->
  Sorted (fun a b => String.leb (fst b) (fst a) = true)
         (NewsFetcher.insert_newest d item l).
Proof.
  induction l as [|[d' i'] l IH]; simpl; intros H.
  - repeat constructor.
  - destruct (String.leb d' d) eqn:E.
    + constructor; [assumption | constructor; assumption].
    + apply Sorted_inv in H. destruct H as [Hs Hh].
      assert (Hd : String.leb d d' = true).
      { destruct (String.leb_total d d') as [L | L]; [assumption | congruence]. }
      constructor; [apply IH; assumption|].
      destruct l as [|[d'' i''] l]; simpl; [constructor; assumption|].
      destruct (String.leb d'' d); constructor;
        [assumption | inversion Hh; assumption].
Qed.

Lemma sort_keyed_perm (keyed : list (string * NewsItem)) :
  Permutation
    (fold_right (fun x => NewsFetcher.insert_newest (fst x) (snd x)) [] keyed)
    keyed.
Proof.
  induction keyed as [|[d i] l IH]; simpl; [reflexivity|].
  rewrite insert_newest_perm. constructor. assumption.
Qed.

Lemma sort_keyed_sorted (keyed : list (string * NewsItem)) :
  StronglySorted (fun a b => String.leb (fst b) (fst a) = true)
    (fold_right (fun x => NewsFetcher.insert_newest (fst x) (snd x)) [] keyed).
Proof.
  apply Sorted_StronglySorted.
  - intros a b c Hab Hbc. eapply string_leb_trans; eassumption.
  - induction keyed as [|[d i] l IH]; simpl;
      [constructor | apply insert_newest_sorted; assumption].
Qed.

Lemma keyed_order_to_items (ks : list (string * NewsItem)) :
  Forall (fun x => n_published (snd x) = Some (fst x)) ks ->
  StronglySorted (fun a b => String.leb (fst b) (fst a) = true) ks ->
  StronglySorted
    (fun a b => forall da db,
         n_published a = Some da -> n_published b = Some db ->
         String.leb db da = true)
    (map snd ks).
Proof.
  intros Hf Hs. induction Hs as [|x ks Hs IH Hx]; simpl; [constructor|].
  inversion Hf as [|? ? Px Pks]; subst.
  constructor; [apply IH; assumption|].
  rewrite Forall_map. rewrite Forall_forall in *.
  intros y Hy da db Ea Eb.
  rewrite Px in Ea. rewrite (Pks y Hy) in Eb.
  injection Ea as <-. injection Eb as <-. apply Hx. assumption.
Qed.

(** X23: when the ordering step succeeds, it returns the de-duplicated items,
    each once, newest publication date first. *)
Theorem news_sorted_newest_first (all_news out : list NewsItem) :
  NewsFetcher.deduplicate_and_sort all_news = Some out ->
  Permutation out (NewsFetcher.unique_news all_news)
  /\ StronglySorted
       (fun a b => forall da db,
            n_published a = Some da -> n_published b = Some db ->
            String.leb db da = true)
       out.
Proof.
  unfold NewsFetcher.deduplicate_and_sort, NewsFetcher.sort_newest_first.
  destruct (NewsFetcher.unique_news all_news) as [|x [|y l]] eqn:E.
  - intros H. injection H as <-. split; [reflexivity | constructor].
  - intros H. injection H as <-. split; [reflexivity|].
    constructor; constructor.
  - destruct (NewsFetcher.published_keys (x :: y :: l)) as [keyed|] eqn:Ek;
      [|discriminate].
    intros H. injection H as <-.
    destruct (published_keys_some _ _ Ek) as [Em Hf]. split.
    + rewrite <- Em. apply Permutation_map. apply sort_keyed_perm.
    + apply keyed_order_to_items; [|apply sort_keyed_sorted].
      rewrite Forall_forall in *. intros z Hz. apply Hf.
      apply (Permutation_in _ (sort_keyed_perm keyed)). assumption.
Qed.

Lemma news_sorted_newest_first_witness :
  Permutation [Sample2.news_fed; Sample2.news_gold]
    (NewsFetcher.unique_news
       [Sample2.news_gold; Sample2.news_fed; Sample2.news_no_url;
        Sample2.news_fed_again]).
Proof.
  apply (proj1 (news_sorted_newest_first
                  [Sample2.news_gold; Sample2.news_fed; Sample2.news_no_url;
                   Sample2.news_fed_again]
                  [Sample2.news_fed; Sample2.news_gold] eq_refl)).
Defined.

(** X24: the ordering step fails exactly when at least two items are left after
    de-duplication and one of them has no publication date. *)
Theorem news_sort_fails_iff (all_news : list NewsItem) :
  NewsFetcher.deduplicate_and_sort all_news = None
  <-> (2 <= List.length (NewsFetcher.unique_news all_news))%nat
      /\ exists item, In item (NewsFetcher.unique_news all_news)
                      /\ n_published item = None.
Proof.
  unfold NewsFetcher.deduplicate_and_sort, NewsFetcher.sort_newest_first.
  destruct (NewsFetcher.unique_news all_news) as [|x [|y l]] eqn:E.
  - split; [discriminate | simpl; intros [H _]; lia].
  - split; [discriminate | simpl; intros [H _]; lia].
  - destruct (NewsFetcher.published_keys (x :: y :: l)) as [keyed|] eqn:Ek.
    + split; [discriminate|]. intros [_ H].
      apply published_keys_none in H. congruence.
    + split; [|reflexivity]. intros _. split; [simpl; lia|].
      apply published_keys_none. assumption.
Qed.

Lemma news_sort_fails_iff_witness :
  NewsFetcher.deduplicate_and_sort [Sample2.news_gold; Sample2.news_undated] = None.
Proof.
  apply (proj2 (news_sort_fails_iff [Sample2.news_gold; Sample2.news_undated])).
  split; [simpl; lia|].
  exists Sample2.news_undated. split; [right; left; reflexivity | reflexivity].
Defined.

(** ** Events shown in the brief *)

Section BriefEvents.

Variable config : Config.

Local Abbreviation impact := (FactorEngine.calculate_event_impact_score config).

Lemma insert_by_impact_perm (e : Event) (l : list Event) :
  Permutation (DailyBrief.insert_by_impact config e l) (e :: l).
Proof.
  induction l as [|a l IH]; simpl; [reflexivity|].
  destruct (Qle_bool (impact a) (impact e)); [reflexivity|].
  rewrite IH. apply perm_swap.
Qed.

Lemma sorted_by_impact_perm (events : list Event) :
  Permutation (DailyBrief.sorted_by_impact config events) events.
Proof.
  unfold DailyBrief.sorted_by_impact.
  induction events as [|a l IH]; simpl; [reflexivity|].
  rewrite insert_by_impact_perm. constructor. assumption.
Qed.

Lemma insert_by_impact_sorted (e : Event) (l : list Event) :
  Sorted (fun a b => impact b <= impact a) l ->
  Sorted (fun a b => impact b <= impact a) (DailyBrief.insert_by_impact config e l).
Proof.
  induction l as [|a l IH]; simpl; intros H.
  - repeat constructor.
  - destruct (Qle_bool (impact a) (impact e)) eqn:E.
    + constructor; [assumption|]. constructor. apply Qle_bool_iff. assumption.
    + apply Sorted_inv in H. destruct H as [Hs Hh].
      assert (Hae : impact e <= impact a).
      { destruct (Qlt_le_dec (impact a) (impact e)) as [L | L]; [|assumption].
        apply Qlt_le_weak in L. apply Qle_bool_iff in L. congruence. }
      constructor; [apply IH; assumption|].
      destruct l as [|b l]; simpl; [constructor; assumption|].
      destruct (Qle_bool (impact b) (impact e)); constructor;
        [assumption | inversion Hh; assumption].
Qed.

Lemma sorted_by_impact_sorted (events : list Event) :
  StronglySorted (fun a b => impact b <= impact a)
                 (DailyBrief.sorted_by_impact config events).
Proof.
  apply Sorted_StronglySorted.
  - intros a b c Hab Hbc. eapply Qle_trans; eassumption.
  - unfold DailyBrief.sorted_by_impact.
    induction events as [|a l IH]; simpl;
      [constructor | apply insert_by_impact_sorted; assumption].
Qed.

(** X25: the brief shows the five events of highest impact (all of them when
    there are fewer), highest first: the events left out are the rest of
    the list, and none of them has a higher impact than a shown one. *)
Theorem recent_events_are_top_five (events : list Event) :
  List.length (DailyBrief.recent_events config events)
  = Nat.min 5 (List.length events)
  /\ StronglySorted (fun a b => impact b <= impact a)
                    (DailyBrief.recent_events config events)
  /\ exists rest,
       Permutation (DailyBrief.recent_events config events ++ rest) events
       /\ forall shown left_out,
            In shown (DailyBrief.recent_events config events) ->
            In left_out rest ->
            impact left_out <= impact shown.
Proof.
  unfold DailyBrief.recent_events.
  pose proof (sorted_by_impact_perm events) as Hp.
  pose proof (sorted_by_impact_sorted events) as Hs.
  set (sorted := DailyBrief.sorted_by_impact config events) in *.
  rewrite <- (firstn_skipn 5 sorted) in Hs.
  split; [rewrite length_firstn, (Permutation_length Hp); reflexivity|].
  split.
  - clear -Hs. induction (firstn 5 sorted) as [|a l IH]; [constructor|].
    simpl in Hs. apply StronglySorted_inv in Hs. destruct Hs as [Hs Hf].
    constructor; [apply IH; assumption|].
    rewrite Forall_forall in *. intros x Hx. apply Hf. apply in_or_app. left. assumption.
  - exists (skipn 5 sorted). split; [rewrite firstn_skipn; assumption|].
    intros shown left_out Hsh Hl.
    apply (StronglySorted_app_order _ _ _ Hs shown left_out Hsh Hl).
Qed.

End BriefEvents.

(** ** Batch extraction *)

Lemma flat_map_option_length {A B : Type} (f : A -> option B) (l : list A) :
  (List.length (flat_map (fun a => match f a with
                                   | Some b => [b]
                                   | None => []
                                   end) l)
   <= List.length l)%nat.
Proof.
  induction l as [|a l IH]; simpl; [lia|].
  destruct (f a); simpl; lia.
Qed.

(** X26: a batch never holds more events than the slice of the news list
    it reads has items: the first [max_items] of them, or, for a negative
    [max_items], all but the last [-max_items]; that slice is a prefix of
    the news list, and every event of the batch was extracted from one of
    its items. *)
Theorem batch_extract_bounded (extract_event : NewsItem -> option Event)
    (news_list : list NewsItem) (max_items : Z) :
  ((0 <= max_items)%Z ->
   (Z.of_nat (List.length
                (EventExtractor.batch_extract extract_event news_list max_items))
    <= Z.min max_items (Z.of_nat (List.length news_list)))%Z)
  /\ ((max_items < 0)%Z ->
      (Z.of_nat (List.length
                   (EventExtractor.batch_extract extract_event news_list max_items))
       <= Z.max 0 (Z.of_nat (List.length news_list) + max_items))%Z)
  /\ (exists rest, news_list = (Py.slice_to news_list max_items ++ rest)%list)
  /\ forall event,
       In event (EventExtractor.batch_extract extract_event news_list max_items) ->
       exists news_item,
         In news_item (Py.slice_to news_list max_items)
         /\ extract_event news_item = Some event.
Proof.
  unfold EventExtractor.batch_extract.
  destruct (slice_to_firstn news_list max_items) as [k [Ek L]].
  pose proof (flat_map_option_length extract_event
                (Py.slice_to news_list max_items)) as B.
  split; [|split; [|split]].
  - intros Hn. apply Z.leb_le in Hn. rewrite Hn in L. lia.
  - intros Hn. apply Z.leb_gt in Hn. rewrite Hn in L. lia.
  - exists (skipn k news_list). rewrite Ek. symmetry. apply firstn_skipn.
  - intros event H. rewrite in_flat_map in H. destruct H as [item [Hin He]].
    exists item. split; [assumption|].
    destruct (extract_event item) as [e|]; [|contradiction].
    destruct He as [-> | []]. reflexivity.
Qed.

(** ** The daily table as a function of the batch *)

(** X1: the aggregated table holds at most one row per (date, factor) pair. *)
Theorem aggregate_one_row_per_key (config : Config) (to_date : string -> option Z)
    (events : list Event) :
  NoDup (map Reference.row_key
             (FactorEngine.aggregate_factor_scores_by_day config to_date events)).
Proof. apply aggregate_keys_nodup. Qed.

Lemma aggregate_groups_witness :
  exists event tag,
    In event [Sample.same_factor_twice]
    /\ Sample.to_date (Py.get (timestamp_utc event) ""%string) = Some 19723%Z
    /\ In tag (Py.get (factor_tags event) [])
    /\ Py.get (factor tag) ""%string = "A1_REAL_YIELD"%string.
Proof.
  apply (proj1 (aggregate_groups Sample.config Sample.to_date
                  [Sample.same_factor_twice] 19723 "A1_REAL_YIELD")).
  vm_compute. left. reflexivity.
Defined.

Lemma recent_events_are_top_five_witness :
  List.length (DailyBrief.recent_events Sample.config
                 [Sample.bare_event; Sample.single_tag_event; Sample.no_strength_event])
  = 3%nat.
Proof.
  apply (proj1 (recent_events_are_top_five Sample.config
                  [Sample.bare_event; Sample.single_tag_event;
                   Sample.no_strength_event])).
Defined.

Lemma batch_extract_bounded_witness :
  (Z.of_nat (List.length
               (EventExtractor.batch_extract Sample2.extract_event
                  [Sample2.news_undated; Sample2.news_fed; Sample2.news_gold] (-1)))
   <= 2)%Z
  /\ exists news_item,
       In news_item
          (Py.slice_to [Sample2.news_undated; Sample2.news_fed; Sample2.news_gold] (-1))
       /\ Sample2.extract_event news_item
          = Some (mkEvent (Some "POLICY_ANNOUNCEMENT"%string)
                          (Some "2024-01-31T14:00:00"%string) (Some [])
                          (Some (Some "evt_1"%string))).
Proof.
  split.
  - apply (proj1 (proj2 (batch_extract_bounded Sample2.extract_event
                  [Sample2.news_undated; Sample2.news_fed; Sample2.news_gold]
                  (-1)))).
    lia.
  - apply (proj2 (proj2 (proj2 (batch_extract_bounded Sample2.extract_event
                    [Sample2.news_undated; Sample2.news_fed; Sample2.news_gold]
                    (-1))))).
    vm_compute. left. reflexivity.
Defined.

Lemma qsum_perm (l l' : list Q) : Permutation l l' -> Py.qsum l == Py.qsum l'.
Proof.
  induction 1 as [|x l l' Hp IH|x y l|l l' l'' H1 IH1 H2 IH2]; simpl.
  - reflexivity.
  - rewrite IH. reflexivity.
  - ring.
  - rewrite IH1. assumption.
Qed.

Lemma filter_perm {A : Type} (p : A -> bool) (l l' : list A) :
  Permutation l l' -> Permutation (filter p l) (filter p l').
Proof.
  induction 1 as [|x l l' Hp IH|x y l|l l' l'' H1 IH1 H2 IH2]; simpl.
  - constructor.
  - destruct (p x); [constructor|]; assumption.
  - destruct (p x), (p y); try reflexivity. apply perm_swap.
  - etransitivity; eassumption.
Qed.

Lemma key_leb_antisym (a b : Pandas.key) :
  Pandas.key_leb a b = true -> Pandas.key_leb b a = true -> a = b.
Proof.
  destruct a as [d1 f1], b as [d2 f2]. unfold Pandas.key_leb. simpl.
  rewrite !orb_true_iff, !andb_true_iff, !Z.ltb_lt, !Z.eqb_eq.
  intros [H1 | [H1 L1]] [H2 | [H2 L2]]; try lia.
  subst. f_equal. apply String.leb_antisym; assumption.
Qed.

(** Two duplicate-free lists sorted by key with the same members are the
    same list. *)
Lemma sorted_keys_unique (l1 l2 : list Pandas.key) :
  StronglySorted (fun a b => Pandas.key_leb a b = true) l1 ->
  StronglySorted (fun a b => Pandas.key_leb a b = true) l2 ->
  NoDup l1 -> NoDup l2 ->
  (forall k, In k l1 <-> In k l2) ->
  l1 = l2.
Proof.
  intros S1. revert l2. induction S1 as [|a l1 S1 IH F1]; intros l2 S2 N1 N2 H.
  - destruct l2 as [|b l2]; [reflexivity|].
    exfalso. apply (proj2 (H b)). left. reflexivity.
  - destruct l2 as [|b l2].
    + exfalso. apply (proj1 (H a)). left. reflexivity.
    + apply StronglySorted_inv in S2. destruct S2 as [S2 F2].
      inversion N1 as [|? ? Na N1']; subst. inversion N2 as [|? ? Nb N2']; subst.
      rewrite Forall_forall in F1, F2.
      assert (E : a = b).
      { destruct (proj1 (H a) (or_introl eq_refl)) as [E | Ha]; [auto|].
        destruct (proj2 (H b) (or_introl eq_refl)) as [E | Hb]; [auto|].
        apply key_leb_antisym; [apply F1 | apply F2]; assumption. }
      subst b. f_equal. apply IH; try assumption.
      intros k. split; intros Hk.
      * destruct (proj1 (H k) (or_intror Hk)) as [E | Hk']; [|assumption].
        subst k. contradiction.
      * destruct (proj2 (H k) (or_intror Hk)) as [E | Hk']; [|assumption].
        subst k. contradiction.
Qed.

(** X9: the daily table does not depend on the order of the events in the
    batch: the same groups come out in the same order, with the same event
    counts and with equal scores and intensities. *)
Theorem aggregate_order_independent (config : Config)
    (to_date : string -> option Z) (events events' : list Event) :
  Permutation events events' ->
  Forall2 (fun row row' =>
             date row = date row'
             /\ factor_code row = factor_code row'
             /\ score row == score row'
             /\ intensity row == intensity row'
             /\ event_count row = event_count row')
          (FactorEngine.aggregate_factor_scores_by_day config to_date events)
          (FactorEngine.aggregate_factor_scores_by_day config to_date events').
Proof.
  intros Hp.
  assert (Hr : Permutation (FactorEngine.collect_records config to_date events)
                           (FactorEngine.collect_records config to_date events')).
  { unfold FactorEngine.collect_records. apply Permutation_flat_map. assumption. }
  unfold FactorEngine.aggregate_factor_scores_by_day.
  set (recs := FactorEngine.collect_records config to_date events) in *.
  set (recs' := FactorEngine.collect_records config to_date events') in *.
  assert (Et : Py.truthy recs = Py.truthy recs').
  { destruct recs, recs'; try reflexivity.
    - apply Permutation_nil in Hr. discriminate.
    - symmetry in Hr. apply Permutation_nil in Hr. discriminate. }
  rewrite <- Et. destruct (Py.truthy recs); [|constructor].
  unfold FactorEngine.groupby_date_factor.
  assert (Ek : Pandas.sort_keys (Pandas.unique_keys (map FactorEngine.record_key recs))
               = Pandas.sort_keys
                   (Pandas.unique_keys (map FactorEngine.record_key recs'))).
  { apply sorted_keys_unique; try apply sort_keys_sorted;
      try (apply nodup_sort_keys, nodup_unique_keys).
    intros k. rewrite !in_sort_keys, !in_unique_keys.
    split; apply Permutation_in; [|symmetry]; apply Permutation_map; assumption. }
  rewrite <- Ek. clear Ek.
  generalize (Pandas.sort_keys (Pandas.unique_keys (map FactorEngine.record_key recs))).
  intros keys. induction keys as [|k ks IH]; simpl; constructor; [|assumption].
  assert (Hg : Permutation (FactorEngine.group_rows k recs)
                           (FactorEngine.group_rows k recs'))
    by (apply filter_perm; assumption).
  simpl. repeat split.
  - apply qsum_perm. apply Permutation_map. assumption.
  - apply qsum_perm. apply Permutation_map. assumption.
  - f_equal. unfold Pandas.count. apply Permutation_length.
    apply filter_perm. apply Permutation_map. assumption.
Qed.

Lemma aggregate_order_independent_witness :
  Forall2 (fun row row' =>
             date row = date row'
             /\ factor_code row = factor_code row'
             /\ score row == score row'
             /\ intensity row == intensity row'
             /\ event_count row = event_count row')
          (FactorEngine.aggregate_factor_scores_by_day Sample.config Sample.to_date
             [Sample.single_tag_event; Sample.no_strength_event])
          (FactorEngine.aggregate_factor_scores_by_day Sample.config Sample.to_date
             [Sample.no_strength_event; Sample.single_tag_event]).
Proof.
  apply aggregate_order_independent. apply perm_swap.
Defined.

(** ** Code fences around the classifier's answer *)

Lemma string_length_append (a b : string) :
  String.length (a ++ b) = (String.length a + String.length b)%nat.
Proof. induction a as [|c a IH]; simpl; [reflexivity | rewrite IH; reflexivity]. Qed.

Lemma substring_whole (s : string) : String.substring 0 (String.length s) s = s.
Proof. induction s as [|c s IH]; simpl; [reflexivity | rewrite IH; reflexivity]. Qed.

Lemma substring_append_skip (a b : string) (m : nat) :
  String.substring (String.length a) m (a ++ b) = String.substring 0 m b.
Proof. induction a as [|c a IH]; simpl; [reflexivity | apply IH]. Qed.

Lemma substring_append_take (a b : string) :
  String.substring 0 (String.length a) (a ++ b) = a.
Proof.
  induction a as [|c a IH]; simpl.
  - destruct b; reflexivity.
  - rewrite IH. reflexivity.
Qed.

Lemma slice_from_append (a b : string) :
  ResponseText.slice_from (String.length a) (a ++ b) = b.
Proof.
  unfold ResponseText.slice_from. rewrite string_length_append.
  replace (String.length a + String.length b - String.length a)%nat
    with (String.length b) by lia.
  rewrite substring_append_skip. apply substring_whole.
Qed.

Lemma endswith_fence (body : string) :
  ResponseText.endswith "```" (body ++ "```") = true.
Proof.
  unfold ResponseText.endswith. rewrite string_length_append. simpl String.length.
  replace (String.length body + 3 - 3)%nat with (String.length body) by lia.
  rewrite substring_append_skip.
  replace (3 <=? String.length body + 3)%nat with true
    by (symmetry; apply Nat.leb_le; lia).
  reflexivity.
Qed.

Lemma slice_off_fence (body : string) :
  ResponseText.slice_to_minus 3 (body ++ "```") = body.
Proof.
  unfold ResponseText.slice_to_minus. rewrite string_length_append. simpl String.length.
  replace (String.length body + 3 - 3)%nat with (String.length body) by lia.
  apply substring_append_take.
Qed.

(** X27: an answer whose body does not begin with a backtick is recovered from
    its fenced forms: [```json body ```] always, [``` body ```] when the
    body does not begin with [j]; left unfenced, it is returned unchanged
    unless it ends with a fence. *)
Theorem strip_code_fence_unwraps (c : ascii) (rest : string) :
  c <> "`"%char ->
  ResponseText.strip_code_fence ("```json" ++ String c rest ++ "```")
  = String c rest
  /\ (c <> "j"%char ->
      ResponseText.strip_code_fence ("```" ++ String c rest ++ "```")
      = String c rest)
  /\ (ResponseText.endswith "```" (String c rest) = false ->
      ResponseText.strip_code_fence (String c rest) = String c rest).
Proof.
  intros Hc.
  assert (Hs3 : forall t, ResponseText.startswith "```" (String c t) = false).
  { intros t. unfold ResponseText.startswith. cbn [String.prefix].
    destruct (Ascii.ascii_dec "`" c) as [E | _]; [congruence | reflexivity]. }
  assert (Hs7 : forall t, ResponseText.startswith "```json" (String c t) = false).
  { intros t. unfold ResponseText.startswith. cbn [String.prefix].
    destruct (Ascii.ascii_dec "`" c) as [E | _]; [congruence | reflexivity]. }
  assert (Hbody : forall t,
             (if ResponseText.startswith "```" (String c rest ++ "```")
              then t else (String c rest ++ "```")%string)
             = (String c rest ++ "```")%string).
  { intros t. change (String c rest ++ "```")%string with (String c (rest ++ "```")).
    rewrite Hs3. reflexivity. }
  split; [|split].
  - unfold ResponseText.strip_code_fence. cbv zeta.
    assert (E7 : ResponseText.startswith "```json"
                   ("```json" ++ String c rest ++ "```") = true) by reflexivity.
    rewrite E7, (slice_from_append "```json"), Hbody, endswith_fence.
    apply slice_off_fence.
  - intros Hj. unfold ResponseText.strip_code_fence. cbv zeta.
    assert (E7 : ResponseText.startswith "```json" ("```" ++ String c rest ++ "```")
                 = false).
    { unfold ResponseText.startswith.
      change (prefix "```json" ("```" ++ String c rest ++ "```"))
        with (prefix "json" (String c (rest ++ "```"))).
      cbn [String.prefix].
      destruct (Ascii.ascii_dec "j" c) as [E | _]; [congruence | reflexivity]. }
    rewrite E7.
    assert (E3 : ResponseText.startswith "```" ("```" ++ String c rest ++ "```") = true)
      by reflexivity.
    rewrite E3, (slice_from_append "```"), endswith_fence.
    apply slice_off_fence.
  - intros He. unfold ResponseText.strip_code_fence. cbv zeta.
    rewrite Hs7, Hs3, He. reflexivity.
Qed.

Lemma strip_code_fence_unwraps_witness :
  ResponseText.strip_code_fence "```json{}```" = "{}"%string
  /\ ResponseText.strip_code_fence "```{}```" = "{}"%string
  /\ ResponseText.strip_code_fence "{}" = "{}"%string.
Proof.
  destruct (strip_code_fence_unwraps "{"%char "}") as [H1 [H2 H3]];
    [discriminate|].
  split; [exact H1|]. split; [apply H2; discriminate | apply H3; reflexivity].
Defined.
